(** * JamfScriptUploader: a shallow embedding of
      [JamfUploaderProcessors/JamfScriptUploader.py]

    The processor uploads one script to a Jamf Pro server.  Its two methods,
    [upload_script] and [main], are embedded below as functions in a small
    state-and-exception monad.  The state holds the AutoPkg environment
    dictionary [self.env] and the trace of the effects performed so far; the
    collaborators inherited from [JamfUploaderBase], the operating system and
    what is left to the Python interpreter are the fields of a [World]. *)

From Stdlib Require Import Floats ZArith Ascii String List DecimalString.
From stdpp Require Import base strings list gmap.
From Equations Require Import Equations.

Local Open Scope string_scope.

(** ** Python values *)

Module Py.

(** The values that an AutoPkg environment holds: [None], booleans, integers,
    floats, strings, lists and dictionaries with string keys.  A string is
    held as the bytes of its UTF-8 encoding. *)
#[warnings="-register-all"]
Inductive PyVal : Type :=
  | PyNone
  | PyBool (b : bool)
  | PyInt (n : Z)
  | PyFloat (x : float)
  | PyStr (s : string)
  | PyList (l : list PyVal)
  | PyDict (d : list (string * PyVal)).

(** The exceptions that the embedded code can raise. *)
Inductive Exn : Type :=
  | ProcessorError (msg : string)
  | TypeError
  | ValueError
  | OverflowError
  | AttributeError
  | IsADirectoryError.

Inductive Result (A : Type) : Type :=
  | Ok (a : A)
  | Raise (e : Exn).
Arguments Ok {A} a.
Arguments Raise {A} e.

(** What is left to the interpreter.  The builtins below are defined here
    on the inputs where their result is fixed by the language: text made of
    ASCII characters, plain decimal numerals.  Elsewhere the result depends
    on the Unicode tables of the interpreter, on its limit on the length of
    numerals or on its formatting of floats, and is taken from these
    fields:
    - [upper_of_text s] is [s.upper()] and [repr_of_text s] is [repr(s)] for
      an [s] that has characters outside ASCII;
    - [int_of_text s] is [int(s)] for an [s] that is not a plain decimal
      numeral;
    - [repr_of_float x] is [repr(x)]. *)
Record Interpreter : Type := {
  upper_of_text : string -> string;
  repr_of_text : string -> string;
  int_of_text : string -> Result Z;
  repr_of_float : float -> string;
}.

(** [bool(v)] *)
Definition truthy (v : PyVal) : bool :=
  match v with
  | PyNone => false
  | PyBool b => b
  | PyInt n => negb (n =? 0)%Z
  | PyFloat x => negb (x =? 0)%float
  | PyStr s => negb (String.eqb s "")
  | PyList l => match l with [] => false | _ => true end
  | PyDict d => match d with [] => false | _ => true end
  end.

(** [v == s] for a string literal [s] *)
Definition eq_str (v : PyVal) (s : string) : bool :=
  match v with
  | PyStr t => String.eqb t s
  | _ => false
  end.

(** [needle in s] on strings *)
Fixpoint str_contains (needle s : string) : bool :=
  String.prefix needle s ||
  match s with
  | EmptyString => false
  | String _ r => str_contains needle r
  end.

(** [needle in v]: substring test on a string, membership in a list, key
    membership in a dictionary; anything else is not iterable. *)
Definition contains (needle : string) (v : PyVal) : Result bool :=
  match v with
  | PyStr s => Ok (str_contains needle s)
  | PyList l => Ok (existsb (fun x => eq_str x needle) l)
  | PyDict d => Ok (existsb (fun kv => String.eqb (fst kv) needle) d)
  | _ => Raise TypeError
  end.

(** [s.isascii()] *)
Definition is_ascii (s : string) : bool :=
  forallb (fun c => (nat_of_ascii c <? 128)%nat) (list_ascii_of_string s).

(** *** [str.upper] *)

Definition upper_ascii (c : ascii) : ascii :=
  let n := nat_of_ascii c in
  if (97 <=? n)%nat && (n <=? 122)%nat then ascii_of_nat (n - 32) else c.

(** On ASCII text the letters a-z are replaced and nothing else is. *)
Fixpoint str_upper_ascii (s : string) : string :=
  match s with
  | EmptyString => EmptyString
  | String c r => String (upper_ascii c) (str_upper_ascii r)
  end.

(** [s.upper()] *)
Definition str_upper (py : Interpreter) (s : string) : string :=
  if is_ascii s then str_upper_ascii s else upper_of_text py s.

(** [v.upper()] *)
Definition upper (py : Interpreter) (v : PyVal) : Result PyVal :=
  match v with
  | PyStr s => Ok (PyStr (str_upper py s))
  | _ => Raise AttributeError
  end.

(** *** [str] and [repr] *)

Definition hex_digit (n : nat) : ascii :=
  if (n <? 10)%nat then ascii_of_nat (48 + n) else ascii_of_nat (87 + n).

Definition str_has (c : ascii) (s : string) : bool :=
  existsb (Ascii.eqb c) (list_ascii_of_string s).

Definition repr_char (quote c : ascii) : string :=
  let n := nat_of_ascii c in
  if Ascii.eqb c quote || Ascii.eqb c "\"%char then String "\" (String c "")
  else if (n =? 9)%nat then "\t"
  else if (n =? 10)%nat then "\n"
  else if (n =? 13)%nat then "\r"
  else if (n <? 32)%nat || (n =? 127)%nat
       then String "\" (String "x" (String (hex_digit (n / 16))
                                   (String (hex_digit (n mod 16)) "")))
  else String c "".

Definition double_quote : ascii := ascii_of_nat 34.

(** [repr(s)] for ASCII text *)
Definition repr_ascii (s : string) : string :=
  let quote : ascii :=
    if str_has "'" s && negb (str_has double_quote s) then double_quote
    else "'"%char in
  String quote
    (fold_right (fun c acc => repr_char quote c ++ acc) (String quote "")
                (list_ascii_of_string s)).

(** [repr(s)] *)
Definition repr_str (py : Interpreter) (s : string) : string :=
  if is_ascii s then repr_ascii s else repr_of_text py s.

Definition str_of_Z (n : Z) : string := NilZero.string_of_int (Z.to_int n).

Fixpoint repr (py : Interpreter) (v : PyVal) : string :=
  match v with
  | PyNone => "None"
  | PyBool true => "True"
  | PyBool false => "False"
  | PyInt n => str_of_Z n
  | PyFloat x => repr_of_float py x
  | PyStr s => repr_str py s
  | PyList l =>
      "[" ++ (fix items (l : list PyVal) : string :=
                match l with
                | [] => ""
                | [x] => repr py x
                | x :: r => repr py x ++ ", " ++ items r
                end) l ++ "]"
  | PyDict d =>
      "{" ++ (fix items (d : list (string * PyVal)) : string :=
                match d with
                | [] => ""
                | [(k, x)] => repr_str py k ++ ": " ++ repr py x
                | (k, x) :: r =>
                    repr_str py k ++ ": " ++ repr py x ++ ", " ++ items r
                end) d ++ "}"
  end.

(** [str(v)], which is also what ["{}".format(v)] inserts. *)
Definition str (py : Interpreter) (v : PyVal) : string :=
  match v with
  | PyStr s => s
  | _ => repr py v
  end.

(** *** [int] *)

Definition is_ascii_digit (c : ascii) : bool :=
  let n := nat_of_ascii c in (48 <=? n)%nat && (n <=? 57)%nat.

Fixpoint digits_value (acc : Z) (l : list ascii) : option Z :=
  match l with
  | [] => Some acc
  | c :: r =>
      if is_ascii_digit c
      then digits_value (10 * acc + Z.of_nat (nat_of_ascii c - 48)) r
      else None
  end.

(** The value of a plain decimal numeral: an optional sign and then ASCII
    digits, at least one and at most 640, which is the length up to which no
    setting of the interpreter refuses a numeral. *)
Definition plain_decimal (s : string) : option Z :=
  let digits (l : list ascii) : option Z :=
    if (1 <=? length l)%nat && (length l <=? 640)%nat then digits_value 0 l
    else None in
  match list_ascii_of_string s with
  | "-"%char :: r => Z.opp <$> digits r
  | "+"%char :: r => digits r
  | l => digits l
  end.

(** [int(s)] *)
Definition int_of_str (py : Interpreter) (s : string) : Result Z :=
  match plain_decimal s with
  | Some n => Ok n
  | None => int_of_text py s
  end.

(** [int(x)]: the fractional part is dropped. *)
Definition int_of_float (x : float) : Result Z :=
  match Prim2SF x with
  | S754_zero _ => Ok 0%Z
  | S754_finite negative m e =>
      let n := Z.shiftl (Z.pos m) e in
      Ok (if negative then - n else n)%Z
  | S754_infinity _ => Raise OverflowError
  | S754_nan => Raise ValueError
  end.

(** [int(v)] *)
Definition int (py : Interpreter) (v : PyVal) : Result Z :=
  match v with
  | PyInt n => Ok n
  | PyBool b => Ok (if b then 1 else 0)%Z
  | PyFloat x => int_of_float x
  | PyStr s => int_of_str py s
  | _ => Raise TypeError
  end.

(** *** [os.path] *)

(** [posixpath.basename]: what follows the last slash. *)
Fixpoint basename_str (p : string) : string :=
  match p with
  | EmptyString => EmptyString
  | String c r =>
      if Ascii.eqb c "/" then basename_str r
      else if str_has "/" r then basename_str r
      else p
  end.

Definition basename (v : PyVal) : Result PyVal :=
  match v with
  | PyStr p => Ok (PyStr (basename_str p))
  | _ => Raise TypeError
  end.

(** Looking a key up in a dictionary literal. *)
Fixpoint dict_get (k : string) (d : list (string * PyVal)) : option PyVal :=
  match d with
  | [] => None
  | (k', v) :: r => if String.eqb k' k then Some v else dict_get k r
  end.

End Py.
Import Py.

(** ** The world around the processor *)

(** What a path names on disk: a readable text file or a directory. *)
Inductive FsEntry : Type :=
  | File (contents : string)
  | Dir.

(** The response object returned by [curl]; only [status_code] is read. *)
Record Response : Type := { status_code : Z; body : string }.

(** The methods inherited from [JamfUploaderBase], which are not part of this
    file of the repository, the file system and the interpreter, taken as
    given.  The methods may consult the environment of the processor: a world
    fixes what they answer in the course of one run.  [curl] is indexed by the
    number of requests sent before it, so that a server may answer successive
    attempts differently. *)
Record World : Type := {
  python :> Interpreter;
  handle_uapi_auth : PyVal -> PyVal -> PyVal -> Result PyVal;
  get_uapi_obj_id_from_name : PyVal -> string -> PyVal -> PyVal -> PyVal;
  get_path_to_file : PyVal -> PyVal;
  substitute_assignable_keys : string -> string;
  write_json_file : PyVal -> PyVal;
  api_endpoints : string -> string;
  curl : nat -> string -> string -> PyVal -> PyVal -> Response;
  status_check : Response -> string -> PyVal -> string -> string;
  fs : string -> option FsEntry;
  fds : Z -> option FsEntry;
}.

(** ** Effects *)

Inductive Event : Type :=
  | EOutput (msg : PyVal) (verbose_level : nat)
  | EAuth (jamf_url jamf_user jamf_password : PyVal)
  | ELookup (jamf_url : PyVal) (obj_type : string) (obj_name token : PyVal)
  | EFindFile (name : PyVal)
  | EWriteJson (data : PyVal)
  | ECurl (request url : string) (token data : PyVal)
  | ESleep (seconds : Z).


Definition is_curl (e : Event) : bool :=
  match e with ECurl _ _ _ _ => true | _ => false end.

Definition is_sleep (e : Event) : bool :=
  match e with ESleep _ => true | _ => false end.

Record State : Type := {
  env : gmap string PyVal;
  trace : list Event;
}.

Definition M (A : Type) : Type := State -> Result A * State.

Definition ret {A} (a : A) : M A := fun st => (Ok a, st).

Definition bind {A B} (c : M A) (k : A -> M B) : M B :=
  fun st =>
    match c st with
    | (Ok a, st') => k a st'
    | (Raise e, st') => (Raise e, st')
    end.

Definition raise {A} (e : Exn) : M A := fun st => (Raise e, st).

Definition lift {A} (r : Result A) : M A := fun st => (r, st).

Notation "x <- c ;; k" := (bind c (fun x => k))
  (at level 100, c at next level, right associativity).
Notation "c ;;; k" := (bind c (fun _ => k))
  (at level 100, k at level 200, right associativity).

Definition emit (e : Event) : M unit :=
  fun st => (Ok tt, {| env := env st; trace := trace st ++ [e] |}).

Definition get_env : M (gmap string PyVal) := fun st => (Ok (env st), st).

Definition set_item (k : string) (v : PyVal) : M unit :=
  fun st => (Ok tt, {| env := <[k := v]> (env st); trace := trace st |}).

Definition del_item (k : string) : M unit :=
  fun st => (Ok tt, {| env := delete k (env st); trace := trace st |}).

(** [self.env.get(k)] *)
Definition env_get (e : gmap string PyVal) (k : string) : PyVal :=
  default PyNone (e !! k).

(** [self.output(msg, verbose_level)], with AutoPkg's default level 1. *)
Definition output (msg : PyVal) (verbose_level : nat) : M unit :=
  emit (EOutput msg verbose_level).

Definition sleep (seconds : Z) : M unit := emit (ESleep seconds).

Definition do_auth (w : World) (url user password : PyVal) : M PyVal :=
  emit (EAuth url user password) ;;; lift (handle_uapi_auth w url user password).

Definition do_lookup (w : World) (url : PyVal) (obj_type : string)
    (obj_name token : PyVal) : M PyVal :=
  emit (ELookup url obj_type obj_name token) ;;;
  ret (get_uapi_obj_id_from_name w url obj_type obj_name token).

Definition do_find_file (w : World) (name : PyVal) : M PyVal :=
  emit (EFindFile name) ;;; ret (get_path_to_file w name).

Definition do_write_json (w : World) (data : PyVal) : M PyVal :=
  emit (EWriteJson data) ;;; ret (write_json_file w data).

Definition do_curl (w : World) (request url : string) (token data : PyVal)
  : M Response :=
  fun st =>
    let sent := length (List.filter is_curl (trace st)) in
    (Ok (curl w sent request url token data),
     {| env := env st; trace := trace st ++ [ECurl request url token data] |}).

(** [os.path.exists(path)] followed by [open(path).read()]: a string names a
    path, an integer an open file descriptor. *)
Definition path_entry (w : World) (path : PyVal) : Result (option FsEntry) :=
  match path with
  | PyStr p => Ok (fs w p)
  | PyInt n => Ok (fds w n)
  | PyBool b => Ok (fds w (if b then 1 else 0)%Z)
  | _ => Raise TypeError
  end.

(** ** The processor *)

(** The attributes that [main] stores on [self]. *)
Record Self : Type := {
  self_jamf_url : PyVal;
  self_jamf_user : PyVal;
  self_jamf_password : PyVal;
  self_script_path : PyVal;
  self_script_name : PyVal;
  self_script_category : PyVal;
  self_script_priority : PyVal;
  self_osrequirements : PyVal;
  self_script_info : PyVal;
  self_script_notes : PyVal;
  self_script_parameter4 : PyVal;
  self_script_parameter5 : PyVal;
  self_script_parameter6 : PyVal;
  self_script_parameter7 : PyVal;
  self_script_parameter8 : PyVal;
  self_script_parameter9 : PyVal;
  self_script_parameter10 : PyVal;
  self_script_parameter11 : PyVal;
  self_replace : PyVal;
  self_sleep : PyVal;
}.

(** *** [upload_script] *)

(** Lines 166-171: import the script from the file. *)
Definition read_script (w : World) (script_path : PyVal) : M string :=
  entry <- lift (path_entry w script_path) ;;
  match entry with
  | Some (File script_contents) => ret script_contents
  | Some Dir => raise IsADirectoryError
  | None => raise (ProcessorError "Script does not exist!")
  end.

(** Lines 176-178: priority has to be in upper case. *)
Definition normalize_priority (w : World) (script_priority : PyVal) : M PyVal :=
  if truthy script_priority then lift (Py.upper w script_priority)
  else ret script_priority.

(** Lines 213-218: the object id is appended when there is one. *)
Definition script_url (w : World) (jamf_url obj_id : PyVal) : string :=
  let object_type := "script" in
  if truthy obj_id
  then Py.str w jamf_url ++ "/" ++ api_endpoints w object_type ++ "/"
       ++ Py.str w obj_id
  else Py.str w jamf_url ++ "/" ++ api_endpoints w object_type.

(** Lines 222-228: one pass through the head of the loop, one request. *)
Definition attempt (w : World) (url : string) (token script_json obj_id : PyVal)
    (count : nat) : M (string * Response) :=
  output (PyStr ("Script upload attempt " ++ str_of_Z (Z.of_nat count))) 2 ;;;
  let request := if truthy obj_id then "PUT" else "POST" in
  r <- do_curl w request url token script_json ;;
  ret (request, r).

(** Lines 233-235 *)
Definition abort_upload (r : Response) : M Response :=
  output (PyStr "Script upload did not succeed after 5 attempts") 1 ;;;
  output (PyStr (String "010"%char "HTTP POST Response Code: "
                 ++ str_of_Z (status_code r))) 1 ;;;
  raise (ProcessorError "ERROR: Script upload failed ").

(** Lines 236-239 *)
Definition backoff (w : World) (self : Self) : M unit :=
  n <- lift (Py.int w (self_sleep self)) ;;
  if (n >? 30)%Z
  then (n' <- lift (Py.int w (self_sleep self)) ;; sleep n')
  else sleep 30.

(** Lines 220-240.  [count] is the value of the counter on entry to an
    iteration; the loop ends because the counter only grows and an iteration
    entered with a counter of five or more does not go round again. *)
Equations? upload_loop (w : World) (self : Self) (script_name : PyVal)
    (url : string) (token script_json obj_id : PyVal) (count : nat)
  : M Response by wf (6 - count)%nat lt :=
  upload_loop w self script_name url token script_json obj_id count :=
    let count' := S count in
    rr <- attempt w url token script_json obj_id count' ;;
    let '(request, r) := rr in
    if String.eqb (status_check w r "Script" script_name request) "break"
    then ret r
    else
      match decide (5 < count')%nat with
      | left _ => abort_upload r
      | right _ =>
          backoff w self ;;;
          upload_loop w self script_name url token script_json obj_id count'
      end.
Proof. lia. Qed.

(** Lines 180-198: build the object. *)
Definition script_data
    (script_name script_info script_notes script_priority category_id
     script_category script_parameter4 script_parameter5 script_parameter6
     script_parameter7 script_parameter8 script_parameter9 script_parameter10
     script_parameter11 script_os_requirements : PyVal)
    (script_contents : string) : PyVal :=
  PyDict [
    ("name", script_name);
    ("info", script_info);
    ("notes", script_notes);
    ("priority", script_priority);
    ("categoryId", category_id);
    ("categoryName", script_category);
    ("parameter4", script_parameter4);
    ("parameter5", script_parameter5);
    ("parameter6", script_parameter6);
    ("parameter7", script_parameter7);
    ("parameter8", script_parameter8);
    ("parameter9", script_parameter9);
    ("parameter10", script_parameter10);
    ("parameter11", script_parameter11);
    ("osRequirements", script_os_requirements);
    ("scriptContents", PyStr script_contents)
  ].

(** Lines 142-240 *)
Definition upload_script (w : World) (self : Self)
    (jamf_url script_name script_path category_id script_category script_info
     script_notes script_priority script_parameter4 script_parameter5
     script_parameter6 script_parameter7 script_parameter8 script_parameter9
     script_parameter10 script_parameter11 script_os_requirements token
     obj_id : PyVal) : M Response :=
  (* import script from file and replace any keys in the script *)
  script_contents <- read_script w script_path ;;
  (* substitute user-assignable keys *)
  let script_contents := substitute_assignable_keys w script_contents in
  (* priority has to be in upper case *)
  script_priority <- normalize_priority w script_priority ;;
  let script_data :=
    script_data script_name script_info script_notes script_priority
      category_id script_category script_parameter4 script_parameter5
      script_parameter6 script_parameter7 script_parameter8 script_parameter9
      script_parameter10 script_parameter11 script_os_requirements
      script_contents in
  output (PyStr "Script data:") 2 ;;;
  output script_data 2 ;;;
  script_json <- do_write_json w script_data ;;
  output (PyStr "Uploading script..") 1 ;;;
  (* if we find an object ID we put, if not, we post *)
  let url := script_url w jamf_url obj_id in
  let count := 0%nat in
  upload_loop w self script_name url token script_json obj_id count.

(** *** [main] *)

(** Assignments [self.replace = v], [self.script_category = v],
    [self.script_path = v] and [self.script_name = v]. *)
Definition set_replace (v : PyVal) (self : Self) : Self :=
  {| self_jamf_url := self_jamf_url self;
     self_jamf_user := self_jamf_user self;
     self_jamf_password := self_jamf_password self;
     self_script_path := self_script_path self;
     self_script_name := self_script_name self;
     self_script_category := self_script_category self;
     self_script_priority := self_script_priority self;
     self_osrequirements := self_osrequirements self;
     self_script_info := self_script_info self;
     self_script_notes := self_script_notes self;
     self_script_parameter4 := self_script_parameter4 self;
     self_script_parameter5 := self_script_parameter5 self;
     self_script_parameter6 := self_script_parameter6 self;
     self_script_parameter7 := self_script_parameter7 self;
     self_script_parameter8 := self_script_parameter8 self;
     self_script_parameter9 := self_script_parameter9 self;
     self_script_parameter10 := self_script_parameter10 self;
     self_script_parameter11 := self_script_parameter11 self;
     self_replace := v; self_sleep := self_sleep self |}.

Definition set_script_category (v : PyVal) (self : Self) : Self :=
  {| self_jamf_url := self_jamf_url self;
     self_jamf_user := self_jamf_user self;
     self_jamf_password := self_jamf_password self;
     self_script_path := self_script_path self;
     self_script_name := self_script_name self; self_script_category := v;
     self_script_priority := self_script_priority self;
     self_osrequirements := self_osrequirements self;
     self_script_info := self_script_info self;
     self_script_notes := self_script_notes self;
     self_script_parameter4 := self_script_parameter4 self;
     self_script_parameter5 := self_script_parameter5 self;
     self_script_parameter6 := self_script_parameter6 self;
     self_script_parameter7 := self_script_parameter7 self;
     self_script_parameter8 := self_script_parameter8 self;
     self_script_parameter9 := self_script_parameter9 self;
     self_script_parameter10 := self_script_parameter10 self;
     self_script_parameter11 := self_script_parameter11 self;
     self_replace := self_replace self; self_sleep := self_sleep self |}.

Definition set_script_path (v : PyVal) (self : Self) : Self :=
  {| self_jamf_url := self_jamf_url self;
     self_jamf_user := self_jamf_user self;
     self_jamf_password := self_jamf_password self; self_script_path := v;
     self_script_name := self_script_name self;
     self_script_category := self_script_category self;
     self_script_priority := self_script_priority self;
     self_osrequirements := self_osrequirements self;
     self_script_info := self_script_info self;
     self_script_notes := self_script_notes self;
     self_script_parameter4 := self_script_parameter4 self;
     self_script_parameter5 := self_script_parameter5 self;
     self_script_parameter6 := self_script_parameter6 self;
     self_script_parameter7 := self_script_parameter7 self;
     self_script_parameter8 := self_script_parameter8 self;
     self_script_parameter9 := self_script_parameter9 self;
     self_script_parameter10 := self_script_parameter10 self;
     self_script_parameter11 := self_script_parameter11 self;
     self_replace := self_replace self; self_sleep := self_sleep self |}.

Definition set_script_name (v : PyVal) (self : Self) : Self :=
  {| self_jamf_url := self_jamf_url self;
     self_jamf_user := self_jamf_user self;
     self_jamf_password := self_jamf_password self;
     self_script_path := self_script_path self; self_script_name := v;
     self_script_category := self_script_category self;
     self_script_priority := self_script_priority self;
     self_osrequirements := self_osrequirements self;
     self_script_info := self_script_info self;
     self_script_notes := self_script_notes self;
     self_script_parameter4 := self_script_parameter4 self;
     self_script_parameter5 := self_script_parameter5 self;
     self_script_parameter6 := self_script_parameter6 self;
     self_script_parameter7 := self_script_parameter7 self;
     self_script_parameter8 := self_script_parameter8 self;
     self_script_parameter9 := self_script_parameter9 self;
     self_script_parameter10 := self_script_parameter10 self;
     self_script_parameter11 := self_script_parameter11 self;
     self_replace := self_replace self; self_sleep := self_sleep self |}.

Definition summary_key : string := "jamfscriptuploader_summary_result".

(** Lines 244-263: the inputs are copied from the environment. *)
Definition read_inputs (e : gmap string PyVal) : Self :=
  {| self_jamf_url := env_get e "JSS_URL";
     self_jamf_user := env_get e "API_USERNAME";
     self_jamf_password := env_get e "API_PASSWORD";
     self_script_path := env_get e "script_path";
     self_script_name := env_get e "script_name";
     self_script_category := env_get e "script_category";
     self_script_priority := env_get e "script_priority";
     self_osrequirements := env_get e "osrequirements";
     self_script_info := env_get e "script_info";
     self_script_notes := env_get e "script_notes";
     self_script_parameter4 := env_get e "script_parameter4";
     self_script_parameter5 := env_get e "script_parameter5";
     self_script_parameter6 := env_get e "script_parameter6";
     self_script_parameter7 := env_get e "script_parameter7";
     self_script_parameter8 := env_get e "script_parameter8";
     self_script_parameter9 := env_get e "script_parameter9";
     self_script_parameter10 := env_get e "script_parameter10";
     self_script_parameter11 := env_get e "script_parameter11";
     self_replace := env_get e "replace_script";
     self_sleep := env_get e "sleep" |}.

(** Lines 264-266: handle setting replace in overrides. *)
Definition normalize_replace (self : Self) : Self :=
  if negb (truthy (self_replace self)) || eq_str (self_replace self) "False"
  then set_replace (PyBool false) self
  else self.

(** Lines 268-270: clear any pre-existing summary result. *)
Definition clear_summary : M unit :=
  e <- get_env ;;
  if bool_decide (is_Some (e !! summary_key)) then del_item summary_key
  else ret tt.

(** Lines 276-299: get the id for a category if supplied.  The result is
    [self] and the local [category_id]. *)
Definition resolve_category (w : World) (self : Self) (token : PyVal)
  : M (Self * PyVal) :=
  if truthy (self_script_category self) then
    output (PyStr ("Checking categories for "
                   ++ Py.str w (self_script_category self))) 1 ;;;
    (* check for existing category - requires obj_name *)
    let obj_type := "category" in
    let obj_name := self_script_category self in
    category_id <- do_lookup w (self_jamf_url self) obj_type obj_name token ;;
    if negb (truthy category_id) then
      output (PyStr "WARNING: Category not found!") 1 ;;;
      let category_id := PyStr "-1" in
      ret (self, category_id)
    else
      output (PyStr ("Category " ++ Py.str w (self_script_category self)
                     ++ " found: ID=" ++ Py.str w category_id)) 1 ;;;
      ret (self, category_id)
  else
    let self := set_script_category (PyStr "") self in
    let category_id := PyStr "-1" in
    ret (self, category_id).

(** Lines 301-307: handle files with no path. *)
Definition resolve_path (w : World) (self : Self) : M Self :=
  has_slash <- lift (Py.contains "/" (self_script_path self)) ;;
  if negb has_slash then
    found_template <- do_find_file w (self_script_path self) ;;
    if truthy found_template then ret (set_script_path found_template self)
    else raise (ProcessorError ("ERROR: Script file "
                                ++ Py.str w (self_script_path self)
                                ++ " not found"))
  else ret self.

(** Lines 309-311: the name defaults to the file's base name. *)
Definition default_name (self : Self) : M Self :=
  if negb (truthy (self_script_name self)) then
    name <- lift (Py.basename (self_script_path self)) ;;
    ret (set_script_name name self)
  else ret self.

(** Lines 395-411: the [data] entry of the summary. *)
Definition summary_data (w : World) (self : Self) : PyVal :=
  PyDict [
    ("script", self_script_name self);
    ("path", self_script_path self);
    ("category", self_script_category self);
    ("priority", PyStr (Py.str w (self_script_priority self)));
    ("info", self_script_info self);
    ("os_req", self_osrequirements self);
    ("notes", self_script_notes self);
    ("P4", self_script_parameter4 self);
    ("P5", self_script_parameter5 self);
    ("P6", self_script_parameter6 self);
    ("P7", self_script_parameter7 self);
    ("P8", self_script_parameter8 self);
    ("P9", self_script_parameter9 self);
    ("P10", self_script_parameter10 self);
    ("P11", self_script_parameter11 self)
  ].

Definition summary_result (w : World) (self : Self) : PyVal :=
  PyDict [
    ("summary_text",
     PyStr "The following scripts were created or updated in Jamf Pro:");
    ("report_fields",
     PyList (PyStr <$> ["script"; "path"; "category"; "priority"; "os_req";
                        "info"; "notes"; "P4"; "P5"; "P6"; "P7"; "P8"; "P9";
                        "P10"; "P11"]));
    ("data", summary_data w self)
  ].

(** The two ways in which [main] returns: at line 346, without uploading, or
    by reaching its end. *)
Inductive Outcome : Type := Skipped | Uploaded.

(** Lines 348-412: post the script and output the summary. *)
Definition post_and_report (w : World) (self : Self)
    (category_id token obj_id : PyVal) : M Outcome :=
  upload_script w self
    (self_jamf_url self) (self_script_name self) (self_script_path self)
    category_id (self_script_category self) (self_script_info self)
    (self_script_notes self) (self_script_priority self)
    (self_script_parameter4 self) (self_script_parameter5 self)
    (self_script_parameter6 self) (self_script_parameter7 self)
    (self_script_parameter8 self) (self_script_parameter9 self)
    (self_script_parameter10 self) (self_script_parameter11 self)
    (self_osrequirements self) token obj_id ;;;
  let script_uploaded := true in
  (* output the summary *)
  set_item "script_name" (self_script_name self) ;;;
  set_item "script_uploaded" (PyBool script_uploaded) ;;;
  (if script_uploaded then set_item summary_key (summary_result w self)
   else ret tt) ;;;
  ret Uploaded.

(** Lines 313-346, then the rest: check for an existing script and either
    return or go on to the upload. *)
Definition check_and_post (w : World) (self : Self) (category_id token : PyVal)
  : M Outcome :=
  output (PyStr ("Checking for existing '" ++ Py.str w (self_script_name self)
                 ++ "' on " ++ Py.str w (self_jamf_url self))) 1 ;;;
  output (PyStr ("Full path: " ++ Py.str w (self_script_path self))) 2 ;;;
  let obj_type := "script" in
  let obj_name := self_script_name self in
  obj_id <- do_lookup w (self_jamf_url self) obj_type obj_name token ;;
  if truthy obj_id then
    output (PyStr ("Script '" ++ Py.str w (self_script_name self)
                   ++ "' already exists: ID " ++ Py.str w obj_id)) 1 ;;;
    if truthy (self_replace self) then
      output (PyStr ("Replacing existing script as 'replace_script' is set to "
                     ++ Py.str w (self_replace self))) 1 ;;;
      post_and_report w self category_id token obj_id
    else
      output (PyStr "Not replacing existing script. Use replace_script='True' to enforce.") 1 ;;;
      ret Skipped
  else post_and_report w self category_id token obj_id.

(** Lines 244-311: everything up to the check for an existing script.  The
    result is [self] and the locals [category_id] and [token]. *)
Definition prepare (w : World) : M (Self * PyVal * PyVal) :=
  e <- get_env ;;
  let self := read_inputs e in
  (* handle setting replace in overrides *)
  let self := normalize_replace self in
  clear_summary ;;;
  (* obtain the relevant credentials *)
  token <- do_auth w (self_jamf_url self) (self_jamf_user self)
                     (self_jamf_password self) ;;
  (* get the id for a category if supplied *)
  sc <- resolve_category w self token ;;
  let '(self, category_id) := sc in
  (* handle files with no path *)
  self <- resolve_path w self ;;
  (* now start the process of uploading the object *)
  self <- default_name self ;;
  ret (self, category_id, token).

(** Lines 242-412 *)
Definition main (w : World) : M Outcome :=
  p <- prepare w ;;
  let '(self, category_id, token) := p in
  check_and_post w self category_id token.

(** Running from an environment, with an empty trace. *)
Definition run {A} (c : M A) (e : gmap string PyVal) : Result A * State :=
  c {| env := e; trace := [] |}.

(** ** Vocabulary of the statements *)

Local Open Scope list_scope.

(** [c] only appends events satisfying [P] to the trace. *)
Definition traces {A} (P : Event -> Prop) (c : M A) : Prop :=
  forall st, exists t, trace (c st).2 = trace st ++ t /\ Forall P t.

(** [c] leaves the environment alone. *)
Definition keeps_env {A} (c : M A) : Prop :=
  forall st, env (c st).2 = env st.

(** The state [st] after the further events [t]. *)
Definition extend (st : State) (t : list Event) : State :=
  {| env := env st; trace := trace st ++ t |}.

(** The number of requests sent so far. *)
Definition sent (st : State) : nat := length (List.filter is_curl (trace st)).

(** The message that opens the iteration in which the counter is [count]. *)
Definition attempt_msg (count : nat) : Event :=
  EOutput (PyStr ("Script upload attempt " ++ str_of_Z (Z.of_nat count))%string) 2.

(** The method that the loop uses for an object id. *)
Definition method_for (obj_id : PyVal) : string :=
  if truthy obj_id then "PUT" else "POST".

Definition is_write_json (e : Event) : bool :=
  match e with EWriteJson _ => true | _ => false end.

(** Events of the upload proper: writing the payload, requests and pauses. *)
Definition is_upload_step (e : Event) : bool :=
  match e with
  | EWriteJson _ | ECurl _ _ _ _ | ESleep _ => true
  | _ => false
  end.

(** The entry [k] of a record. *)
Definition record_field (k : string) (v : PyVal) : option PyVal :=
  match v with
  | PyDict d => dict_get k d
  | _ => None
  end.

(** The message that opens an iteration of the loop, recognised. *)
Definition is_attempt_msg (e : Event) : bool :=
  match e with
  | EOutput (PyStr s) 2 => String.prefix "Script upload attempt " s
  | _ => false
  end.

(** Events that belong neither to the upload proper nor to the loop. *)
Definition is_quiet (e : Event) : bool :=
  negb (is_upload_step e) && negb (is_attempt_msg e).

(** The false-like values: [None], [False], zero, the empty string, list and
    dictionary, and the string ["False"], spelt so. *)
Definition false_like (v : PyVal) : bool :=
  match v with
  | PyNone => true
  | PyBool b => negb b
  | PyInt n => (n =? 0)%Z
  | PyFloat x => (x =? 0)%float
  | PyStr s => String.eqb s "" || String.eqb s "False"
  | PyList l => match l with [] => true | _ => false end
  | PyDict d => match d with [] => true | _ => false end
  end.

(** The path that [main] ends up reading for the input [script_path]: the
    input itself when it contains a slash, what [get_path_to_file] finds for
    it otherwise. *)
Definition resolved_path (w : World) (script_path : PyVal) : option PyVal :=
  match Py.contains "/" script_path with
  | Ok true => Some script_path
  | Ok false =>
      let found := get_path_to_file w script_path in
      if truthy found then Some found else None
  | Raise _ => None
  end.

(** What the input [script_path] resolves to on disk, if anything. *)
Definition script_file (w : World) (script_path : PyVal) : option FsEntry :=
  match resolved_path w script_path with
  | Some p => match path_entry w p with Ok entry => entry | Raise _ => None end
  | None => None
  end.

(** No regular file has a name ending in a slash. *)
Definition files_are_named (w : World) : Prop :=
  forall p contents, fs w p = Some (File contents) -> basename_str p <> "".

(** The attributes of [self] once [main] has resolved the path to
    [script_path] and settled on the name [script_name]. *)
Definition prepared_self (e : gmap string PyVal) (script_path script_name : PyVal)
  : Self :=
  {| self_jamf_url := env_get e "JSS_URL";
     self_jamf_user := env_get e "API_USERNAME";
     self_jamf_password := env_get e "API_PASSWORD";
     self_script_path := script_path;
     self_script_name := script_name;
     self_script_category :=
       if truthy (env_get e "script_category") then env_get e "script_category"
       else PyStr "";
     self_script_priority := env_get e "script_priority";
     self_osrequirements := env_get e "osrequirements";
     self_script_info := env_get e "script_info";
     self_script_notes := env_get e "script_notes";
     self_script_parameter4 := env_get e "script_parameter4";
     self_script_parameter5 := env_get e "script_parameter5";
     self_script_parameter6 := env_get e "script_parameter6";
     self_script_parameter7 := env_get e "script_parameter7";
     self_script_parameter8 := env_get e "script_parameter8";
     self_script_parameter9 := env_get e "script_parameter9";
     self_script_parameter10 := env_get e "script_parameter10";
     self_script_parameter11 := env_get e "script_parameter11";
     self_replace :=
       if false_like (env_get e "replace_script") then PyBool false
       else env_get e "replace_script";
     self_sleep := env_get e "sleep" |}.

(** The category id that [main] passes on: the id found for a supplied
    category, and the sentinel otherwise. *)
Definition category_id_for (w : World) (e : gmap string PyVal) (token : PyVal)
  : PyVal :=
  if truthy (env_get e "script_category") then
    let found := get_uapi_obj_id_from_name w (env_get e "JSS_URL") "category"
                   (env_get e "script_category") token in
    if truthy found then found else PyStr "-1"
  else PyStr "-1".

(** The name that [main] settles on for a resolved path. *)
Definition name_for (e : gmap string PyVal) (script_path : PyVal) : Result PyVal :=
  if truthy (env_get e "script_name") then Ok (env_get e "script_name")
  else Py.basename script_path.

(** What reading the script at [script_path] gives (lines 166-171). *)
Definition read_result (w : World) (script_path : PyVal) : Result string :=
  match path_entry w script_path with
  | Ok (Some (File contents)) => Ok contents
  | Ok (Some Dir) => Raise IsADirectoryError
  | Ok None => Raise (ProcessorError "Script does not exist!")
  | Raise x => Raise x
  end.

(** The priority that is transmitted (lines 176-178). *)
Definition priority_result (w : World) (script_priority : PyVal)
  : Result PyVal :=
  if truthy script_priority then Py.upper w script_priority
  else Ok script_priority.

(** The record that [main] builds from [self] for given priority, category id
    and file contents. *)
Definition record_of (w : World) (self : Self) (priority category_id : PyVal)
    (contents : string) : PyVal :=
  script_data (self_script_name self) (self_script_info self)
    (self_script_notes self) priority category_id (self_script_category self)
    (self_script_parameter4 self) (self_script_parameter5 self)
    (self_script_parameter6 self) (self_script_parameter7 self)
    (self_script_parameter8 self) (self_script_parameter9 self)
    (self_script_parameter10 self) (self_script_parameter11 self)
    (self_osrequirements self) (substitute_assignable_keys w contents).

(** The events that precede the loop in [upload_script], for the record [d]. *)
Definition announce (d : PyVal) : list Event :=
  [EOutput (PyStr "Script data:") 2; EOutput d 2; EWriteJson d;
   EOutput (PyStr "Uploading script..") 1].

(** The events that the loop can leave: messages, requests with the one
    method, address, token and payload, and pauses of the floored length. *)
Definition loop_event (w : World) (self : Self) (request url : string)
    (token data : PyVal) (e : Event) : Prop :=
  match e with
  | EOutput _ _ => True
  | ECurl request' url' token' data' =>
      request' = request /\ url' = url /\ token' = token /\ data' = data
  | ESleep seconds =>
      exists n, Py.int w (self_sleep self) = Ok n /\ seconds = Z.max n 30
  | _ => False
  end.

(** The environment after a successful upload (lines 372-412). *)
Definition report (w : World) (self : Self) (e : gmap string PyVal)
  : gmap string PyVal :=
  <[summary_key := summary_result w self]>
    (<["script_uploaded" := PyBool true]>
       (<["script_name" := self_script_name self]> e)).

(** The events of lines 313-328, up to the answer of the server. *)
Definition check_events (w : World) (self : Self) (token : PyVal)
  : list Event :=
  [EOutput (PyStr ("Checking for existing '" ++ Py.str w (self_script_name self)
                   ++ "' on " ++ Py.str w (self_jamf_url self))%string) 1;
   EOutput (PyStr ("Full path: " ++ Py.str w (self_script_path self))%string) 2;
   ELookup (self_jamf_url self) "script" (self_script_name self) token].

Definition exists_msg (w : World) (self : Self) (obj_id : PyVal) : Event :=
  EOutput (PyStr ("Script '" ++ Py.str w (self_script_name self)
                  ++ "' already exists: ID " ++ Py.str w obj_id)%string) 1.

Definition replacing_msg (w : World) (self : Self) : Event :=
  EOutput (PyStr ("Replacing existing script as 'replace_script' is set to "
                  ++ Py.str w (self_replace self))%string) 1.

Definition not_replacing_msg : Event :=
  EOutput (PyStr "Not replacing existing script. Use replace_script='True' to enforce.") 1.

Definition category_warning : Event :=
  EOutput (PyStr "WARNING: Category not found!") 1.

(** ** A concrete server and concrete recipes *)

(** The interpreter of the examples.  They deal in ASCII text and in plain
    numerals, for which nothing is left to it; it changes no character outside
    ASCII, refuses every other numeral, and of the floats it knows the text
    of 45.5 alone. *)
Definition demo_python : Interpreter := {|
  upper_of_text := str_upper_ascii;
  repr_of_text := repr_ascii;
  int_of_text _ := Raise ValueError;
  repr_of_float x := if (x =? 45.5)%float then "45.5" else "nan"
|}.

(** A server that knows one script, [existing.sh] with id 17, and one
    category, [Tools] with id 3, and that answers the [n]-th request with the
    status [status n]. *)
Definition demo_world (status : nat -> Z) : World := {|
  python := demo_python;
  handle_uapi_auth _ _ _ := Ok (PyStr "token");
  get_uapi_obj_id_from_name _ obj_type obj_name _ :=
    if String.eqb obj_type "script" && eq_str obj_name "existing.sh" then PyInt 17
    else if String.eqb obj_type "category" && eq_str obj_name "Tools" then PyInt 3
    else PyInt 0;
  get_path_to_file name :=
    if eq_str name "found.sh" then PyStr "/recipes/found.sh" else PyNone;
  substitute_assignable_keys contents := contents;
  write_json_file _ := PyStr "/tmp/jamf_upload.json";
  api_endpoints _ := "api/v1/scripts";
  curl n _ _ _ _ := {| status_code := status n; body := "" |};
  status_check r _ _ _ :=
    if (status_code r =? 200)%Z || (status_code r =? 201)%Z then "break" else "";
  fs p :=
    if String.eqb p "/scripts/new.sh" then Some (File "#!/bin/sh")
    else if String.eqb p "/scripts/existing.sh" then Some (File "#!/bin/zsh")
    else if String.eqb p "/scripts/empty.sh" then Some (File "")
    else if String.eqb p "/scripts" then Some Dir
    else None;
  fds _ := None
|}.

Definition healthy : nat -> Z := fun _ => 201%Z.
Definition unavailable : nat -> Z := fun _ => 503%Z.

(** A recipe for the script at [script_path]. *)
Definition demo_env (script_path replace_script script_category : PyVal)
  : gmap string PyVal :=
  <["JSS_URL" := PyStr "https://jamf.example.com"]>
    (<["API_USERNAME" := PyStr "autopkg"]>
       (<["API_PASSWORD" := PyStr "secret"]>
          (<["script_path" := script_path]>
             (<["script_category" := script_category]>
                (<["script_priority" := PyStr "after"]>
                   (<["replace_script" := replace_script]>
                      (<["sleep" := PyStr "5"]>
                         (<[summary_key := PyStr "stale"]> ∅)))))))).

(** The attributes that the loop reads, for a configured pause. *)
Definition demo_self (sleep_value : PyVal) : Self :=
  set_replace (PyBool false)
    (read_inputs (<["sleep" := sleep_value]>
                    (demo_env (PyStr "/scripts/new.sh") (PyBool false) (PyStr "")))).

(** ** The declared variables *)

(** An entry of [input_variables] or [output_variables]: the keys [required]
    and [default] are optional. *)
Record Declared : Type := {
  var_required : option bool;
  var_description : string;
  var_default : option PyVal;
}.

(** Lines 29-130 *)
Definition input_variables : list (string * Declared) := [
  ("JSS_URL",
   {| var_required := Some true;
      var_description :=
        "URL to a Jamf Pro server that the API user has write access to, optionally set as a key in the com.github.autopkg preference file.";
      var_default := None |});
  ("API_USERNAME",
   {| var_required := Some true;
      var_description :=
        "Username of account with appropriate access to jss, optionally set as a key in the com.github.autopkg preference file.";
      var_default := None |});
  ("API_PASSWORD",
   {| var_required := Some true;
      var_description :=
        "Password of api user, optionally set as a key in the com.github.autopkg preference file.";
      var_default := None |});
  ("script_path",
   {| var_required := Some false;
      var_description :=
        "Full path to the script to be uploaded";
      var_default := None |});
  ("script_name",
   {| var_required := Some false;
      var_description :=
        "Name of the script in Jamf";
      var_default := None |});
  ("script_category",
   {| var_required := Some false;
      var_description :=
        "Script category";
      var_default := Some (PyStr "") |});
  ("script_priority",
   {| var_required := Some false;
      var_description :=
        "Script priority (BEFORE or AFTER)";
      var_default := Some (PyStr "AFTER") |});
  ("osrequirements",
   {| var_required := Some false;
      var_description :=
        "Script OS requirements";
      var_default := Some (PyStr "") |});
  ("script_info",
   {| var_required := Some false;
      var_description :=
        "Script info field";
      var_default := Some (PyStr "") |});
  ("script_notes",
   {| var_required := Some false;
      var_description :=
        "Script notes field";
      var_default := Some (PyStr "") |});
  ("script_parameter4",
   {| var_required := Some false;
      var_description :=
        "Script parameter 4 title";
      var_default := Some (PyStr "") |});
  ("script_parameter5",
   {| var_required := Some false;
      var_description :=
        "Script parameter 5 title";
      var_default := Some (PyStr "") |});
  ("script_parameter6",
   {| var_required := Some false;
      var_description :=
        "Script parameter 6 title";
      var_default := Some (PyStr "") |});
  ("script_parameter7",
   {| var_required := Some false;
      var_description :=
        "Script parameter 7 title";
      var_default := Some (PyStr "") |});
  ("script_parameter8",
   {| var_required := Some false;
      var_description :=
        "Script parameter 8 title";
      var_default := Some (PyStr "") |});
  ("script_parameter9",
   {| var_required := Some false;
      var_description :=
        "Script parameter 9 title";
      var_default := Some (PyStr "") |});
  ("script_parameter10",
   {| var_required := Some false;
      var_description :=
        "Script parameter 10 title";
      var_default := Some (PyStr "") |});
  ("script_parameter11",
   {| var_required := Some false;
      var_description :=
        "Script parameter 11 title";
      var_default := Some (PyStr "") |});
  ("replace_script",
   {| var_required := Some false;
      var_description :=
        "Overwrite an existing script if True.";
      var_default := Some (PyBool false) |});
  ("sleep",
   {| var_required := Some false;
      var_description :=
        "Pause after running this processor for specified seconds.";
      var_default := Some (PyStr "0") |})
].

(** Lines 132-140 *)
Definition output_variables : list (string * Declared) := [
  ("script_name",
   {| var_required := Some false;
      var_description :=
        "Name of the uploaded script";
      var_default := None |});
  ("jamfscriptuploader_summary_result",
   {| var_required := None;
      var_description :=
        "Description of interesting results.";
      var_default := None |})
].

(** The names that a dictionary of variables declares. *)
Definition names (vars : list (string * Declared)) : list string := vars.*1.

(** ** Further vocabulary *)

Definition is_lookup (e : Event) : bool :=
  match e with ELookup _ _ _ _ => true | _ => false end.

Definition is_auth (e : Event) : bool :=
  match e with EAuth _ _ _ => true | _ => false end.

(** The events that [main] can leave before it checks for the script, apart
    from the authentication: messages at the default level, the lookup of the
    supplied category and the search for a file given without a path. *)
Definition prepare_event (e : gmap string PyVal) (token : PyVal) (ev : Event)
  : Prop :=
  match ev with
  | EOutput _ level => level = 1%nat
  | ELookup url obj_type obj_name token' =>
      url = env_get e "JSS_URL" /\ obj_type = "category"
      /\ obj_name = env_get e "script_category" /\ token' = token
      /\ truthy obj_name = true
  | EFindFile name => name = env_get e "script_path"
  | _ => False
  end.

(** What [main] has in hand when it comes to check for the script, once
    authentication has given [token]; [Raise] when it does not get there. *)
Definition prepared (w : World) (e : gmap string PyVal) (token : PyVal)
  : Result (Self * PyVal * PyVal) :=
  let script_path := env_get e "script_path" in
  match Py.contains "/" script_path with
  | Raise x => Raise x
  | Ok has_slash =>
      let found := get_path_to_file w script_path in
      if has_slash || truthy found then
        let path := if has_slash then script_path else found in
        match name_for e path with
        | Ok name => Ok (prepared_self e path name, category_id_for w e token, token)
        | Raise x => Raise x
        end
      else Raise (ProcessorError ("ERROR: Script file " ++ Py.str w script_path
                                  ++ " not found")%string)
  end.

(** The server of [demo_world], refusing the credentials. *)
Definition locked_world : World := {|
  python := demo_python;
  handle_uapi_auth _ _ _ := Raise (ProcessorError "ERROR: No token received");
  get_uapi_obj_id_from_name := get_uapi_obj_id_from_name (demo_world (fun _ => 401%Z));
  get_path_to_file := get_path_to_file (demo_world (fun _ => 401%Z));
  substitute_assignable_keys := substitute_assignable_keys (demo_world (fun _ => 401%Z));
  write_json_file := write_json_file (demo_world (fun _ => 401%Z));
  api_endpoints := api_endpoints (demo_world (fun _ => 401%Z));
  curl := curl (demo_world (fun _ => 401%Z));
  status_check := status_check (demo_world (fun _ => 401%Z));
  fs := fs (demo_world (fun _ => 401%Z));
  fds := fds (demo_world (fun _ => 401%Z))
|}.

(** A server that is ready from the third request on. *)
Definition slow_start : nat -> Z := fun n => if (n <? 2)%nat then 503%Z else 201%Z.

(** What can follow the authentication in a run of [main] that was given
    [token]: no second authentication; lookups at the configured server with
    the token, of the supplied category or of the name settled for the
    script; requests with the token. *)
Definition main_event (w : World) (e : gmap string PyVal) (token : PyVal)
    (ev : Event) : Prop :=
  match ev with
  | EAuth _ _ _ => False
  | ELookup url obj_type obj_name token' =>
      url = env_get e "JSS_URL" /\ token' = token
      /\ ((obj_type = "category" /\ obj_name = env_get e "script_category"
           /\ truthy obj_name = true)
          \/ (obj_type = "script"
              /\ exists path,
                   resolved_path w (env_get e "script_path") = Some path
                   /\ name_for e path = Ok obj_name))
  | ECurl _ _ token' _ => token' = token
  | _ => True
  end.
(** ** Sanity checks of the Python primitives *)

Example str_examples (py : Interpreter) :
  Py.str py (PyInt (-17)) = "-17" /\ Py.str py (PyStr "a") = "a" /\
  Py.str py (PyBool false) = "False" /\
  Py.repr py (PyDict [("k", PyList [PyStr "its"; PyNone; PyInt 0]);
                      ("j", PyStr "x")])
    = "{'k': ['its', None, 0], 'j': 'x'}" /\
  Py.repr py (PyStr "it's")
    = String double_quote ("it's" ++ String double_quote "")%string.
Proof. repeat split; vm_compute; reflexivity. Qed.

Example int_examples (py : Interpreter) :
  Py.int py (PyStr "5") = Ok 5%Z /\ Py.int py (PyStr "-10") = Ok (-10)%Z /\
  Py.int py (PyStr "007") = Ok 7%Z /\ Py.int py (PyInt 45) = Ok 45%Z /\
  Py.int py (PyBool true) = Ok 1%Z /\ Py.int py (PyFloat 45.5) = Ok 45%Z /\
  Py.int py (PyFloat (-0.5)) = Ok 0%Z /\ Py.int py (PyFloat 1e3) = Ok 1000%Z /\
  Py.int py (PyFloat infinity) = Raise OverflowError /\
  Py.int py (PyFloat nan) = Raise ValueError /\
  Py.int py PyNone = Raise TypeError /\ Py.int py (PyList []) = Raise TypeError /\
  Py.int py (PyStr " 5") = int_of_text py " 5" /\
  Py.int py (PyStr "") = int_of_text py "".
Proof. repeat split; vm_compute; reflexivity. Qed.

Example basename_examples :
  basename_str "/a/b/c.sh" = "c.sh" /\ basename_str "c.sh" = "c.sh" /\
  basename_str "/a/b/" = "".
Proof. repeat split; vm_compute; reflexivity. Qed.

Example upper_examples (py : Interpreter) :
  str_upper py "after" = "AFTER" /\ str_upper py "Before-2" = "BEFORE-2" /\
  str_upper py "" = "" /\
  truthy (PyFloat 0) = false /\ truthy (PyFloat (-0)) = false /\
  truthy (PyFloat nan) = true /\ truthy (PyFloat 45.5) = true.
Proof. repeat split; vm_compute; reflexivity. Qed.

(** ** Reasoning about traces *)


Section Traces.
Context {A : Type}.

Lemma traces_ret P (a : A) : traces P (ret a).
Proof. intros st. exists []. simpl. by rewrite app_nil_r. Qed.

Lemma traces_raise P (e : Exn) : traces P (raise (A:=A) e).
Proof. intros st. exists []. simpl. by rewrite app_nil_r. Qed.

Lemma traces_lift P (r : Result A) : traces P (lift r).
Proof. intros st. exists []. simpl. by rewrite app_nil_r. Qed.

Lemma traces_weaken (P Q : Event -> Prop) (c : M A) :
  (forall e, P e -> Q e) -> traces P c -> traces Q c.
Proof.
  intros HPQ Hc st. destruct (Hc st) as (t & Ht & HP).
  exists t. split; [done|]. eapply Forall_impl; eauto.
Qed.

Lemma keeps_env_ret (a : A) : keeps_env (ret a).
Proof. by intros st. Qed.

Lemma keeps_env_raise (e : Exn) : keeps_env (raise (A:=A) e).
Proof. by intros st. Qed.

Lemma keeps_env_lift (r : Result A) : keeps_env (lift r).
Proof. by intros st. Qed.
End Traces.

Lemma traces_bind {A B} P (c : M A) (k : A -> M B) :
  traces P c -> (forall a, traces P (k a)) -> traces P (bind c k).
Proof.
  intros Hc Hk st. unfold bind.
  destruct (Hc st) as (t1 & Ht1 & HP1).
  destruct (c st) as [[a|e] st1]; simpl in *.
  - destruct (Hk a st1) as (t2 & Ht2 & HP2).
    exists (t1 ++ t2). rewrite Ht2, Ht1, app_assoc. split; [done|].
    by apply Forall_app.
  - by exists t1.
Qed.

Lemma keeps_env_bind {A B} (c : M A) (k : A -> M B) :
  keeps_env c -> (forall a, keeps_env (k a)) -> keeps_env (bind c k).
Proof.
  intros Hc Hk st. unfold bind. specialize (Hc st).
  destruct (c st) as [[a|e] st1]; simpl in *; [|done].
  by rewrite Hk.
Qed.

Lemma traces_emit P (e : Event) : P e -> traces P (emit e).
Proof. intros He st. exists [e]. simpl. split; [done|]. by constructor. Qed.

Lemma keeps_env_emit (e : Event) : keeps_env (emit e).
Proof. by intros st. Qed.

Lemma traces_get_env P : traces P get_env.
Proof. intros st. exists []. simpl. by rewrite app_nil_r. Qed.

Lemma traces_set_item P k v : traces P (set_item k v).
Proof. intros st. exists []. simpl. by rewrite app_nil_r. Qed.

Lemma traces_del_item P k : traces P (del_item k).
Proof. intros st. exists []. simpl. by rewrite app_nil_r. Qed.

Lemma traces_do_curl P w request url token data :
  P (ECurl request url token data) -> traces P (do_curl w request url token data).
Proof. intros He st. exists [ECurl request url token data]. simpl. split; [done|]. by constructor. Qed.

Lemma keeps_env_do_curl w request url token data :
  keeps_env (do_curl w request url token data).
Proof. by intros st. Qed.

Lemma traces_clear_summary P : traces P clear_summary.
Proof.
  apply traces_bind; [apply traces_get_env|]. intros e.
  case_bool_decide; [apply traces_del_item | apply traces_ret].
Qed.

(** The goals [traces P c] and [keeps_env c] for a [c] built from the
    primitives are solved by following the structure of [c]. *)
Ltac step_effects :=
  match goal with
  | |- traces _ (bind _ _) => apply traces_bind; [|intros]
  | |- traces _ (ret _) => apply traces_ret
  | |- traces _ (raise _) => apply traces_raise
  | |- traces _ (lift _) => apply traces_lift
  | |- traces _ get_env => apply traces_get_env
  | |- traces _ clear_summary => apply traces_clear_summary
  | |- traces _ (set_item _ _) => apply traces_set_item
  | |- traces _ (del_item _) => apply traces_del_item
  | |- traces _ (emit _) => apply traces_emit
  | |- traces _ (output _ _) => apply traces_emit
  | |- traces _ (sleep _) => apply traces_emit
  | |- traces _ (do_curl _ _ _ _ _) => apply traces_do_curl
  | |- keeps_env (bind _ _) => apply keeps_env_bind; [|intros]
  | |- keeps_env (ret _) => apply keeps_env_ret
  | |- keeps_env (raise _) => apply keeps_env_raise
  | |- keeps_env (lift _) => apply keeps_env_lift
  | |- keeps_env (emit _) => apply keeps_env_emit
  | |- keeps_env (output _ _) => apply keeps_env_emit
  | |- keeps_env (sleep _) => apply keeps_env_emit
  | |- keeps_env (do_curl _ _ _ _ _) => apply keeps_env_do_curl
  | |- traces _ (if ?b then _ else _) => destruct b eqn:?
  | |- keeps_env (if ?b then _ else _) => destruct b eqn:?
  | |- traces _ (match ?x with _ => _ end) => destruct x eqn:?
  | |- keeps_env (match ?x with _ => _ end) => destruct x eqn:?
  end.

Ltac effects := repeat step_effects.

(** ** The retry loop *)

Lemma backoff_run (w : World) self n st :
  Py.int w (self_sleep self) = Ok n ->
  backoff w self st = (Ok tt, extend st [ESleep (Z.max n 30)]).
Proof.
  intros Hn. unfold backoff, bind, lift. rewrite Hn.
  destruct (Z.gtb_spec n 30) as [H|H].
  - simpl. by rewrite Z.max_l by lia.
  - simpl. by rewrite Z.max_r by lia.
Qed.

Lemma backoff_raise (w : World) self e st :
  Py.int w (self_sleep self) = Raise e -> backoff w self st = (Raise e, st).
Proof. intros Hn. unfold backoff, bind, lift. by rewrite Hn. Qed.

Lemma traces_backoff (P : Event -> Prop) (w : World) self :
  (forall n, Py.int w (self_sleep self) = Ok n -> P (ESleep (Z.max n 30))) ->
  traces P (backoff w self).
Proof.
  intros HP st. destruct (Py.int w (self_sleep self)) as [n|e] eqn:Hn.
  - rewrite (backoff_run _ _ n) by done. exists [ESleep (Z.max n 30)].
    split; [done|]. constructor; auto.
  - rewrite (backoff_raise _ _ e) by done. exists []. by rewrite app_nil_r.
Qed.

Lemma keeps_env_backoff w self : keeps_env (backoff w self).
Proof.
  intros st. destruct (Py.int w (self_sleep self)) as [n|e] eqn:Hn.
  - by rewrite (backoff_run _ _ n).
  - by rewrite (backoff_raise _ _ e).
Qed.

Section Loop.
Variables (w : World) (self : Self) (script_name : PyVal) (url : string)
          (token script_json obj_id : PyVal).

Lemma traces_upload_loop (P : Event -> Prop) :
  (forall m l, P (EOutput m l)) ->
  P (ECurl (method_for obj_id) url token script_json) ->
  (forall n, Py.int w (self_sleep self) = Ok n -> P (ESleep (Z.max n 30))) ->
  forall count,
    traces P (upload_loop w self script_name url token script_json obj_id count).
Proof.
  intros Hout Hcurl Hsleep count.
  remember (6 - count)%nat as k eqn:Hk.
  revert count Hk. induction (lt_wf k) as [k _ IH]. intros count ->.
  rewrite upload_loop_equation_1. cbv zeta. unfold attempt, abort_upload.
  effects; auto.
  - apply traces_backoff; auto.
  - eapply (IH (6 - S count)%nat); [lia|done].
Qed.

Lemma keeps_env_upload_loop count :
  keeps_env (upload_loop w self script_name url token script_json obj_id count).
Proof.
  remember (6 - count)%nat as k eqn:Hk.
  revert count Hk. induction (lt_wf k) as [k _ IH]. intros count ->.
  rewrite upload_loop_equation_1. cbv zeta. unfold attempt, abort_upload.
  effects.
  - apply keeps_env_backoff.
  - eapply (IH (6 - S count)%nat); [lia|done].
Qed.
End Loop.

Lemma extend_extend st t1 t2 : extend (extend st t1) t2 = extend st (t1 ++ t2).
Proof. unfold extend. simpl. by rewrite app_assoc. Qed.

Lemma sent_extend st t :
  sent (extend st t) = (sent st + length (List.filter is_curl t))%nat.
Proof. unfold sent, extend. simpl. by rewrite List.filter_app, length_app. Qed.

Lemma attempt_run w url token script_json obj_id count st :
  let request := method_for obj_id in
  attempt w url token script_json obj_id count st
  = (Ok (request, curl w (sent st) request url token script_json),
     extend st [attempt_msg count; ECurl request url token script_json]).
Proof.
  unfold attempt, bind, output, emit, do_curl, ret, extend, sent; simpl.
  rewrite List.filter_app, length_app; simpl.
  by rewrite Nat.add_0_r, <- app_assoc.
Qed.

Section LoopSteps.
Variables (w : World) (self : Self) (script_name : PyVal) (url : string)
          (token script_json obj_id : PyVal).

Local Notation "'request'" := (method_for obj_id) (only parsing).
Local Notation "'loop'" :=
  (upload_loop w self script_name url token script_json obj_id) (only parsing).
Local Notation "'response' st" :=
  (curl w (sent st) (method_for obj_id) url token script_json)
  (at level 10, st at level 9, only parsing).
Local Notation "'breaks' st" :=
  (String.eqb (status_check w (curl w (sent st) (method_for obj_id) url token
                                    script_json)
                 "Script" script_name (method_for obj_id)) "break")
  (at level 10, st at level 9, only parsing).

Lemma upload_loop_break count st :
  breaks st = true ->
  loop count st
  = (Ok (response st),
     extend st [attempt_msg (S count); ECurl request url token script_json]).
Proof.
  intros Hb. rewrite upload_loop_equation_1.
  cbv zeta. unfold bind at 1. rewrite attempt_run.
  by rewrite Hb.
Qed.

Lemma upload_loop_retry count st n :
  breaks st = false -> (count < 5)%nat -> Py.int w (self_sleep self) = Ok n ->
  loop count st
  = loop (S count)
      (extend st [attempt_msg (S count); ECurl request url token script_json;
                  ESleep (Z.max n 30)]).
Proof.
  intros Hb Hc Hn. rewrite upload_loop_equation_1.
  cbv zeta. unfold bind at 1. rewrite attempt_run.
  rewrite Hb.
  destruct (decide (5 < S count)%nat) as [?|_]; [lia|].
  unfold bind. rewrite (backoff_run _ _ n) by done. unfold extend. simpl.
  by rewrite <- !app_assoc.
Qed.

Lemma upload_loop_exhausted count st :
  breaks st = false -> (5 <= count)%nat ->
  loop count st
  = (Raise (ProcessorError "ERROR: Script upload failed "),
     extend st
       [attempt_msg (S count); ECurl request url token script_json;
        EOutput (PyStr "Script upload did not succeed after 5 attempts") 1;
        EOutput (PyStr (String "010"%char "HTTP POST Response Code: "
                        ++ str_of_Z (status_code (response st)))%string) 1]).
Proof.
  intros Hb Hc. rewrite upload_loop_equation_1.
  cbv zeta. unfold bind at 1. rewrite attempt_run.
  rewrite Hb.
  destruct (decide (5 < S count)%nat) as [_|?]; [|lia].
  unfold abort_upload, bind, output, emit, raise, extend.
  simpl. by rewrite <- !app_assoc.
Qed.
End LoopSteps.

(** ** The stages of [main] *)

Lemma false_like_spec v :
  negb (truthy v) || eq_str v "False" = false_like v.
Proof.
  destruct v as [|[]|n|x|s|[]|[]]; try reflexivity; simpl.
  - by rewrite negb_involutive, orb_false_r.
  - by rewrite negb_involutive, orb_false_r.
  - by rewrite negb_involutive.
Qed.

Lemma normalize_replace_read e :
  self_replace (normalize_replace (read_inputs e))
  = if false_like (env_get e "replace_script") then PyBool false
    else env_get e "replace_script".
Proof.
  unfold normalize_replace. simpl. rewrite false_like_spec.
  by destruct (false_like _).
Qed.

Lemma clear_summary_run st :
  clear_summary st
  = (Ok tt, {| env := delete summary_key (env st); trace := trace st |}).
Proof.
  unfold clear_summary, bind, get_env, del_item, ret.
  case_bool_decide as H; [done|].
  rewrite delete_id; [by destruct st|].
  by apply eq_None_not_Some.
Qed.


Lemma normalize_replace_eq self :
  normalize_replace self
  = set_replace (if false_like (self_replace self) then PyBool false
                 else self_replace self) self.
Proof.
  unfold normalize_replace. rewrite false_like_spec.
  destruct (false_like _); [done|]. by destruct self.
Qed.

Lemma do_auth_run w url user password st :
  do_auth w url user password st
  = (handle_uapi_auth w url user password, extend st [EAuth url user password]).
Proof. reflexivity. Qed.

Lemma do_lookup_run w url obj_type obj_name token st :
  do_lookup w url obj_type obj_name token st
  = (Ok (get_uapi_obj_id_from_name w url obj_type obj_name token),
     extend st [ELookup url obj_type obj_name token]).
Proof. reflexivity. Qed.

Lemma extend_nil st : extend st [] = st.
Proof. unfold extend. rewrite app_nil_r. by destruct st. Qed.

(** The three ways through the category stage. *)
Lemma resolve_category_none w self token st :
  truthy (self_script_category self) = false ->
  resolve_category w self token st
  = (Ok (set_script_category (PyStr "") self, PyStr "-1"), st).
Proof. intros H. unfold resolve_category. by rewrite H. Qed.

Lemma resolve_category_absent w self token st :
  truthy (self_script_category self) = true ->
  truthy (get_uapi_obj_id_from_name w (self_jamf_url self) "category"
            (self_script_category self) token) = false ->
  resolve_category w self token st
  = (Ok (self, PyStr "-1"),
     extend st
       [EOutput (PyStr ("Checking categories for "
                        ++ Py.str w (self_script_category self))%string) 1;
        ELookup (self_jamf_url self) "category" (self_script_category self) token;
        EOutput (PyStr "WARNING: Category not found!") 1]).
Proof.
  intros Hc Hid. unfold resolve_category. rewrite Hc.
  unfold bind, output, emit. rewrite do_lookup_run. simpl. rewrite Hid. simpl.
  unfold extend. simpl. by rewrite <- !app_assoc.
Qed.

Lemma resolve_category_found w self token st :
  let found := get_uapi_obj_id_from_name w (self_jamf_url self) "category"
                 (self_script_category self) token in
  truthy (self_script_category self) = true ->
  truthy found = true ->
  resolve_category w self token st
  = (Ok (self, found),
     extend st
       [EOutput (PyStr ("Checking categories for "
                        ++ Py.str w (self_script_category self))%string) 1;
        ELookup (self_jamf_url self) "category" (self_script_category self) token;
        EOutput (PyStr ("Category " ++ Py.str w (self_script_category self)
                        ++ " found: ID=" ++ Py.str w found)%string) 1]).
Proof.
  intros found Hc Hid. unfold resolve_category. rewrite Hc.
  unfold bind, output, emit. rewrite do_lookup_run. simpl. fold found. rewrite Hid. simpl.
  unfold extend. simpl. by rewrite <- !app_assoc.
Qed.

Lemma resolve_path_run w self st :
  resolve_path w self st
  = match Py.contains "/" (self_script_path self) with
    | Raise x => (Raise x, st)
    | Ok true => (Ok self, st)
    | Ok false =>
        let found := get_path_to_file w (self_script_path self) in
        (if truthy found then Ok (set_script_path found self)
         else Raise (ProcessorError ("ERROR: Script file "
                       ++ Py.str w (self_script_path self) ++ " not found")%string),
         extend st [EFindFile (self_script_path self)])
    end.
Proof.
  unfold resolve_path, bind, lift.
  destruct (Py.contains "/" (self_script_path self)) as [[]|x]; simpl; try done.
  unfold do_find_file, bind, emit, ret. simpl.
  by destruct (truthy (get_path_to_file w (self_script_path self))).
Qed.

Lemma default_name_run self st :
  default_name self st
  = (if truthy (self_script_name self) then Ok self
     else match Py.basename (self_script_path self) with
          | Ok name => Ok (set_script_name name self)
          | Raise x => Raise x
          end, st).
Proof.
  unfold default_name, bind, lift, ret.
  destruct (truthy (self_script_name self)); simpl; [done|].
  by destruct (Py.basename (self_script_path self)).
Qed.

Lemma resolve_category_run w self token st :
  exists t,
    resolve_category w self token st
    = (Ok (if truthy (self_script_category self) then self
           else set_script_category (PyStr "") self,
           if truthy (self_script_category self) then
             let found := get_uapi_obj_id_from_name w (self_jamf_url self)
                            "category" (self_script_category self) token in
             if truthy found then found else PyStr "-1"
           else PyStr "-1"),
       extend st t)
    /\ Forall (fun e => is_quiet e = true) t.
Proof.
  destruct (truthy (self_script_category self)) eqn:Hc.
  - destruct (truthy (get_uapi_obj_id_from_name w (self_jamf_url self) "category"
                        (self_script_category self) token)) eqn:Hid.
    + eexists. rewrite resolve_category_found by done. cbv zeta. rewrite Hid.
      split; [reflexivity|]. by repeat constructor.
    + eexists. rewrite resolve_category_absent by done. cbv zeta. rewrite Hid.
      split; [reflexivity|]. by repeat constructor.
  - exists []. rewrite resolve_category_none by done. rewrite extend_nil.
    split; [reflexivity|]. constructor.
Qed.

(** What [prepare] hands over when it succeeds, and the events it leaves. *)
Lemma prepare_inv w st r st' :
  prepare w st = (r, st') ->
  let e := env st in
  env st' = delete summary_key e
  /\ (exists t,
        trace st' = trace st ++ EAuth (env_get e "JSS_URL") (env_get e "API_USERNAME")
                                  (env_get e "API_PASSWORD") :: t
        /\ Forall (fun ev => is_quiet ev = true) t)
  /\ forall self category_id token,
       r = Ok (self, category_id, token) ->
       exists path name,
         self = prepared_self e path name
         /\ handle_uapi_auth w (env_get e "JSS_URL") (env_get e "API_USERNAME")
              (env_get e "API_PASSWORD") = Ok token
         /\ category_id = category_id_for w e token
         /\ resolved_path w (env_get e "script_path") = Some path
         /\ name_for e path = Ok name.
Proof.
  intros H e. unfold prepare in H. unfold bind at 1 in H. simpl in H.
  unfold bind at 1 in H. rewrite clear_summary_run in H.
  unfold bind at 1 in H. rewrite do_auth_run in H.
  rewrite normalize_replace_eq in H. simpl in H. fold e in H.
  destruct (handle_uapi_auth w _ _ _) as [token|x] eqn:Hauth.
  2:{ inversion H; subst; simpl. split; [done|]. split; [by exists []|]. done. }
  unfold bind at 1 in H.
  match type of H with
  | context [resolve_category w ?s ?t ?st0] =>
      destruct (resolve_category_run w s t st0) as (t1 & Hcat & Ht1)
  end.
  rewrite Hcat in H. clear Hcat. simpl in H.
  unfold bind at 1 in H. rewrite resolve_path_run in H.
  unfold category_id_for, resolved_path, name_for. fold e.
  destruct (truthy (env_get e "script_category")) eqn:Hc; simpl in H.
  all: destruct (Py.contains "/" (env_get e "script_path")) as [[]|x] eqn:Hs;
    simpl in H.
  all: try destruct (truthy (get_path_to_file w (env_get e "script_path"))) eqn:Hf;
    simpl in H.
  all: try (unfold bind in H; rewrite default_name_run in H; simpl in H).
  all: try destruct (truthy (env_get e "script_name")) eqn:Hn; simpl in H.
  all: try destruct (Py.basename _) as [name|x'] eqn:Hb; simpl in H.
  all: inversion H; subst; clear H; simpl.
  all: split; [done|].
  all: split; [eexists; split; [rewrite <- ?app_assoc; simpl; reflexivity|];
               rewrite ?Forall_app; repeat split; auto; repeat constructor|].
  all: intros self category_id token' Heq; inversion Heq; subst; clear Heq.
  all: eexists _, _; unfold prepared_self; rewrite ?Hc, ?Hn; simpl.
  all: repeat split; try reflexivity; try done.
Qed.

(** *** [upload_script] *)

Lemma read_script_run w script_path st :
  read_script w script_path st = (read_result w script_path, st).
Proof.
  unfold read_script, read_result, bind, lift.
  by destruct (path_entry w script_path) as [[[]|]|].
Qed.

Lemma normalize_priority_run (w : World) script_priority st :
  normalize_priority w script_priority st = (priority_result w script_priority, st).
Proof.
  unfold normalize_priority, priority_result.
  by destruct (truthy script_priority).
Qed.

Lemma upload_script_run w self jamf_url script_name script_path category_id
    script_category script_info script_notes script_priority p4 p5 p6 p7 p8 p9
    p10 p11 script_os_requirements token obj_id st :
  upload_script w self jamf_url script_name script_path category_id
    script_category script_info script_notes script_priority p4 p5 p6 p7 p8 p9
    p10 p11 script_os_requirements token obj_id st
  = match read_result w script_path, priority_result w script_priority with
    | Ok contents, Ok priority =>
        let d := script_data script_name script_info script_notes priority
                   category_id script_category p4 p5 p6 p7 p8 p9 p10 p11
                   script_os_requirements
                   (substitute_assignable_keys w contents) in
        upload_loop w self script_name (script_url w jamf_url obj_id) token
          (write_json_file w d) obj_id 0 (extend st (announce d))
    | Raise x, _ => (Raise x, st)
    | Ok _, Raise x => (Raise x, st)
    end.
Proof.
  unfold upload_script. unfold bind at 1. rewrite read_script_run.
  destruct (read_result w script_path) as [contents|x]; [|done].
  unfold bind at 1. rewrite normalize_priority_run.
  destruct (priority_result w script_priority) as [priority|x]; [|done].
  unfold bind, output, emit, do_write_json, ret, extend, announce. simpl.
  by rewrite <- !app_assoc.
Qed.

Lemma state_extend st st' t :
  env st' = env st -> trace st' = trace st ++ t -> st' = extend st t.
Proof. destruct st'. unfold extend. simpl. by intros -> ->. Qed.

Lemma prefix_append (s1 s2 : string) : String.prefix s1 (s1 ++ s2)%string = true.
Proof.
  induction s1 as [|a s1 IH]; simpl.
  - by destruct s2.
  - by destruct (Ascii.ascii_dec a a).
Qed.

Lemma is_attempt_msg_attempt_msg count : is_attempt_msg (attempt_msg count) = true.
Proof. apply prefix_append. Qed.

(** Every iteration announces itself once and sends one request. *)
Lemma upload_loop_counts w self script_name url token script_json obj_id count st :
  exists t,
    (upload_loop w self script_name url token script_json obj_id count st).2
    = extend st t
    /\ length (List.filter is_curl t) = length (List.filter is_attempt_msg t).
Proof.
  remember (6 - count)%nat as k eqn:Hk.
  revert count st Hk. induction (lt_wf k) as [k _ IH]. intros count st ->.
  rewrite upload_loop_equation_1. cbv zeta. unfold bind at 1.
  rewrite attempt_run. cbv zeta.
  destruct (String.eqb _ "break").
  { eexists. split; [reflexivity|].
    cbn [List.filter is_curl length]. by rewrite is_attempt_msg_attempt_msg. }
  destruct (decide (5 < S count)%nat) as [Hc|Hc].
  { eexists. unfold abort_upload, bind, output, emit, raise. simpl.
    split; [unfold extend; simpl; rewrite <- !app_assoc; reflexivity|].
    cbn [List.filter is_curl length app]. by rewrite is_attempt_msg_attempt_msg. }
  unfold bind.
  destruct (Py.int w (self_sleep self)) as [n|x] eqn:Hn.
  - rewrite (backoff_run _ _ n) by done.
    destruct (IH (6 - S count)%nat ltac:(lia) (S count)
                (extend (extend st [attempt_msg (S count);
                                    ECurl (method_for obj_id) url token script_json])
                        [ESleep (Z.max n 30)]) eq_refl) as (t & Ht & Hcount).
    cbv beta iota. rewrite Ht.
    eexists. rewrite !extend_extend. split; [reflexivity|].
    rewrite !List.filter_app, !length_app, Hcount.
    cbn [List.filter is_curl length]. by rewrite is_attempt_msg_attempt_msg.
  - rewrite (backoff_raise _ _ x) by done.
    eexists. split; [reflexivity|].
    cbn [List.filter is_curl length]. by rewrite is_attempt_msg_attempt_msg.
Qed.

Lemma upload_loop_events w self script_name url token script_json obj_id count st :
  exists t,
    (upload_loop w self script_name url token script_json obj_id count st).2
    = extend st t
    /\ Forall (loop_event w self (method_for obj_id) url token script_json) t
    /\ length (List.filter is_curl t) = length (List.filter is_attempt_msg t).
Proof.
  destruct (upload_loop_counts w self script_name url token script_json obj_id
              count st) as (t' & Ht' & Hcount).
  destruct (traces_upload_loop w self script_name url token script_json obj_id
              (loop_event w self (method_for obj_id) url token script_json))
    with (count := count) (st := st) as (t & Ht & HP); simpl; eauto.
  rewrite Ht' in Ht. simpl in Ht. apply app_inv_head in Ht. subst t'.
  by exists t.
Qed.

(** *** [main] *)

Lemma post_and_report_run w self category_id token obj_id st :
  post_and_report w self category_id token obj_id st
  = match upload_script w self
            (self_jamf_url self) (self_script_name self) (self_script_path self)
            category_id (self_script_category self) (self_script_info self)
            (self_script_notes self) (self_script_priority self)
            (self_script_parameter4 self) (self_script_parameter5 self)
            (self_script_parameter6 self) (self_script_parameter7 self)
            (self_script_parameter8 self) (self_script_parameter9 self)
            (self_script_parameter10 self) (self_script_parameter11 self)
            (self_osrequirements self) token obj_id st with
    | (Ok _, st') =>
        (Ok Uploaded, {| env := report w self (env st'); trace := trace st' |})
    | (Raise x, st') => (Raise x, st')
    end.
Proof.
  unfold post_and_report. unfold bind at 1.
  by destruct (upload_script _ _ _ _ _ _ _ _ _ _ _ _ _ _ _ _ _ _ _ _ _ _)
    as [[r|x] st'].
Qed.

Lemma check_and_post_run w self category_id token st :
  let obj_id := get_uapi_obj_id_from_name w (self_jamf_url self) "script"
                  (self_script_name self) token in
  check_and_post w self category_id token st
  = if truthy obj_id then
      if truthy (self_replace self) then
        post_and_report w self category_id token obj_id
          (extend st (check_events w self token
                      ++ [exists_msg w self obj_id; replacing_msg w self]))
      else
        (Ok Skipped,
         extend st (check_events w self token
                    ++ [exists_msg w self obj_id; not_replacing_msg]))
    else
      post_and_report w self category_id token obj_id
        (extend st (check_events w self token)).
Proof.
  intros obj_id. unfold check_and_post.
  unfold bind at 1. unfold output at 1, emit at 1.
  unfold bind at 1. unfold output at 1, emit at 1.
  unfold bind at 1. rewrite do_lookup_run. fold obj_id.
  unfold extend, check_events. simpl. rewrite <- !app_assoc. simpl.
  destruct (truthy obj_id); [|done].
  unfold bind at 1. unfold output at 1, emit at 1. simpl.
  destruct (truthy (self_replace self)).
  - unfold bind at 1. unfold output at 1, emit at 1. simpl.
    by rewrite <- !app_assoc.
  - unfold bind, output, emit, ret. simpl. by rewrite <- !app_assoc.
Qed.

Lemma main_run w st :
  main w st
  = match prepare w st with
    | (Ok (self, category_id, token), st1) =>
        check_and_post w self category_id token st1
    | (Raise x, st1) => (Raise x, st1)
    end.
Proof.
  unfold main, bind. by destruct (prepare w st) as [[[[self c] t]|x] st1].
Qed.

(** [prepare] succeeds as soon as authentication does, the path resolves and
    a name can be settled on. *)
Lemma prepare_complete w st path name token :
  let e := env st in
  handle_uapi_auth w (env_get e "JSS_URL") (env_get e "API_USERNAME")
    (env_get e "API_PASSWORD") = Ok token ->
  resolved_path w (env_get e "script_path") = Some path ->
  name_for e path = Ok name ->
  exists st1,
    prepare w st
    = (Ok (prepared_self e path name, category_id_for w e token, token), st1).
Proof.
  intros e Hauth Hpath Hname.
  destruct (prepare w st) as [r st1] eqn:Hprep. exists st1. f_equal.
  revert Hprep. unfold prepare. unfold bind at 1. simpl.
  unfold bind at 1. rewrite clear_summary_run.
  unfold bind at 1. rewrite do_auth_run.
  rewrite normalize_replace_eq. simpl. fold e. rewrite Hauth.
  unfold bind at 1.
  match goal with
  | |- context [resolve_category w ?s ?t ?st0] =>
      destruct (resolve_category_run w s t st0) as (t1 & Hcat & Ht1)
  end.
  rewrite Hcat. clear Hcat. simpl.
  unfold bind at 1. rewrite resolve_path_run.
  unfold category_id_for, resolved_path, name_for in *. fold e.
  destruct (truthy (env_get e "script_category")) eqn:Hc; simpl.
  all: destruct (Py.contains "/" (env_get e "script_path")) as [[]|x] eqn:Hs;
    simpl; try discriminate.
  all: try destruct (truthy (get_path_to_file w (env_get e "script_path"))) eqn:Hf;
    simpl; try discriminate.
  all: inversion Hpath; subst; clear Hpath.
  all: unfold bind; rewrite default_name_run; simpl.
  all: destruct (truthy (env_get e "script_name")) eqn:Hn; simpl.
  all: try rewrite Hname; simpl.
  all: intros Heq; inversion Heq; subst; clear Heq.
  all: unfold prepared_self; rewrite ?Hc; simpl.
  all: try (inversion Hname; subst); reflexivity.
Qed.

Lemma post_and_report_inv w self category_id token obj_id st r st' :
  post_and_report w self category_id token obj_id st = (r, st') ->
  match read_result w (self_script_path self),
        priority_result w (self_script_priority self) with
  | Ok contents, Ok priority =>
      let d := record_of w self priority category_id contents in
      exists t,
        Forall (loop_event w self (method_for obj_id)
                  (script_url w (self_jamf_url self) obj_id) token
                  (write_json_file w d)) t
        /\ length (List.filter is_curl t) = length (List.filter is_attempt_msg t)
        /\ trace st' = trace st ++ announce d ++ t
        /\ ((r = Ok Uploaded /\ env st' = report w self (env st))
            \/ ((exists x, r = Raise x) /\ env st' = env st))
  | _, _ => (exists x, r = Raise x) /\ st' = st
  end.
Proof.
  rewrite post_and_report_run, upload_script_run.
  destruct (read_result w (self_script_path self)) as [contents|x].
  2:{ intros H; inversion H; subst. eauto. }
  destruct (priority_result w (self_script_priority self)) as [priority|x].
  2:{ intros H; inversion H; subst. eauto. }
  cbv zeta. fold (record_of w self priority category_id contents).
  set (d := record_of w self priority category_id contents).
  destruct (upload_loop_events w self (self_script_name self)
              (script_url w (self_jamf_url self) obj_id) token
              (write_json_file w d) obj_id 0 (extend st (announce d)))
    as (t & Hst & Ht & Hcount).
  destruct (upload_loop _ _ _ _ _ _ _ _ _) as [[resp|x] st2]; simpl in Hst;
    subst st2; intros H; inversion H; subst; clear H; simpl.
  - exists t. split; [done|]. split; [done|].
    split; [by rewrite <- app_assoc|]. by left.
  - exists t. split; [done|]. split; [done|].
    split; [by rewrite <- app_assoc|]. right. eauto.
Qed.

Lemma main_cases w st r st' :
  main w st = (r, st') ->
  exists r1 st1,
    prepare w st = (r1, st1)
    /\ match r1 with
       | Raise x => r = Raise x /\ st' = st1
       | Ok (self, category_id, token) =>
           let obj_id := get_uapi_obj_id_from_name w (self_jamf_url self) "script"
                           (self_script_name self) token in
           exists t0,
             Forall (fun ev => is_quiet ev = true) t0
             /\ ((truthy obj_id = true /\ truthy (self_replace self) = false
                  /\ r = Ok Skipped /\ st' = extend st1 t0)
                 \/ ((truthy obj_id = true -> truthy (self_replace self) = true)
                     /\ match read_result w (self_script_path self),
                              priority_result w (self_script_priority self) with
                        | Ok contents, Ok priority =>
                            let d := record_of w self priority category_id contents in
                            exists t,
                              Forall (loop_event w self (method_for obj_id)
                                        (script_url w (self_jamf_url self) obj_id)
                                        token (write_json_file w d)) t
                              /\ length (List.filter is_curl t)
                                 = length (List.filter is_attempt_msg t)
                              /\ trace st' = trace st1 ++ t0 ++ announce d ++ t
                              /\ ((r = Ok Uploaded /\ env st' = report w self (env st1))
                                  \/ ((exists x, r = Raise x) /\ env st' = env st1))
                        | _, _ => (exists x, r = Raise x) /\ st' = extend st1 t0
                        end))
       end.
Proof.
  rewrite main_run. destruct (prepare w st) as [[[[self category_id] token]|x] st1].
  2:{ intros H; inversion H; subst. by eexists _, _. }
  intros H. exists (Ok (self, category_id, token)), st1.
  split; [reflexivity|]. cbv beta iota zeta.
  rewrite check_and_post_run in H. cbv zeta in H.
  set (obj_id := get_uapi_obj_id_from_name w (self_jamf_url self) "script"
                   (self_script_name self) token) in *.
  destruct (truthy obj_id) eqn:Hid; [destruct (truthy (self_replace self)) eqn:Hr|].
  - exists (check_events w self token ++ [exists_msg w self obj_id; replacing_msg w self]).
    split; [by repeat constructor|]. right. split; [done|].
    apply post_and_report_inv in H.
    destruct (read_result w (self_script_path self)),
      (priority_result w (self_script_priority self)); try done.
    cbv zeta in *. destruct H as (t & Ht & Hcount & Htr & Hr'). exists t.
    simpl in Htr. rewrite <- !app_assoc in Htr. by rewrite <- ?app_assoc.
  - exists (check_events w self token ++ [exists_msg w self obj_id; not_replacing_msg]).
    split; [by repeat constructor|]. left. by injection H as <- <-.
  - exists (check_events w self token).
    split; [by repeat constructor|]. right. split; [done|].
    apply post_and_report_inv in H.
    destruct (read_result w (self_script_path self)),
      (priority_result w (self_script_priority self)); try done.
    cbv zeta in *. destruct H as (t & Ht & Hcount & Htr & Hr'). exists t.
    simpl in Htr. rewrite <- !app_assoc in Htr. by rewrite <- ?app_assoc.
Qed.

(** ** Runs of [main] as a whole *)

Lemma quiet_no_upload_steps t :
  Forall (fun e => is_quiet e = true) t ->
  List.filter is_upload_step t = [] /\ List.filter is_curl t = []
  /\ List.filter is_attempt_msg t = [].
Proof.
  induction 1 as [|e t He _ (IH1 & IH2 & IH3)]; [done|].
  unfold is_quiet in He. apply andb_true_iff in He as [Hu Ha].
  apply negb_true_iff in Hu, Ha. simpl. rewrite Hu, Ha, IH1, IH3.
  by destruct e.
Qed.

Lemma quiet_not_write t d :
  Forall (fun e => is_quiet e = true) t -> ~ In (EWriteJson d) t.
Proof.
  intros Ht Hin. rewrite Forall_forall in Ht.
  apply list_elem_of_In, Ht in Hin. discriminate.
Qed.

Lemma quiet_not_curl t request url token data :
  Forall (fun e => is_quiet e = true) t -> ~ In (ECurl request url token data) t.
Proof.
  intros Ht Hin. rewrite Forall_forall in Ht.
  apply list_elem_of_In, Ht in Hin. discriminate.
Qed.

(** What [main] does once it has authenticated, resolved the path to [path]
    and settled on [name], for a script that the server already knows. *)
Lemma main_decision w e path name token :
  let self := prepared_self e path name in
  let category_id := category_id_for w e token in
  let obj_id := get_uapi_obj_id_from_name w (env_get e "JSS_URL") "script" name
                  token in
  handle_uapi_auth w (env_get e "JSS_URL") (env_get e "API_USERNAME")
    (env_get e "API_PASSWORD") = Ok token ->
  resolved_path w (env_get e "script_path") = Some path ->
  name_for e path = Ok name ->
  truthy obj_id = true ->
  exists st1 t,
    env st1 = delete summary_key e
    /\ trace st1 = EAuth (env_get e "JSS_URL") (env_get e "API_USERNAME")
                     (env_get e "API_PASSWORD") :: t
    /\ Forall (fun ev => is_quiet ev = true) t
    /\ run (main w) e
       = if false_like (env_get e "replace_script") then
           (Ok Skipped,
            extend st1 (check_events w self token
                        ++ [exists_msg w self obj_id; not_replacing_msg]))
         else
           post_and_report w self category_id token obj_id
             (extend st1 (check_events w self token
                          ++ [exists_msg w self obj_id; replacing_msg w self])).
Proof.
  intros self category_id obj_id Hauth Hpath Hname Hid.
  destruct (prepare_complete w {| env := e; trace := [] |} path name token)
    as (st1 & Hprep); try done.
  destruct (prepare_inv _ _ _ _ Hprep) as (Henv & (t & Htr & Hq) & _).
  exists st1, t. split; [done|]. split; [done|]. split; [done|].
  unfold run. rewrite main_run, Hprep. simpl in *.
  rewrite check_and_post_run. cbv zeta. simpl. fold self obj_id category_id.
  rewrite Hid.
  destruct (false_like (env_get e "replace_script")) eqn:Hfl; [done|].
  assert (truthy (env_get e "replace_script") = true) as ->; [|done].
  rewrite <- false_like_spec in Hfl. apply orb_false_iff in Hfl as [Hfl _].
  by apply negb_false_iff.
Qed.

Lemma post_and_report_not_skipped w self category_id token obj_id st :
  (post_and_report w self category_id token obj_id st).1 <> Ok Skipped.
Proof.
  rewrite post_and_report_run.
  by destruct (upload_script _ _ _ _ _ _ _ _ _ _ _ _ _ _ _ _ _ _ _ _ _ _)
    as [[r|x] st'].
Qed.

(** A run of [main] either stops before the upload proper, having done
    nothing but authenticate, look things up and talk, or goes through
    [upload_script] with the record built from the file. *)
Lemma main_anatomy w e r st :
  run (main w) e = (r, st) ->
  let auth := EAuth (env_get e "JSS_URL") (env_get e "API_USERNAME")
                (env_get e "API_PASSWORD") in
  exists t1,
    Forall (fun ev => is_quiet ev = true) t1
    /\ ((trace st = auth :: t1 /\ r <> Ok Uploaded
         /\ env st = delete summary_key e)
        \/ exists path name token contents priority t,
             let self := prepared_self e path name in
             let category_id := category_id_for w e token in
             let obj_id := get_uapi_obj_id_from_name w (env_get e "JSS_URL")
                             "script" name token in
             let d := record_of w self priority category_id contents in
             handle_uapi_auth w (env_get e "JSS_URL") (env_get e "API_USERNAME")
               (env_get e "API_PASSWORD") = Ok token
             /\ resolved_path w (env_get e "script_path") = Some path
             /\ name_for e path = Ok name
             /\ (truthy obj_id = true ->
                 false_like (env_get e "replace_script") = false)
             /\ read_result w path = Ok contents
             /\ priority_result w (env_get e "script_priority") = Ok priority
             /\ Forall (loop_event w self (method_for obj_id)
                          (script_url w (env_get e "JSS_URL") obj_id) token
                          (write_json_file w d)) t
             /\ length (List.filter is_curl t)
                = length (List.filter is_attempt_msg t)
             /\ trace st = auth :: t1 ++ announce d ++ t
             /\ ((r = Ok Uploaded /\ env st = report w self (delete summary_key e))
                 \/ ((exists x, r = Raise x) /\ env st = delete summary_key e))).
Proof.
  intros Hmain auth. unfold run in Hmain.
  apply main_cases in Hmain as (r1 & st1 & Hprep & Hrest).
  destruct (prepare_inv _ _ _ _ Hprep) as (Henv & (t & Htr & Hq) & Hok).
  simpl in Henv, Htr, Hok. fold auth in Htr.
  destruct r1 as [[[self category_id] token]|x].
  2:{ destruct Hrest as [-> ->]. exists t. split; [done|]. left. by rewrite Htr, Henv. }
  destruct (Hok self category_id token eq_refl)
    as (path & name & -> & Hauth & -> & Hpath & Hname).
  cbv zeta in Hrest. simpl in Hrest.
  destruct Hrest as (t0 & Hq0 & [(Hid & Hr & -> & ->)|(Hrep & Hrest)]).
  { exists (t ++ t0). split; [by apply Forall_app|]. left.
    unfold extend. simpl. by rewrite Htr, Henv. }
  exists (t ++ t0). split; [by apply Forall_app|].
  destruct (read_result w path) as [contents|x] eqn:Hread.
  2:{ destruct Hrest as [[x' ->] ->]. left. unfold extend. simpl.
      by rewrite Htr, Henv. }
  destruct (priority_result w (env_get e "script_priority")) as [priority|x] eqn:Hprio.
  2:{ destruct Hrest as [[x' ->] ->]. left. unfold extend. simpl.
      by rewrite Htr, Henv. }
  cbv zeta in Hrest. destruct Hrest as (t' & Hev & Hcount & Htr' & Hr).
  right. exists path, name, token, contents, priority, t'. cbv zeta.
  repeat (split; [done|]). split.
  { intros Hid. specialize (Hrep Hid).
    destruct (false_like (env_get e "replace_script")); [done|done]. }
  repeat (split; [done|]). split.
  { rewrite Htr', Htr. simpl. by rewrite <- !app_assoc. }
  by rewrite Henv in Hr.
Qed.

Lemma prepare_warns w st r st' token :
  let e := env st in
  prepare w st = (r, st') ->
  handle_uapi_auth w (env_get e "JSS_URL") (env_get e "API_USERNAME")
    (env_get e "API_PASSWORD") = Ok token ->
  truthy (env_get e "script_category") = true ->
  truthy (get_uapi_obj_id_from_name w (env_get e "JSS_URL") "category"
            (env_get e "script_category") token) = false ->
  In category_warning (trace st').
Proof.
  intros e H Hauth Hc Hid. unfold prepare in H. unfold bind at 1 in H. simpl in H.
  unfold bind at 1 in H. rewrite clear_summary_run in H.
  unfold bind at 1 in H. rewrite do_auth_run in H.
  rewrite normalize_replace_eq in H. simpl in H. fold e in H. rewrite Hauth in H.
  unfold bind at 1 in H. rewrite resolve_category_absent in H by done.
  simpl in H. unfold bind at 1 in H. rewrite resolve_path_run in H. simpl in H.
  destruct (Py.contains "/" (env_get e "script_path")) as [[]|x]; simpl in H.
  all: try destruct (truthy (get_path_to_file w (env_get e "script_path")));
    simpl in H.
  all: try (unfold bind in H; rewrite default_name_run in H; simpl in H).
  all: try destruct (truthy (env_get e "script_name")); simpl in H.
  all: try destruct (Py.basename _); simpl in H.
  all: inversion H; subst; clear H; simpl.
  all: rewrite ?in_app_iff; simpl; auto 10.
Qed.

Lemma str_upper_ascii_no_lower s :
  Forall (fun c => ~ (97 <= nat_of_ascii c <= 122)%nat)
         (list_ascii_of_string (str_upper_ascii s)).
Proof.
  induction s as [|c s IH]; simpl; [constructor|]. constructor; [|done].
  unfold upper_ascii.
  destruct (97 <=? nat_of_ascii c)%nat eqn:H1;
    destruct (nat_of_ascii c <=? 122)%nat eqn:H2; simpl.
  - apply Nat.leb_le in H1, H2. rewrite nat_ascii_embedding by lia. lia.
  - apply Nat.leb_gt in H2. lia.
  - apply Nat.leb_gt in H1. lia.
  - apply Nat.leb_gt in H1. lia.
Qed.

Lemma demo_files_are_named status : files_are_named (demo_world status).
Proof.
  intros p contents H. simpl in H.
  repeat match type of H with
         | context [String.eqb p ?s] =>
             destruct (String.eqb_spec p s) as [->|_]; [by vm_compute|]
         end.
  discriminate.
Qed.

(** ** Runs that reach the upload *)

(** Every entry into the loop announces itself and sends a request. *)
Lemma upload_loop_starts w self script_name url token script_json obj_id count st :
  exists t,
    (upload_loop w self script_name url token script_json obj_id count st).2
    = extend st (attempt_msg (S count)
                 :: ECurl (method_for obj_id) url token script_json :: t)
    /\ Forall (loop_event w self (method_for obj_id) url token script_json) t.
Proof.
  destruct (upload_loop_events w self script_name url token script_json obj_id
              count st) as (t' & Ht' & Hev & _).
  assert (Hstart : exists t,
             (upload_loop w self script_name url token script_json obj_id count
                st).2
             = extend st (attempt_msg (S count)
                          :: ECurl (method_for obj_id) url token script_json :: t)).
  { rewrite upload_loop_equation_1. cbv zeta. unfold bind at 1.
    rewrite attempt_run. cbv zeta.
    destruct (String.eqb _ "break"); [by exists []|].
    destruct (decide (5 < S count)%nat) as [Hc|Hc].
    { eexists. unfold abort_upload, bind, output, emit, raise, extend. simpl.
      rewrite <- !app_assoc. reflexivity. }
    unfold bind.
    destruct (Py.int w (self_sleep self)) as [n|x] eqn:Hn.
    - rewrite (backoff_run _ _ n) by done. cbv beta iota.
      match goal with
      | |- context [upload_loop ?w' ?s' ?n' ?u' ?k' ?j' ?o' ?c' ?s0'] =>
          destruct (upload_loop_counts w' s' n' u' k' j' o' c' s0')
            as (t2 & -> & _)
      end.
      eexists. rewrite !extend_extend. reflexivity.
    - rewrite (backoff_raise _ _ x) by done. by exists []. }
  destruct Hstart as (t & Ht). exists t. split; [done|].
  rewrite Ht' in Ht. unfold extend in Ht. injection Ht as Ht.
  apply app_inv_head in Ht. subst t'. by inversion Hev as [|? ? _ Hev']; inversion Hev'.
Qed.

Lemma quiet_no_write t :
  Forall (fun e => is_quiet e = true) t -> List.filter is_write_json t = [].
Proof.
  induction 1 as [|ev t He _ IH]; [done|]. simpl. rewrite IH. by destruct ev.
Qed.

Lemma loop_event_no_write w self request url token data t :
  Forall (loop_event w self request url token data) t ->
  List.filter is_write_json t = [].
Proof.
  induction 1 as [|ev t He _ IH]; [done|]. simpl. rewrite IH. by destruct ev.
Qed.

(** The requests of the loop are one request, repeated. *)
Lemma loop_event_curls w self request url token data t :
  Forall (loop_event w self request url token data) t ->
  List.filter is_curl t
  = repeat (ECurl request url token data) (length (List.filter is_curl t)).
Proof.
  induction 1 as [|ev t He _ IH]; [done|].
  destruct ev; simpl in *; try done.
  destruct He as (-> & -> & -> & ->). by rewrite <- IH.
Qed.

(** A run of [main] that authenticates, resolves the path to a readable
    file, settles on a name, is not to skip the script and can put the
    priority in upper case: it builds the record, writes it once and enters
    the loop. *)
Lemma main_posts w e path name token contents priority :
  let self := prepared_self e path name in
  let obj_id := get_uapi_obj_id_from_name w (env_get e "JSS_URL") "script" name
                  token in
  let d := record_of w self priority (category_id_for w e token) contents in
  let request := ECurl (method_for obj_id)
                   (script_url w (env_get e "JSS_URL") obj_id) token
                   (write_json_file w d) in
  handle_uapi_auth w (env_get e "JSS_URL") (env_get e "API_USERNAME")
    (env_get e "API_PASSWORD") = Ok token ->
  resolved_path w (env_get e "script_path") = Some path ->
  name_for e path = Ok name ->
  (truthy obj_id = true -> false_like (env_get e "replace_script") = false) ->
  read_result w path = Ok contents ->
  priority_result w (env_get e "script_priority") = Ok priority ->
  exists t1 t,
    trace (run (main w) e).2
    = EAuth (env_get e "JSS_URL") (env_get e "API_USERNAME")
        (env_get e "API_PASSWORD")
      :: t1 ++ announce d ++ attempt_msg 1 :: request :: t
    /\ Forall (fun ev => is_quiet ev = true) t1
    /\ Forall (loop_event w self (method_for obj_id)
                 (script_url w (env_get e "JSS_URL") obj_id) token
                 (write_json_file w d)) t
    /\ (truthy obj_id = true -> last t1 = Some (replacing_msg w self))
    /\ (run (main w) e).1 <> Ok Skipped.
Proof.
  intros self obj_id d request Hauth Hpath Hname Hrep Hread Hprio.
  destruct (prepare_complete w {| env := e; trace := [] |} path name token)
    as (st1 & Hprep); try done.
  destruct (prepare_inv _ _ _ _ Hprep) as (Henv & (t0 & Htr & Hq) & _).
  simpl in Htr, Hprep. fold self in Hprep.
  assert (Hpost : forall t2,
             Forall (fun ev => is_quiet ev = true) t2 ->
             exists t,
               trace (post_and_report w self (category_id_for w e token) token
                        obj_id (extend st1 t2)).2
               = EAuth (env_get e "JSS_URL") (env_get e "API_USERNAME")
                   (env_get e "API_PASSWORD")
                 :: (t0 ++ t2) ++ announce d ++ attempt_msg 1 :: request :: t
               /\ Forall (loop_event w self (method_for obj_id)
                            (script_url w (env_get e "JSS_URL") obj_id) token
                            (write_json_file w d)) t).
  { intros t2 Ht2. rewrite post_and_report_run, upload_script_run.
    change (self_script_path self) with path.
    change (self_script_priority self) with (env_get e "script_priority").
    rewrite Hread, Hprio. cbv zeta.
    fold (record_of w self priority (category_id_for w e token) contents).
    fold d. change (self_jamf_url self) with (env_get e "JSS_URL").
    match goal with
    | |- context [upload_loop ?w' ?s' ?n' ?u' ?k' ?j' ?o' ?c' ?s0'] =>
        destruct (upload_loop_starts w' s' n' u' k' j' o' c' s0')
          as (t & Ht & Hev);
        destruct (upload_loop w' s' n' u' k' j' o' c' s0') as [[resp|x] st2]
    end.
    all: simpl in Ht; subst st2; exists t; split; [|done].
    all: unfold extend; simpl; rewrite Htr; simpl.
    all: by rewrite <- !app_assoc. }
  unfold run. rewrite main_run, Hprep, check_and_post_run. cbv zeta.
  change (self_jamf_url self) with (env_get e "JSS_URL").
  change (self_script_name self) with name. fold obj_id.
  destruct (truthy obj_id) eqn:Hid.
  - assert (truthy (self_replace self) = true) as ->.
    { simpl. rewrite Hrep by done.
      specialize (Hrep eq_refl). rewrite <- false_like_spec in Hrep.
      apply orb_false_iff in Hrep as [Hrep _]. by apply negb_false_iff. }
    destruct (Hpost (check_events w self token
                     ++ [exists_msg w self obj_id; replacing_msg w self]))
      as (t & Ht & Hev); [by repeat constructor|].
    exists (t0 ++ check_events w self token
            ++ [exists_msg w self obj_id; replacing_msg w self]), t.
    split; [done|]. split; [apply Forall_app; split; [done|by repeat constructor]|].
    split; [done|]. split; [intros _; by rewrite !last_app|].
    apply post_and_report_not_skipped.
  - destruct (Hpost (check_events w self token)) as (t & Ht & Hev);
      [by repeat constructor|].
    exists (t0 ++ check_events w self token), t.
    split; [done|]. split; [apply Forall_app; split; [done|by repeat constructor]|].
    split; [done|]. split; [done|].
    apply post_and_report_not_skipped.
Qed.

(** [post_and_report] only adds to the trace. *)
Lemma post_and_report_extends w self category_id token obj_id st :
  exists t,
    trace (post_and_report w self category_id token obj_id st).2 = trace st ++ t.
Proof.
  destruct (post_and_report w self category_id token obj_id st) as [r st'] eqn:H.
  apply post_and_report_inv in H. simpl.
  destruct (read_result w _) as [contents|x].
  2:{ destruct H as [_ ->]. exists []. by rewrite app_nil_r. }
  destruct (priority_result w _) as [priority|x].
  2:{ destruct H as [_ ->]. exists []. by rewrite app_nil_r. }
  cbv zeta in H. destruct H as (t & _ & _ & -> & _). eauto.
Qed.

(** In such a run the payload is written once, and the requests are the one
    request for it, sent at least once. *)
Lemma main_posts_steps w e path name token contents priority :
  let self := prepared_self e path name in
  let obj_id := get_uapi_obj_id_from_name w (env_get e "JSS_URL") "script" name
                  token in
  let d := record_of w self priority (category_id_for w e token) contents in
  let request := ECurl (method_for obj_id)
                   (script_url w (env_get e "JSS_URL") obj_id) token
                   (write_json_file w d) in
  handle_uapi_auth w (env_get e "JSS_URL") (env_get e "API_USERNAME")
    (env_get e "API_PASSWORD") = Ok token ->
  resolved_path w (env_get e "script_path") = Some path ->
  name_for e path = Ok name ->
  (truthy obj_id = true -> false_like (env_get e "replace_script") = false) ->
  read_result w path = Ok contents ->
  priority_result w (env_get e "script_priority") = Ok priority ->
  (exists k,
     List.filter is_curl (trace (run (main w) e).2) = repeat request (S k))
  /\ List.filter is_write_json (trace (run (main w) e).2) = [EWriteJson d].
Proof.
  intros self obj_id d request Hauth Hpath Hname Hrep Hread Hprio.
  destruct (main_posts w e path name token contents priority)
    as (t1 & t & Htr & Hq & Hev & _); try done.
  fold self obj_id d request in Htr. rewrite Htr.
  pose proof (quiet_no_upload_steps _ Hq) as (_ & Hc & _).
  pose proof (quiet_no_write _ Hq) as Hw.
  pose proof (loop_event_no_write _ _ _ _ _ _ _ Hev) as Hw'.
  pose proof (loop_event_curls _ _ _ _ _ _ _ Hev) as Hc'.
  split.
  - exists (length (List.filter is_curl t)).
    change (List.filter is_curl (?a :: ?l)) with (List.filter is_curl l).
    rewrite List.filter_app, Hc. simpl. by rewrite Hc' at 1.
  - change (List.filter is_write_json (?a :: ?l))
      with (List.filter is_write_json l).
    rewrite List.filter_app, Hw. simpl. by rewrite Hw'.
Qed.

(** ** The properties of the specification *)

(** *** Retry bound *)

(** C1.  When every answer of the server is classified as retryable, the
    loop sends six requests, pauses five times, and then raises the fatal
    error, reporting the status of the sixth answer. *)
Theorem retrying_writer_makes_six_attempts
    (w : World) (self : Self) (script_name : PyVal) (url : string)
    (token script_json obj_id : PyVal) (n : Z) (st : State) :
  (forall k, status_check w (curl w k (method_for obj_id) url token script_json)
               "Script" script_name (method_for obj_id) <> "break") ->
  Py.int w (self_sleep self) = Ok n ->
  exists t,
    upload_loop w self script_name url token script_json obj_id 0 st
    = (Raise (ProcessorError "ERROR: Script upload failed "), extend st t)
    /\ length (List.filter is_curl t) = 6%nat
    /\ length (List.filter is_sleep t) = 5%nat
    /\ last t
       = Some (EOutput
                 (PyStr (String "010"%char "HTTP POST Response Code: "
                         ++ str_of_Z (status_code
                              (curl w (sent st + 5) (method_for obj_id) url token
                                 script_json)))%string) 1).
Proof.
  intros Hretry Hn.
  assert (Hb : forall k,
             String.eqb (status_check w (curl w k (method_for obj_id) url token
                                           script_json)
                           "Script" script_name (method_for obj_id)) "break"
             = false).
  { intros. by apply String.eqb_neq. }
  eexists.
  do 5 (rewrite (upload_loop_retry _ _ _ _ _ _ _ _ _ n) by (auto; lia);
        try rewrite extend_extend).
  rewrite upload_loop_exhausted by (auto; lia).
  rewrite extend_extend. split; [reflexivity|].
  split; [reflexivity|]. split; [reflexivity|].
  rewrite sent_extend. reflexivity.
Qed.

Lemma retrying_writer_six_attempts_witness :
  exists t,
    upload_loop (demo_world unavailable) (demo_self (PyStr "5"))
      (PyStr "new.sh") "https://jamf.example.com/api/v1/scripts"
      (PyStr "token") (PyStr "/tmp/jamf_upload.json") (PyInt 0) 0
      {| env := ∅; trace := [] |}
    = (Raise (ProcessorError "ERROR: Script upload failed "),
       extend {| env := ∅; trace := [] |} t)
    /\ length (List.filter is_curl t) = 6%nat
    /\ length (List.filter is_sleep t) = 5%nat
    /\ last t = Some (EOutput (PyStr (String "010"%char
                                        "HTTP POST Response Code: 503")) 1).
Proof.
  apply (retrying_writer_makes_six_attempts (demo_world unavailable)
           (demo_self (PyStr "5")) (PyStr "new.sh")
           "https://jamf.example.com/api/v1/scripts" (PyStr "token")
           (PyStr "/tmp/jamf_upload.json") (PyInt 0) 5).
  - intros k. vm_compute. discriminate.
  - vm_compute. reflexivity.
Defined.

(** A whole run against a server that is never ready: six requests. *)
Example scenario_exhausted :
  let w := demo_world unavailable in
  let e := demo_env (PyStr "/scripts/new.sh") (PyBool false) (PyStr "") in
  (run (main w) e).1 = Raise (ProcessorError "ERROR: Script upload failed ")
  /\ length (List.filter is_curl (trace (run (main w) e).2)) = 6%nat
  /\ List.filter is_sleep (trace (run (main w) e).2)
     = [ESleep 30; ESleep 30; ESleep 30; ESleep 30; ESleep 30].
Proof. repeat split; vm_compute; reflexivity. Qed.

(** *** A missing file *)




(** Nor does a missing file always abort the invocation: a script that the
    server knows and that is not to be replaced is skipped all the same. *)
Example missing_file_of_existing_script_is_skipped :
  let w := demo_world healthy in
  let e := <["script_name" := PyStr "existing.sh"]>
             (demo_env (PyStr "/scripts/none.sh") (PyBool false) (PyStr "")) in
  script_file w (env_get e "script_path") = None
  /\ (run (main w) e).1 = Ok Skipped.
Proof. split; vm_compute; reflexivity. Qed.

(** *** The replace flag *)

(** C3, as the code has it.  For a script that the server already knows, the
    replace flag counts as false exactly when it is false-like: [None],
    [False], a zero, an empty string, list or dictionary, or the string
    ["False"] spelt so.  Then the script is skipped and nothing is sent.
    Every other value counts as true: then [main] says that it replaces the
    script, does not skip it and, as soon as the file can be read, sends its
    requests as PUTs to the address of the id that was found. *)
Theorem replace_flag_truthiness (w : World) (e : gmap string PyVal)
    (path name token : PyVal) :
  let self := prepared_self e path name in
  let obj_id := get_uapi_obj_id_from_name w (env_get e "JSS_URL") "script" name
                  token in
  handle_uapi_auth w (env_get e "JSS_URL") (env_get e "API_USERNAME")
    (env_get e "API_PASSWORD") = Ok token ->
  resolved_path w (env_get e "script_path") = Some path ->
  name_for e path = Ok name ->
  truthy obj_id = true ->
  (false_like (env_get e "replace_script") = true ->
   (run (main w) e).1 = Ok Skipped
   /\ List.filter is_curl (trace (run (main w) e).2) = []
   /\ last (trace (run (main w) e).2) = Some not_replacing_msg)
  /\ (false_like (env_get e "replace_script") = false ->
      (run (main w) e).1 <> Ok Skipped
      /\ In (replacing_msg w self) (trace (run (main w) e).2)
      /\ forall contents priority,
           read_result w path = Ok contents ->
           priority_result w (env_get e "script_priority") = Ok priority ->
           exists k,
             List.filter is_curl (trace (run (main w) e).2)
             = repeat
                 (ECurl "PUT"
                    (Py.str w (env_get e "JSS_URL") ++ "/"
                     ++ api_endpoints w "script" ++ "/" ++ Py.str w obj_id)%string
                    token
                    (write_json_file w
                       (record_of w self priority (category_id_for w e token)
                          contents)))
                 (S k)).
Proof.
  intros self obj_id Hauth Hpath Hname Hid.
  destruct (main_decision w e path name token Hauth Hpath Hname Hid)
    as (st1 & t & _ & Htr & Hq & Hmain).
  fold self obj_id in Hmain. split.
  - intros Hfl. rewrite Hfl in Hmain. rewrite Hmain.
    unfold extend. cbn [fst snd trace]. rewrite Htr.
    apply quiet_no_upload_steps in Hq as (_ & Hc & _).
    split; [done|]. split; [|by rewrite !last_app].
    rewrite !List.filter_app. cbn [List.filter is_curl]. by rewrite Hc.
  - intros Hfl. rewrite Hfl in Hmain. split; [|split].
    + rewrite Hmain. apply post_and_report_not_skipped.
    + rewrite Hmain.
      destruct (post_and_report_extends w self (category_id_for w e token) token
                  obj_id
                  (extend st1 (check_events w self token
                               ++ [exists_msg w self obj_id;
                                   replacing_msg w self])))
        as (t' & ->).
      unfold extend. cbn [trace]. rewrite !in_app_iff. left. right. right.
      simpl. auto.
    + intros contents priority Hread Hprio.
      destruct (main_posts_steps w e path name token contents priority)
        as ((k & Hk) & _); try done.
      exists k. rewrite Hk. subst self obj_id.
      unfold method_for, script_url. by rewrite Hid.
Qed.

Lemma replace_flag_truthiness_witness :
  let w := demo_world healthy in
  let skipped := demo_env (PyStr "/scripts/existing.sh") (PyStr "False") (PyStr "") in
  let replaced := demo_env (PyStr "/scripts/existing.sh") (PyStr "yes") (PyStr "") in
  ((run (main w) skipped).1 = Ok Skipped
   /\ List.filter is_curl (trace (run (main w) skipped).2) = [])
  /\ (run (main w) replaced).1 <> Ok Skipped
  /\ exists k d,
       List.filter is_curl (trace (run (main w) replaced).2)
       = repeat (ECurl "PUT" "https://jamf.example.com/api/v1/scripts/17"
                   (PyStr "token") (write_json_file w d)) (S k).
Proof.
  intros w skipped replaced. split.
  - destruct (replace_flag_truthiness w skipped (PyStr "/scripts/existing.sh")
                (PyStr "existing.sh") (PyStr "token"))
      as (Hskip & _); [vm_compute; reflexivity..|].
    destruct Hskip as (Hr & Hc & _); [vm_compute; reflexivity|]. by split.
  - destruct (replace_flag_truthiness w replaced (PyStr "/scripts/existing.sh")
                (PyStr "existing.sh") (PyStr "token"))
      as (_ & Hrep); [vm_compute; reflexivity..|].
    destruct Hrep as (Hr & _ & Hput); [vm_compute; reflexivity|].
    split; [exact Hr|].
    destruct (Hput "#!/bin/zsh" (PyStr "AFTER")) as (k & Hk);
      [vm_compute; reflexivity..|].
    eexists k, _. exact Hk.
Defined.

(** The string ["false"] in lower case is not false-like: the script that
    the server knows is replaced, with one PUT. *)
Lemma lower_case_false_replaces :
  let w := demo_world healthy in
  let e := demo_env (PyStr "/scripts/existing.sh") (PyStr "false") (PyStr "") in
  false_like (PyStr "false") = false
  /\ (run (main w) e).1 = Ok Uploaded
  /\ List.filter is_curl (trace (run (main w) e).2)
     = [ECurl "PUT" "https://jamf.example.com/api/v1/scripts/17" (PyStr "token")
          (PyStr "/tmp/jamf_upload.json")].
Proof. repeat split; vm_compute; reflexivity. Qed.

(** *** Backoff floor *)

(** C4, as the code has it.  The pause between two attempts is the larger of
    [int(sleep)] and 30 seconds.  When [int] makes the integer [n] of the
    configured value, which it does of an integer, of a numeral and, dropping
    the fraction, of a float, [backoff] sleeps the larger of [n] and 30 and so
    does every pause of the loop: a configured 5 gives pauses of 30 seconds,
    a configured 45 pauses of 45.  When [int] rejects the value, as it does
    an unset one, [backoff] raises the error of [int] and the loop never
    pauses. *)
Theorem backoff_is_max_of_sleep_and_30 (w : World) (self : Self) :
  (forall n, Py.int w (self_sleep self) = Ok n ->
     (forall st, backoff w self st = (Ok tt, extend st [ESleep (Z.max n 30)]))
     /\ forall script_name url token script_json obj_id count st,
          exists t,
            (upload_loop w self script_name url token script_json obj_id count
               st).2 = extend st t
            /\ forall seconds, In (ESleep seconds) t -> seconds = Z.max n 30)
  /\ (forall x, Py.int w (self_sleep self) = Raise x ->
        (forall st, backoff w self st = (Raise x, st))
        /\ forall script_name url token script_json obj_id count st,
             exists t,
               (upload_loop w self script_name url token script_json obj_id
                  count st).2 = extend st t
               /\ List.filter is_sleep t = [])
  /\ (forall n st, self_sleep self = PyInt n ->
        backoff w self st = (Ok tt, extend st [ESleep (Z.max n 30)]))
  /\ (forall s n st, self_sleep self = PyStr s -> plain_decimal s = Some n ->
        backoff w self st = (Ok tt, extend st [ESleep (Z.max n 30)]))
  /\ (forall x n st, self_sleep self = PyFloat x -> int_of_float x = Ok n ->
        backoff w self st = (Ok tt, extend st [ESleep (Z.max n 30)]))
  /\ (forall st, self_sleep self = PyNone ->
        backoff w self st = (Raise TypeError, st))
  /\ (forall st, self_sleep self = PyStr "5" \/ self_sleep self = PyInt 5 ->
        backoff w self st = (Ok tt, extend st [ESleep 30]))
  /\ (forall st, self_sleep self = PyStr "45" \/ self_sleep self = PyInt 45 ->
        backoff w self st = (Ok tt, extend st [ESleep 45])).
Proof.
  split; [|split; [|split; [|split; [|split; [|split; [|split]]]]]].
  - intros n Hn. split.
    + intros st. by rewrite (backoff_run _ _ n).
    + intros script_name url token script_json obj_id count st.
      destruct (upload_loop_events w self script_name url token script_json
                  obj_id count st) as (t & Ht & Hev & _).
      exists t. split; [done|]. intros seconds Hin.
      rewrite Forall_forall in Hev. apply list_elem_of_In, Hev in Hin.
      destruct Hin as (n' & Hn' & ->). congruence.
  - intros x Hx. split.
    + intros st. by rewrite (backoff_raise _ _ x).
    + intros script_name url token script_json obj_id count st.
      destruct (upload_loop_events w self script_name url token script_json
                  obj_id count st) as (t & Ht & Hev & _).
      exists t. split; [done|]. clear Ht.
      induction Hev as [|ev t Hev _ IH]; [done|].
      destruct ev; simpl in *; try done.
      destruct Hev as (n & Hn & _). congruence.
  - intros n st Hs. apply backoff_run. by rewrite Hs.
  - intros s n st Hs Hn. apply backoff_run. rewrite Hs. simpl.
    unfold int_of_str. by rewrite Hn.
  - intros x n st Hs Hn. apply backoff_run. by rewrite Hs.
  - intros st Hs. apply backoff_raise. by rewrite Hs.
  - intros st [Hs|Hs]; apply (backoff_run _ _ 5); by rewrite Hs.
  - intros st [Hs|Hs]; apply (backoff_run _ _ 45); by rewrite Hs.
Qed.

Lemma backoff_is_max_of_sleep_and_30_witness :
  let w := demo_world unavailable in
  let st := {| env := ∅; trace := [] |} in
  backoff w (demo_self (PyStr "5")) st = (Ok tt, extend st [ESleep 30])
  /\ backoff w (demo_self (PyInt 45)) st = (Ok tt, extend st [ESleep 45])
  /\ backoff w (demo_self (PyFloat 45.5)) st = (Ok tt, extend st [ESleep 45])
  /\ backoff w (demo_self PyNone) st = (Raise TypeError, st)
  /\ List.filter is_sleep
       (trace (upload_loop w (demo_self (PyStr "5")) (PyStr "new.sh")
                 "https://jamf.example.com/api/v1/scripts" (PyStr "token")
                 (PyStr "/tmp/jamf_upload.json") (PyInt 0) 0 st).2)
     = [ESleep 30; ESleep 30; ESleep 30; ESleep 30; ESleep 30].
Proof.
  intros w st. split; [|split; [|split; [|split; [|vm_compute; reflexivity]]]].
  - destruct (backoff_is_max_of_sleep_and_30 w (demo_self (PyStr "5")))
      as (_ & _ & _ & _ & _ & _ & Hfive & _).
    apply Hfive. left. vm_compute. reflexivity.
  - destruct (backoff_is_max_of_sleep_and_30 w (demo_self (PyInt 45)))
      as (Hok & _).
    apply (Hok 45%Z). vm_compute. reflexivity.
  - destruct (backoff_is_max_of_sleep_and_30 w (demo_self (PyFloat 45.5)))
      as (Hok & _).
    apply (Hok 45%Z). vm_compute. reflexivity.
  - destruct (backoff_is_max_of_sleep_and_30 w (demo_self PyNone))
      as (_ & Hraise & _).
    apply (Hraise TypeError). vm_compute. reflexivity.
Defined.

(** The pause is not always the larger of the configured value and 30: a
    sleep of 45.5 seconds gives pauses of 45 seconds, which is less, and an
    unset sleep gives no pause but a [TypeError] at the first retry. *)
Lemma fractional_sleep_is_truncated :
  let w := demo_world unavailable in
  let recipe := demo_env (PyStr "/scripts/new.sh") (PyBool false) (PyStr "") in
  let fractional := <["sleep" := PyFloat 45.5]> recipe in
  let unset := delete "sleep" recipe in
  List.filter is_sleep (trace (run (main w) fractional).2)
  = [ESleep 45; ESleep 45; ESleep 45; ESleep 45; ESleep 45]
  /\ (45 <? 45.5)%float = true
  /\ (run (main w) unset).1 = Raise TypeError
  /\ List.filter is_sleep (trace (run (main w) unset).2) = []
  /\ length (List.filter is_curl (trace (run (main w) unset).2)) = 1%nat.
Proof. repeat split; vm_compute; reflexivity. Qed.

(** *** Skip *)

(** C5.  When the server already knows the script and the replace flag is
    false, [main] returns at line 346: the invocation ends without an error,
    no request has been sent, and the last thing it did was to say so. *)
Theorem existing_script_is_skipped (w : World) (e : gmap string PyVal)
    (path name token : PyVal) :
  handle_uapi_auth w (env_get e "JSS_URL") (env_get e "API_USERNAME")
    (env_get e "API_PASSWORD") = Ok token ->
  resolved_path w (env_get e "script_path") = Some path ->
  name_for e path = Ok name ->
  truthy (get_uapi_obj_id_from_name w (env_get e "JSS_URL") "script" name token)
  = true ->
  false_like (env_get e "replace_script") = true ->
  exists st,
    run (main w) e = (Ok Skipped, st)
    /\ List.filter is_curl (trace st) = []
    /\ List.filter is_upload_step (trace st) = []
    /\ last (trace st) = Some not_replacing_msg.
Proof.
  intros Hauth Hpath Hname Hid Hfl.
  destruct (main_decision w e path name token Hauth Hpath Hname Hid)
    as (st1 & t & _ & Htr & Hq & Hmain).
  rewrite Hfl in Hmain. eexists. split; [exact Hmain|].
  unfold extend. cbn [trace]. rewrite Htr.
  apply quiet_no_upload_steps in Hq as (Hu & Hc & _).
  rewrite !List.filter_app. cbn [List.filter is_curl is_upload_step].
  rewrite Hu, Hc. split; [done|]. split; [done|].
  by rewrite !last_app.
Qed.

Lemma existing_script_is_skipped_witness :
  let w := demo_world healthy in
  let e := demo_env (PyStr "/scripts/existing.sh") (PyBool false) (PyStr "") in
  exists st,
    run (main w) e = (Ok Skipped, st)
    /\ List.filter is_curl (trace st) = []
    /\ List.filter is_upload_step (trace st) = []
    /\ last (trace st) = Some not_replacing_msg.
Proof.
  intros w e.
  apply (existing_script_is_skipped w e (PyStr "/scripts/existing.sh")
           (PyStr "existing.sh") (PyStr "token")); vm_compute; reflexivity.
Defined.

(** *** Create or update *)

(** C6.  Every request that [main] sends is a PUT to the address with the
    object id appended when the server knew the script (and then the replace
    flag was true), and a POST to the address without an id when it did not;
    every iteration of the loop sends exactly one request.  And these
    requests are sent: once [main] has authenticated, resolved the path to a
    file that it can read and settled on a name, a script that the server
    knows and that is to be replaced is sent by PUT to the address with its
    id, and a script that the server does not know by POST to the address
    without an id, at least once and with the record as the payload. *)
Theorem writes_put_on_id_or_post (w : World) (e : gmap string PyVal)
    (r : Result Outcome) (st : State) :
  run (main w) e = (r, st) ->
  length (List.filter is_curl (trace st))
  = length (List.filter is_attempt_msg (trace st))
  /\ (forall request url token data,
        In (ECurl request url token data) (trace st) ->
        exists path name,
          resolved_path w (env_get e "script_path") = Some path
          /\ name_for e path = Ok name
          /\ let obj_id := get_uapi_obj_id_from_name w (env_get e "JSS_URL")
                             "script" name token in
             (truthy obj_id = true
              /\ false_like (env_get e "replace_script") = false
              /\ request = "PUT"
              /\ url = (Py.str w (env_get e "JSS_URL") ++ "/"
                        ++ api_endpoints w "script" ++ "/"
                        ++ Py.str w obj_id)%string)
             \/ (truthy obj_id = false
                 /\ request = "POST"
                 /\ url = (Py.str w (env_get e "JSS_URL") ++ "/"
                           ++ api_endpoints w "script")%string))
  /\ forall path name token contents priority,
       let obj_id := get_uapi_obj_id_from_name w (env_get e "JSS_URL") "script"
                       name token in
       let data := write_json_file w
                     (record_of w (prepared_self e path name) priority
                        (category_id_for w e token) contents) in
       handle_uapi_auth w (env_get e "JSS_URL") (env_get e "API_USERNAME")
         (env_get e "API_PASSWORD") = Ok token ->
       resolved_path w (env_get e "script_path") = Some path ->
       name_for e path = Ok name ->
       read_result w path = Ok contents ->
       priority_result w (env_get e "script_priority") = Ok priority ->
       (truthy obj_id = true ->
        false_like (env_get e "replace_script") = false ->
        exists k,
          List.filter is_curl (trace st)
          = repeat (ECurl "PUT"
                      (Py.str w (env_get e "JSS_URL") ++ "/"
                       ++ api_endpoints w "script" ++ "/"
                       ++ Py.str w obj_id)%string token data) (S k))
       /\ (truthy obj_id = false ->
           exists k,
             List.filter is_curl (trace st)
             = repeat (ECurl "POST"
                         (Py.str w (env_get e "JSS_URL") ++ "/"
                          ++ api_endpoints w "script")%string token data)
                 (S k)).
Proof.
  intros Hmain. split; [|split].
  - apply main_anatomy in Hmain as (t1 & Hq & Hcases).
    pose proof (quiet_no_upload_steps _ Hq) as (_ & Hc1 & Ha1).
    destruct Hcases as [(Htr & _ & _)|Hup].
    { rewrite Htr. cbn [List.filter is_curl is_attempt_msg]. by rewrite Hc1, Ha1. }
    destruct Hup as (path & name & token & contents & priority & t & Hup).
    cbv zeta in Hup.
    destruct Hup as (_ & _ & _ & _ & _ & _ & _ & Hcount & Htr & _).
    rewrite Htr. cbn [List.filter is_curl is_attempt_msg].
    rewrite !List.filter_app, !length_app.
    rewrite Hc1, Ha1, Hcount. reflexivity.
  - apply main_anatomy in Hmain as (t1 & Hq & Hcases).
    destruct Hcases as [(Htr & _ & _)|Hup].
    { rewrite Htr. intros request url token data [Hin|Hin]; [done|].
      by apply quiet_not_curl in Hin. }
    destruct Hup as (path & name & token & contents & priority & t & Hup).
    cbv zeta in Hup.
    destruct Hup as (_ & Hpath & Hname & Hrep & _ & _ & Hev & _ & Htr & _).
    rewrite Htr.
    intros request url token' data [Hin|Hin]; [done|].
    apply in_app_or in Hin as [Hin|Hin]; [by apply quiet_not_curl in Hin|].
    apply in_app_or in Hin as [Hin|Hin].
    { simpl in Hin. by repeat destruct Hin as [Hin|Hin]. }
    rewrite Forall_forall in Hev. apply list_elem_of_In, Hev in Hin.
    destruct Hin as (-> & -> & -> & ->). exists path, name.
    split; [done|]. split; [done|]. cbv zeta.
    unfold method_for, script_url.
    destruct (truthy (get_uapi_obj_id_from_name w (env_get e "JSS_URL") "script"
                        name token)) eqn:Hid.
    + left. by rewrite Hrep.
    + by right.
  - intros path name token contents priority obj_id data Hauth Hpath Hname
      Hread Hprio.
    assert (Hst : st = (run (main w) e).2) by by rewrite Hmain.
    split.
    + intros Hid Hfl.
      destruct (main_posts_steps w e path name token contents priority)
        as ((k & Hk) & _); try done.
      exists k. rewrite Hst, Hk. subst obj_id data.
      unfold method_for, script_url. by rewrite Hid.
    + intros Hid.
      destruct (main_posts_steps w e path name token contents priority)
        as ((k & Hk) & _); try done.
      { fold obj_id. by rewrite Hid. }
      exists k. rewrite Hst, Hk. subst obj_id data.
      unfold method_for, script_url. by rewrite Hid.
Qed.

Lemma writes_put_on_id_or_post_witness :
  let w := demo_world slow_start in
  let update := demo_env (PyStr "/scripts/existing.sh") (PyBool true) (PyStr "") in
  let create := demo_env (PyStr "/scripts/new.sh") (PyBool true) (PyStr "") in
  (exists k data,
     List.filter is_curl (trace (run (main w) update).2)
     = repeat (ECurl "PUT" "https://jamf.example.com/api/v1/scripts/17"
                 (PyStr "token") data) (S k))
  /\ (exists k data,
        List.filter is_curl (trace (run (main w) create).2)
        = repeat (ECurl "POST" "https://jamf.example.com/api/v1/scripts"
                    (PyStr "token") data) (S k))
  /\ length (List.filter is_curl (trace (run (main w) update).2))
     = length (List.filter is_attempt_msg (trace (run (main w) update).2)).
Proof.
  intros w update create.
  destruct (writes_put_on_id_or_post w update (run (main w) update).1
              (run (main w) update).2) as (Hcount & _ & Hupdate);
    [vm_compute; reflexivity|].
  destruct (writes_put_on_id_or_post w create (run (main w) create).1
              (run (main w) create).2) as (_ & _ & Hcreate);
    [vm_compute; reflexivity|].
  split; [|split; [|exact Hcount]].
  - destruct (Hupdate (PyStr "/scripts/existing.sh") (PyStr "existing.sh")
                (PyStr "token") "#!/bin/zsh" (PyStr "AFTER"))
      as (Hput & _); [vm_compute; reflexivity..|].
    destruct Hput as (k & Hk); [vm_compute; reflexivity..|].
    eexists k, _. exact Hk.
  - destruct (Hcreate (PyStr "/scripts/new.sh") (PyStr "new.sh")
                (PyStr "token") "#!/bin/sh" (PyStr "AFTER"))
      as (_ & Hpost); [vm_compute; reflexivity..|].
    destruct Hpost as (k & Hk); [vm_compute; reflexivity|].
    eexists k, _. exact Hk.
Defined.

(** A: the script is new, so it is created with one POST. *)
Example scenario_created :
  let w := demo_world healthy in
  let e := demo_env (PyStr "/scripts/new.sh") (PyBool false) (PyStr "") in
  (run (main w) e).1 = Ok Uploaded
  /\ List.filter is_curl (trace (run (main w) e).2)
     = [ECurl "POST" "https://jamf.example.com/api/v1/scripts" (PyStr "token")
          (PyStr "/tmp/jamf_upload.json")].
Proof. split; vm_compute; reflexivity. Qed.

(** C: the script exists with id 17 and is to be replaced: one PUT. *)
Example scenario_updated :
  let w := demo_world healthy in
  let e := demo_env (PyStr "/scripts/existing.sh") (PyBool true) (PyStr "") in
  (run (main w) e).1 = Ok Uploaded
  /\ List.filter is_curl (trace (run (main w) e).2)
     = [ECurl "PUT" "https://jamf.example.com/api/v1/scripts/17" (PyStr "token")
          (PyStr "/tmp/jamf_upload.json")].
Proof. split; vm_compute; reflexivity. Qed.

(** *** Category fallback *)

(** C7.  When a category is supplied and the server does not know it, the
    category stage returns normally with the sentinel ["-1"] after logging the
    warning, and [main] carries on from there: every run logs the warning,
    and a run that resolves the path to a file that it can read, settles on a
    name and is not to skip the script builds one record, whose [categoryId]
    is ["-1"] and whose [categoryName] is the category that was supplied. *)
Theorem missing_category_falls_back (w : World) (e : gmap string PyVal)
    (token : PyVal) :
  let self := normalize_replace (read_inputs e) in
  handle_uapi_auth w (env_get e "JSS_URL") (env_get e "API_USERNAME")
    (env_get e "API_PASSWORD") = Ok token ->
  truthy (env_get e "script_category") = true ->
  truthy (get_uapi_obj_id_from_name w (env_get e "JSS_URL") "category"
            (env_get e "script_category") token) = false ->
  (forall st,
     resolve_category w self token st
     = (Ok (self, PyStr "-1"),
        extend st
          [EOutput (PyStr ("Checking categories for "
                           ++ Py.str w (env_get e "script_category"))%string) 1;
           ELookup (env_get e "JSS_URL") "category"
             (env_get e "script_category") token;
           category_warning]))
  /\ (forall r st,
        run (main w) e = (r, st) ->
        In category_warning (trace st)
        /\ forall d, In (EWriteJson d) (trace st) ->
                     record_field "categoryId" d = Some (PyStr "-1"))
  /\ forall path name contents priority,
       resolved_path w (env_get e "script_path") = Some path ->
       name_for e path = Ok name ->
       (truthy (get_uapi_obj_id_from_name w (env_get e "JSS_URL") "script" name
                  token) = true ->
        false_like (env_get e "replace_script") = false) ->
       read_result w path = Ok contents ->
       priority_result w (env_get e "script_priority") = Ok priority ->
       exists d,
         List.filter is_write_json (trace (run (main w) e).2) = [EWriteJson d]
         /\ record_field "categoryId" d = Some (PyStr "-1")
         /\ record_field "categoryName" d = Some (env_get e "script_category")
         /\ exists k request url data,
              List.filter is_curl (trace (run (main w) e).2)
              = repeat (ECurl request url token data) (S k)
              /\ data = write_json_file w d.
Proof.
  intros self Hauth Hc Hid. split; [|split].
  - intros st. subst self. rewrite normalize_replace_eq.
    by rewrite resolve_category_absent.
  - intros r st Hmain. split.
    + unfold run in Hmain. apply main_cases in Hmain as (r1 & st1 & Hprep & Hrest).
      pose proof (prepare_warns _ _ _ _ token Hprep Hauth Hc Hid) as Hin.
      destruct r1 as [[[self' category_id] token']|x].
      2:{ by destruct Hrest as [_ ->]. }
      cbv zeta in Hrest.
      destruct Hrest as (t0 & _ & [(_ & _ & _ & ->)|(_ & Hrest)]).
      { apply in_or_app. by left. }
      destruct (read_result w (self_script_path self')).
      2:{ destruct Hrest as [_ ->]. apply in_or_app. by left. }
      destruct (priority_result w (self_script_priority self')).
      2:{ destruct Hrest as [_ ->]. apply in_or_app. by left. }
      destruct Hrest as (t & _ & _ & -> & _). apply in_or_app. by left.
    + intros d Hd. apply main_anatomy in Hmain as (t1 & Hq & Hcases).
      destruct Hcases as [(Htr & _ & _)|Hup].
      { rewrite Htr in Hd. destruct Hd as [Hd|Hd]; [done|].
        by apply quiet_not_write in Hd. }
      destruct Hup as (path & name & token' & contents & priority & t & Hup).
      cbv zeta in Hup.
      destruct Hup as (Hauth' & _ & _ & _ & _ & _ & Hev & _ & Htr & _).
      assert (token' = token) as -> by congruence.
      rewrite Htr in Hd. destruct Hd as [Hd|Hd]; [done|].
      apply in_app_or in Hd as [Hd|Hd]; [by apply quiet_not_write in Hd|].
      apply in_app_or in Hd as [Hd|Hd].
      * simpl in Hd. destruct Hd as [Hd|[Hd|[Hd|[Hd|[]]]]]; try done.
        injection Hd as <-. simpl. unfold category_id_for. by rewrite Hc, Hid.
      * rewrite Forall_forall in Hev. by apply list_elem_of_In, Hev in Hd.
  - intros path name contents priority Hpath Hname Hrep Hread Hprio.
    destruct (main_posts_steps w e path name token contents priority)
      as ((k & Hk) & Hw); try done.
    eexists. split; [exact Hw|]. split; [|split].
    + simpl. unfold category_id_for. by rewrite Hc, Hid.
    + simpl. by rewrite Hc.
    + by eexists k, _, _, _.
Qed.

Lemma missing_category_falls_back_witness :
  let w := demo_world healthy in
  let e := demo_env (PyStr "/scripts/new.sh") (PyBool false) (PyStr "Nope") in
  In category_warning (trace (run (main w) e).2)
  /\ exists d,
       List.filter is_write_json (trace (run (main w) e).2) = [EWriteJson d]
       /\ record_field "categoryId" d = Some (PyStr "-1")
       /\ record_field "categoryName" d = Some (PyStr "Nope")
       /\ exists k request url data,
            List.filter is_curl (trace (run (main w) e).2)
            = repeat (ECurl request url (PyStr "token") data) (S k)
            /\ data = write_json_file w d.
Proof.
  intros w e.
  destruct (missing_category_falls_back w e (PyStr "token"))
    as (_ & Hmain & Hrecord); [vm_compute; reflexivity..|].
  split.
  - apply (Hmain (run (main w) e).1). vm_compute. reflexivity.
  - apply (Hrecord (PyStr "/scripts/new.sh") (PyStr "new.sh") "#!/bin/sh"
             (PyStr "AFTER")); try (vm_compute; reflexivity).
    vm_compute. discriminate.
Defined.

(** *** Priority *)

(** C8.  A priority given as a string is put in upper case, by [str.upper],
    before it is transmitted: ASCII text comes out with no lower-case letter
    left in it, and ["after"] becomes ["AFTER"].  An empty or unset priority,
    like every false value, is passed on as it is, with no default put in its
    place.  And the record that [upload_script] builds and writes, once it
    has read the file, carries the priority so normalised. *)
Theorem priority_is_upper_cased (w : World) (s : string) :
  (forall st,
     normalize_priority w (PyStr s) st = (Ok (PyStr (str_upper w s)), st))
  /\ (is_ascii s = true ->
      Forall (fun c => ~ (97 <= nat_of_ascii c <= 122)%nat)
             (list_ascii_of_string (str_upper w s)))
  /\ str_upper w "after" = "AFTER"
  /\ str_upper w "" = ""
  /\ (forall v st, truthy v = false -> normalize_priority w v st = (Ok v, st))
  /\ forall self jamf_url script_name script_path category_id script_category
            script_info script_notes p4 p5 p6 p7 p8 p9 p10 p11
            script_os_requirements token obj_id contents st,
       read_result w script_path = Ok contents ->
       exists d,
         List.filter is_write_json
           (trace (upload_script w self jamf_url script_name script_path
                     category_id script_category script_info script_notes
                     (PyStr s) p4 p5 p6 p7 p8 p9 p10 p11 script_os_requirements
                     token obj_id st).2)
         = List.filter is_write_json (trace st) ++ [EWriteJson d]
         /\ record_field "priority" d = Some (PyStr (str_upper w s))
         /\ In (ECurl (method_for obj_id) (script_url w jamf_url obj_id) token
                  (write_json_file w d))
               (trace (upload_script w self jamf_url script_name script_path
                         category_id script_category script_info script_notes
                         (PyStr s) p4 p5 p6 p7 p8 p9 p10 p11
                         script_os_requirements token obj_id st).2).
Proof.
  assert (Hprio : priority_result w (PyStr s) = Ok (PyStr (str_upper w s))).
  { unfold priority_result. simpl. by destruct (String.eqb_spec s "") as [->|]. }
  split; [|split; [|split; [|split; [|split]]]]; try done.
  - intros st. by rewrite normalize_priority_run, Hprio.
  - intros Hascii. unfold str_upper. rewrite Hascii.
    apply str_upper_ascii_no_lower.
  - intros v st Hv. unfold normalize_priority. by rewrite Hv.
  - intros self jamf_url script_name script_path category_id script_category
      script_info script_notes p4 p5 p6 p7 p8 p9 p10 p11 script_os_requirements
      token obj_id contents st Hread.
    rewrite upload_script_run, Hprio, Hread. cbv zeta.
    match goal with
    | |- context [upload_loop ?w' ?s' ?n' ?u' ?k' ?j' ?o' ?c' ?s0'] =>
        destruct (upload_loop_starts w' s' n' u' k' j' o' c' s0')
          as (t' & -> & Hev)
    end.
    eexists. unfold extend. cbn [trace].
    rewrite !List.filter_app. cbn [List.filter is_write_json announce app].
    rewrite (loop_event_no_write _ _ _ _ _ _ _ Hev), app_nil_r.
    split; [reflexivity|]. split; [done|].
    rewrite !in_app_iff. right. simpl. auto.
Qed.

Lemma priority_is_upper_cased_witness :
  let w := demo_world healthy in
  let st := (upload_script w (demo_self (PyStr "5"))
               (PyStr "https://jamf.example.com") (PyStr "new.sh")
               (PyStr "/scripts/new.sh") (PyStr "-1") (PyStr "") PyNone PyNone
               (PyStr "after") PyNone PyNone PyNone PyNone PyNone PyNone PyNone
               PyNone PyNone (PyStr "token") (PyInt 0)
               {| env := ∅; trace := [] |}).2 in
  exists d,
    List.filter is_write_json (trace st) = [EWriteJson d]
    /\ record_field "priority" d = Some (PyStr "AFTER")
    /\ In (ECurl "POST" "https://jamf.example.com/api/v1/scripts" (PyStr "token")
             (write_json_file w d)) (trace st).
Proof.
  intros w st.
  destruct (priority_is_upper_cased w "after") as (_ & _ & Hafter & _ & _ & Hrec).
  rewrite <- Hafter.
  apply (Hrec (demo_self (PyStr "5")) (PyStr "https://jamf.example.com")
           (PyStr "new.sh") (PyStr "/scripts/new.sh") (PyStr "-1") (PyStr "")
           PyNone PyNone PyNone PyNone PyNone PyNone PyNone PyNone PyNone
           PyNone PyNone (PyStr "token") (PyInt 0) "#!/bin/sh"
           {| env := ∅; trace := [] |}).
  vm_compute. reflexivity.
Defined.

(** *** The record that is written *)

(** C9, as the code has it.  Whenever a request is sent, the path resolved to
    a file that was there to be read, the record's contents are the text of
    that file after key substitution (which may be empty), and the record's
    name, the configured one or else the file's base name, is not empty. *)
Theorem written_record_comes_from_file (w : World) (e : gmap string PyVal)
    (r : Result Outcome) (st : State) :
  files_are_named w ->
  run (main w) e = (r, st) ->
  forall request url token data,
    In (ECurl request url token data) (trace st) ->
    exists path name contents d,
      resolved_path w (env_get e "script_path") = Some path
      /\ path_entry w path = Ok (Some (File contents))
      /\ name_for e path = Ok name
      /\ truthy name = true
      /\ In (EWriteJson d) (trace st)
      /\ data = write_json_file w d
      /\ record_field "name" d = Some name
      /\ record_field "scriptContents" d
         = Some (PyStr (substitute_assignable_keys w contents)).
Proof.
  intros Hfs Hmain request url token data Hin.
  apply main_anatomy in Hmain as (t1 & Hq & Hcases).
  destruct Hcases as [(Htr & _ & _)|Hup].
  { rewrite Htr in Hin. destruct Hin as [Hin|Hin]; [done|].
    by apply quiet_not_curl in Hin. }
  destruct Hup as (path & name & token' & contents & priority & t & Hup).
  cbv zeta in Hup.
  destruct Hup as (_ & Hpath & Hname & _ & Hread & _ & Hev & _ & Htr & _).
  assert (Hentry : path_entry w path = Ok (Some (File contents))).
  { unfold read_result in Hread.
    destruct (path_entry w path) as [[[c|]|]|]; try discriminate. congruence. }
  exists path, name, contents,
    (record_of w (prepared_self e path name) priority
       (category_id_for w e token') contents).
  repeat (split; [done|]). split.
  { unfold name_for in Hname.
    destruct (truthy (env_get e "script_name")) eqn:Hn; [congruence|].
    destruct path as [| | | |p| |]; try discriminate.
    injection Hname as <-. simpl in *.
    injection Hentry as Hentry.
    apply negb_true_iff, String.eqb_neq. by eapply Hfs. }
  split.
  { rewrite Htr. right. apply in_or_app. right. apply in_or_app. left.
    simpl. auto. }
  split; [|done].
  rewrite Htr in Hin. destruct Hin as [Hin|Hin]; [done|].
  apply in_app_or in Hin as [Hin|Hin]; [by apply quiet_not_curl in Hin|].
  apply in_app_or in Hin as [Hin|Hin].
  { simpl in Hin. by repeat destruct Hin as [Hin|Hin]. }
  rewrite Forall_forall in Hev. apply list_elem_of_In, Hev in Hin.
  by destruct Hin as (_ & _ & _ & ->).
Qed.

Lemma written_record_comes_from_file_witness :
  let st := (run (main (demo_world healthy))
               (demo_env (PyStr "/scripts/new.sh") (PyBool false) (PyStr ""))).2 in
  exists path name contents d,
    resolved_path (demo_world healthy) (PyStr "/scripts/new.sh") = Some path
    /\ path_entry (demo_world healthy) path = Ok (Some (File contents))
    /\ name_for (demo_env (PyStr "/scripts/new.sh") (PyBool false) (PyStr "")) path
       = Ok name
    /\ truthy name = true
    /\ In (EWriteJson d) (trace st)
    /\ PyStr "/tmp/jamf_upload.json" = write_json_file (demo_world healthy) d
    /\ record_field "name" d = Some name
    /\ record_field "scriptContents" d
       = Some (PyStr (substitute_assignable_keys (demo_world healthy) contents)).
Proof.
  apply (written_record_comes_from_file (demo_world healthy)
           (demo_env (PyStr "/scripts/new.sh") (PyBool false) (PyStr ""))
           (run (main (demo_world healthy))
              (demo_env (PyStr "/scripts/new.sh") (PyBool false) (PyStr ""))).1
           (run (main (demo_world healthy))
              (demo_env (PyStr "/scripts/new.sh") (PyBool false) (PyStr ""))).2
           (demo_files_are_named healthy) ltac:(vm_compute; reflexivity)
           "POST" "https://jamf.example.com/api/v1/scripts" (PyStr "token")
           (PyStr "/tmp/jamf_upload.json")).
  vm_compute. repeat (first [left; reflexivity | right]).
Defined.

(** The contents need not be non-empty: an empty script file is uploaded,
    with empty contents in the record. *)
Lemma empty_script_is_uploaded :
  let w := demo_world healthy in
  let e := demo_env (PyStr "/scripts/empty.sh") (PyBool false) (PyStr "") in
  fs w "/scripts/empty.sh" = Some (File "")
  /\ (run (main w) e).1 = Ok Uploaded
  /\ exists d,
       List.filter is_upload_step (trace (run (main w) e).2)
       = [EWriteJson d;
          ECurl "POST" "https://jamf.example.com/api/v1/scripts" (PyStr "token")
            (write_json_file w d)]
       /\ record_field "scriptContents" d = Some (PyStr "").
Proof.
  split; [reflexivity|]. split; [vm_compute; reflexivity|].
  eexists. split; vm_compute; reflexivity.
Qed.

(** *** The summary *)

(** C10.  [main] deletes the summary of an earlier run before anything else:
    unless it goes all the way to the report, the environment it leaves is
    the one it found without that entry.  After a skip, then, there is no
    summary, and [script_name] and [script_uploaded] are as they were. *)
Theorem skip_leaves_no_summary (w : World) (e : gmap string PyVal)
    (r : Result Outcome) (st : State) :
  run (main w) e = (r, st) ->
  (r <> Ok Uploaded -> env st = delete summary_key e)
  /\ (r = Ok Skipped ->
      env st !! summary_key = None
      /\ env st !! "script_name" = e !! "script_name"
      /\ env st !! "script_uploaded" = e !! "script_uploaded")
  /\ (r = Ok Uploaded ->
      exists self, env st = report w self (delete summary_key e)).
Proof.
  intros Hmain.
  assert (Hclear : r <> Ok Uploaded -> env st = delete summary_key e).
  { intros Hr. apply main_anatomy in Hmain as (t1 & _ & Hcases).
    destruct Hcases as [(_ & _ & Henv)|Hup]; [done|].
    destruct Hup as (path & name & token & contents & priority & t & Hup).
    cbv zeta in Hup. destruct Hup as (_ & _ & _ & _ & _ & _ & _ & _ & _ & Hout).
    by destruct Hout as [[-> _]|[_ Henv]]. }
  split; [done|]. split.
  - intros ->. rewrite Hclear by done. unfold summary_key.
    rewrite lookup_delete_eq. by rewrite !lookup_delete_ne.
  - intros ->. apply main_anatomy in Hmain as (t1 & _ & Hcases).
    destruct Hcases as [(_ & Hr & _)|Hup]; [done|].
    destruct Hup as (path & name & token & contents & priority & t & Hup).
    cbv zeta in Hup. destruct Hup as (_ & _ & _ & _ & _ & _ & _ & _ & _ & Hout).
    destruct Hout as [[_ Henv]|[[x Hx] _]]; [|done]. eauto.
Qed.

Lemma skip_leaves_no_summary_witness :
  let w := demo_world healthy in
  let e := demo_env (PyStr "/scripts/existing.sh") (PyBool false) (PyStr "") in
  e !! summary_key = Some (PyStr "stale")
  /\ (run (main w) e).1 = Ok Skipped
  /\ env (run (main w) e).2 !! summary_key = None
  /\ env (run (main w) e).2 !! "script_name" = e !! "script_name"
  /\ env (run (main w) e).2 !! "script_uploaded" = e !! "script_uploaded".
Proof.
  intros w e. split; [vm_compute; reflexivity|].
  split; [vm_compute; reflexivity|].
  apply (skip_leaves_no_summary w e (run (main w) e).1 (run (main w) e).2).
  - vm_compute. reflexivity.
  - vm_compute. reflexivity.
Defined.

(** * Further properties of the processor *)

(** ** Further properties of the retry loop *)

Lemma sent_extend_quiet st t :
  List.filter is_curl t = [] -> sent (extend st t) = sent st.
Proof. intros H. rewrite sent_extend, H. simpl. lia. Qed.

(** The loop entered with counter [count], when the first [j] answers are
    retryable and the next one is not. *)
Lemma upload_loop_breaks_after w self script_name url token script_json obj_id n j :
  forall count st,
    (count + j <= 5)%nat ->
    (forall i, (i < j)%nat ->
       status_check w (curl w (sent st + i) (method_for obj_id) url token script_json)
         "Script" script_name (method_for obj_id) <> "break") ->
    status_check w (curl w (sent st + j) (method_for obj_id) url token script_json)
      "Script" script_name (method_for obj_id) = "break" ->
    ((0 < j)%nat -> Py.int w (self_sleep self) = Ok n) ->
    exists t,
      upload_loop w self script_name url token script_json obj_id count st
      = (Ok (curl w (sent st + j) (method_for obj_id) url token script_json),
         extend st t)
      /\ length (List.filter is_curl t) = S j
      /\ List.filter is_sleep t = repeat (ESleep (Z.max n 30)) j.
Proof.
  induction j as [|j IH]; intros count st Hc Hretry Hbreak Hsleep.
  - rewrite Nat.add_0_r in Hbreak. eexists.
    rewrite upload_loop_break by (by apply String.eqb_eq).
    rewrite Nat.add_0_r. split; [reflexivity|]. by split.
  - rewrite (upload_loop_retry _ _ _ _ _ _ _ _ _ n).
    2:{ apply String.eqb_neq. specialize (Hretry 0%nat ltac:(lia)).
        by rewrite Nat.add_0_r in Hretry. }
    2: lia.
    2: apply Hsleep; lia.
    set (st' := extend st _).
    assert (Hsent : sent st' = S (sent st)).
    { unfold st'. rewrite sent_extend. simpl. lia. }
    destruct (IH (S count) st') as (t & Hloop & Hcurl & Hsl).
    + lia.
    + intros i Hi. rewrite Hsent. specialize (Hretry (S i) ltac:(lia)).
      by replace (S (sent st) + i)%nat with (sent st + S i)%nat by lia.
    + rewrite Hsent. by replace (S (sent st) + j)%nat with (sent st + S j)%nat by lia.
    + intros _. apply Hsleep. lia.
    + rewrite Hloop, Hsent. unfold st'. rewrite extend_extend.
      replace (S (sent st) + j)%nat with (sent st + S j)%nat by lia.
      eexists. split; [reflexivity|].
      rewrite !List.filter_app, length_app, Hcurl, Hsl. by split.
Qed.

(** X1.  If the first [j] answers are classified as retryable and the next
    one is not, with [j] at most five, the loop returns that answer after
    [j + 1] requests and [j] pauses of the floored length. *)
Theorem upload_returns_first_accepted_answer
    (w : World) (self : Self) (script_name : PyVal) (url : string)
    (token script_json obj_id : PyVal) (n : Z) (j : nat) (st : State) :
  (j <= 5)%nat ->
  (forall i, (i < j)%nat ->
     status_check w (curl w (sent st + i) (method_for obj_id) url token script_json)
       "Script" script_name (method_for obj_id) <> "break") ->
  status_check w (curl w (sent st + j) (method_for obj_id) url token script_json)
    "Script" script_name (method_for obj_id) = "break" ->
  ((0 < j)%nat -> Py.int w (self_sleep self) = Ok n) ->
  exists t,
    upload_loop w self script_name url token script_json obj_id 0 st
    = (Ok (curl w (sent st + j) (method_for obj_id) url token script_json),
       extend st t)
    /\ length (List.filter is_curl t) = S j
    /\ List.filter is_sleep t = repeat (ESleep (Z.max n 30)) j.
Proof. intros Hj. by apply upload_loop_breaks_after. Qed.

Lemma upload_returns_first_accepted_answer_witness :
  exists t,
    upload_loop (demo_world slow_start) (demo_self (PyStr "45")) (PyStr "new.sh")
      "https://jamf.example.com/api/v1/scripts" (PyStr "token")
      (PyStr "/tmp/jamf_upload.json") (PyInt 0) 0 {| env := ∅; trace := [] |}
    = (Ok {| status_code := 201; body := "" |},
       extend {| env := ∅; trace := [] |} t)
    /\ length (List.filter is_curl t) = 3%nat
    /\ List.filter is_sleep t = [ESleep 45; ESleep 45].
Proof.
  apply (upload_returns_first_accepted_answer (demo_world slow_start)
           (demo_self (PyStr "45")) (PyStr "new.sh")
           "https://jamf.example.com/api/v1/scripts" (PyStr "token")
           (PyStr "/tmp/jamf_upload.json") (PyInt 0) 45 2
           {| env := ∅; trace := [] |}).
  - lia.
  - intros [|[|i]] Hi; [vm_compute; discriminate..|lia].
  - vm_compute. reflexivity.
  - intros _. vm_compute. reflexivity.
Defined.

(** X2.  Whatever the server answers and whatever is configured, an upload
    sends at least one request and at most six, and pauses exactly once
    between two consecutive requests. *)
Theorem upload_sends_one_to_six_requests
    (w : World) (self : Self) (script_name : PyVal) (url : string)
    (token script_json obj_id : PyVal) (st : State) :
  exists t,
    (upload_loop w self script_name url token script_json obj_id 0 st).2
    = extend st t
    /\ (1 <= length (List.filter is_curl t) <= 6)%nat
    /\ S (length (List.filter is_sleep t)) = length (List.filter is_curl t).
Proof.
  assert (H : forall k count st,
             k = (6 - count)%nat ->
             exists t,
               (upload_loop w self script_name url token script_json obj_id
                  count st).2 = extend st t
               /\ (1 <= length (List.filter is_curl t) <= Nat.max 1 k)%nat
               /\ S (length (List.filter is_sleep t))
                  = length (List.filter is_curl t)).
  { clear st. intros k. induction (lt_wf k) as [k _ IH]. intros count st ->.
    rewrite upload_loop_equation_1. cbv zeta. unfold bind at 1.
    rewrite attempt_run. cbv zeta.
    destruct (String.eqb _ "break").
    { eexists. split; [reflexivity|]. simpl. lia. }
    destruct (decide (5 < S count)%nat) as [Hc|Hc].
    { eexists. unfold abort_upload, bind, output, emit, raise. simpl.
      split; [unfold extend; simpl; rewrite <- !app_assoc; reflexivity|].
      simpl. lia. }
    unfold bind.
    destruct (Py.int w (self_sleep self)) as [n|x] eqn:Hn.
    - rewrite (backoff_run _ _ n) by done.
      destruct (IH (6 - S count)%nat ltac:(lia) (S count)
                  (extend (extend st [attempt_msg (S count);
                                      ECurl (method_for obj_id) url token script_json])
                          [ESleep (Z.max n 30)]) eq_refl) as (t & Ht & Hcurl & Hsl).
      cbv beta iota. rewrite Ht.
      eexists. rewrite !extend_extend. split; [reflexivity|].
      rewrite !List.filter_app, !length_app. simpl. lia.
    - rewrite (backoff_raise _ _ x) by done.
      eexists. split; [reflexivity|]. simpl. lia. }
  destruct (H 6%nat 0%nat st eq_refl) as (t & Ht & Hcurl & Hsl).
  exists t. split; [done|]. split; [lia|done].
Qed.

(** X3.  A [sleep] that [int] rejects, such as an unset one, is only
    noticed when the first pause is due: if the first answer is retryable the
    upload ends with that exception after a single request. *)
Theorem unusable_sleep_ends_upload_after_one_request
    (w : World) (self : Self) (script_name : PyVal) (url : string)
    (token script_json obj_id : PyVal) (x : Exn) (st : State) :
  Py.int w (self_sleep self) = Raise x ->
  status_check w (curl w (sent st) (method_for obj_id) url token script_json)
    "Script" script_name (method_for obj_id) <> "break" ->
  upload_loop w self script_name url token script_json obj_id 0 st
  = (Raise x,
     extend st [attempt_msg 1; ECurl (method_for obj_id) url token script_json]).
Proof.
  intros Hx Hretry. apply String.eqb_neq in Hretry.
  rewrite upload_loop_equation_1. cbv zeta. unfold bind at 1.
  rewrite attempt_run. cbv zeta. rewrite Hretry.
  destruct (decide (5 < 1)%nat) as [?|_]; [lia|].
  unfold bind. by rewrite (backoff_raise _ _ x).
Qed.

Lemma unusable_sleep_ends_upload_after_one_request_witness :
  upload_loop (demo_world unavailable) (demo_self PyNone) (PyStr "new.sh")
    "https://jamf.example.com/api/v1/scripts" (PyStr "token")
    (PyStr "/tmp/jamf_upload.json") (PyInt 0) 0 {| env := ∅; trace := [] |}
  = (Raise TypeError,
     extend {| env := ∅; trace := [] |}
       [attempt_msg 1;
        ECurl "POST" "https://jamf.example.com/api/v1/scripts" (PyStr "token")
          (PyStr "/tmp/jamf_upload.json")]).
Proof.
  apply (unusable_sleep_ends_upload_after_one_request (demo_world unavailable)
           (demo_self PyNone) (PyStr "new.sh")
           "https://jamf.example.com/api/v1/scripts" (PyStr "token")
           (PyStr "/tmp/jamf_upload.json") (PyInt 0) TypeError).
  - vm_compute. reflexivity.
  - vm_compute. discriminate.
Defined.

(** An answer that the loop returns is the answer to the last request, and
    it was classified as final. *)
Lemma upload_loop_ok w self script_name url token script_json obj_id count st r st' :
  upload_loop w self script_name url token script_json obj_id count st = (Ok r, st') ->
  exists t,
    st' = extend st (t ++ [ECurl (method_for obj_id) url token script_json])
    /\ r = curl w (sent st + length (List.filter is_curl t)) (method_for obj_id)
             url token script_json
    /\ status_check w r "Script" script_name (method_for obj_id) = "break".
Proof.
  remember (6 - count)%nat as k eqn:Hk.
  revert count st r st' Hk. induction (lt_wf k) as [k _ IH].
  intros count st r st' ->.
  rewrite upload_loop_equation_1. cbv zeta. unfold bind at 1.
  rewrite attempt_run. cbv zeta.
  destruct (String.eqb _ "break") eqn:Hb.
  { intros H. injection H as <- <-. exists [attempt_msg (S count)].
    split; [done|]. simpl. rewrite Nat.add_0_r. split; [done|].
    by apply String.eqb_eq. }
  destruct (decide (5 < S count)%nat) as [Hc|Hc].
  { unfold abort_upload, bind, output, emit, raise. simpl. discriminate. }
  unfold bind.
  destruct (Py.int w (self_sleep self)) as [n|x] eqn:Hn.
  - rewrite (backoff_run _ _ n) by done. cbv beta iota. intros H.
    apply (IH (6 - S count)%nat ltac:(lia) (S count) _ _ _ eq_refl) in H
      as (t & -> & -> & Hbreak).
    exists ([attempt_msg (S count); ECurl (method_for obj_id) url token script_json;
             ESleep (Z.max n 30)] ++ t).
    match type of Hbreak with
    | context [curl w ?a] =>
        replace a
          with (sent st
                + length (List.filter is_curl
                            ([attempt_msg (S count);
                              ECurl (method_for obj_id) url token script_json;
                              ESleep (Z.max n 30)] ++ t)))%nat in *
          by (rewrite !sent_extend, List.filter_app, length_app; simpl; lia)
    end.
    rewrite !extend_extend, <- !app_assoc. by repeat split.
  - rewrite (backoff_raise _ _ x) by done. discriminate.
Qed.

(** ** Further properties of [main] *)

(** The result of [prepare] after a successful authentication. *)
Lemma prepare_result w st token :
  let e := env st in
  handle_uapi_auth w (env_get e "JSS_URL") (env_get e "API_USERNAME")
    (env_get e "API_PASSWORD") = Ok token ->
  (prepare w st).1 = prepared w e token.
Proof.
  intros e Hauth. unfold prepare. unfold bind at 1. simpl.
  unfold bind at 1. rewrite clear_summary_run.
  unfold bind at 1. rewrite do_auth_run.
  rewrite normalize_replace_eq. simpl. fold e. rewrite Hauth.
  unfold bind at 1.
  match goal with
  | |- context [resolve_category w ?s ?t ?st0] =>
      destruct (resolve_category_run w s t st0) as (t1 & Hcat & Ht1)
  end.
  rewrite Hcat. clear Hcat. simpl.
  unfold bind at 1. rewrite resolve_path_run.
  unfold prepared, category_id_for, name_for. fold e.
  destruct (truthy (env_get e "script_category")) eqn:Hc; simpl.
  all: destruct (Py.contains "/" (env_get e "script_path")) as [[]|x] eqn:Hs;
    simpl; try done.
  all: try destruct (truthy (get_path_to_file w (env_get e "script_path"))) eqn:Hf;
    simpl; try done.
  all: unfold bind; rewrite default_name_run; simpl.
  all: destruct (truthy (env_get e "script_name")) eqn:Hn; simpl.
  all: try destruct (Py.basename _) as [name|x'] eqn:Hb; simpl.
  all: unfold prepared_self; rewrite ?Hc; reflexivity.
Qed.

(** The events of [prepare]. *)
Lemma prepare_events w st :
  let e := env st in
  let auth := EAuth (env_get e "JSS_URL") (env_get e "API_USERNAME")
                (env_get e "API_PASSWORD") in
  match handle_uapi_auth w (env_get e "JSS_URL") (env_get e "API_USERNAME")
          (env_get e "API_PASSWORD") with
  | Raise x =>
      prepare w st
      = (Raise x, {| env := delete summary_key e; trace := trace st ++ [auth] |})
  | Ok token =>
      exists t, trace (prepare w st).2 = trace st ++ auth :: t
                /\ Forall (prepare_event e token) t
  end.
Proof.
  intros e auth.
  destruct (handle_uapi_auth w _ _ _) as [token|x] eqn:Hauth.
  all: unfold prepare; unfold bind at 1; simpl.
  all: unfold bind at 1; rewrite clear_summary_run.
  all: unfold bind at 1; rewrite do_auth_run.
  all: rewrite normalize_replace_eq; simpl; fold e; fold auth; rewrite Hauth.
  2: reflexivity.
  unfold bind at 1.
  assert (Hcat : exists self' category_id t1,
             resolve_category w
               (set_replace
                  (if false_like (env_get e "replace_script") then PyBool false
                   else env_get e "replace_script") (read_inputs e)) token
               (extend {| env := delete summary_key e; trace := trace st |} [auth])
             = (Ok (self', category_id),
                extend (extend {| env := delete summary_key e; trace := trace st |}
                          [auth]) t1)
             /\ self_script_path self' = env_get e "script_path"
             /\ self_script_name self' = env_get e "script_name"
             /\ Forall (prepare_event e token) t1).
  { destruct (truthy (env_get e "script_category")) eqn:Hc.
    - destruct (truthy (get_uapi_obj_id_from_name w (env_get e "JSS_URL") "category"
                          (env_get e "script_category") token)) eqn:Hid.
      + eexists _, _, _. rewrite resolve_category_found by done.
        split; [reflexivity|]. repeat split; try done.
        repeat constructor; done.
      + eexists _, _, _. rewrite resolve_category_absent by done.
        split; [reflexivity|]. repeat split; try done.
        repeat constructor; done.
    - exists (set_script_category (PyStr "")
                (set_replace
                   (if false_like (env_get e "replace_script") then PyBool false
                    else env_get e "replace_script") (read_inputs e))),
        (PyStr "-1"), [].
      rewrite resolve_category_none by done. rewrite extend_nil.
      repeat split; constructor. }
  destruct Hcat as (self' & category_id & t1 & Hcat & Hpath & Hname & Ht1).
  rewrite Hcat. clear Hcat. cbv beta iota.
  unfold bind at 1. rewrite resolve_path_run. rewrite Hpath.
  destruct (Py.contains "/" (env_get e "script_path")) as [[]|x] eqn:Hs;
    cbv beta iota zeta.
  2: destruct (truthy (get_path_to_file w (env_get e "script_path"))) eqn:Hf.
  all: try (unfold bind; rewrite default_name_run; cbv beta iota).
  all: unfold extend; simpl.
  all: try match goal with
           | |- context [if ?b then _ else _] => destruct b
           end; simpl.
  all: try match goal with
           | |- context [match ?b with Ok _ => _ | Raise _ => _ end] => destruct b
           end; simpl.
  all: eexists; rewrite <- ?app_assoc; simpl; (split; [reflexivity|]).
  all: rewrite ?Forall_app; repeat split; try done; by repeat constructor.
Qed.

(** X5.  When authentication fails, [main] ends with that failure: the old
    summary is gone, and the server has been asked nothing else. *)
Theorem failed_authentication_ends_main (w : World) (e : gmap string PyVal)
    (x : Exn) :
  handle_uapi_auth w (env_get e "JSS_URL") (env_get e "API_USERNAME")
    (env_get e "API_PASSWORD") = Raise x ->
  run (main w) e
  = (Raise x,
     {| env := delete summary_key e;
        trace := [EAuth (env_get e "JSS_URL") (env_get e "API_USERNAME")
                    (env_get e "API_PASSWORD")] |}).
Proof.
  intros Hauth. unfold run. rewrite main_run.
  pose proof (prepare_events w {| env := e; trace := [] |}) as Hprep.
  simpl in Hprep. rewrite Hauth in Hprep. by rewrite Hprep.
Qed.

Lemma failed_authentication_ends_main_witness :
  let e := demo_env (PyStr "/scripts/new.sh") (PyBool false) (PyStr "Tools") in
  run (main locked_world) e
  = (Raise (ProcessorError "ERROR: No token received"),
     {| env := delete summary_key e;
        trace := [EAuth (PyStr "https://jamf.example.com") (PyStr "autopkg")
                    (PyStr "secret")] |}).
Proof.
  intros e.
  apply (failed_authentication_ends_main locked_world e
           (ProcessorError "ERROR: No token received")).
  vm_compute. reflexivity.
Defined.

(** X6.  When the script path cannot be resolved, [main] stops before it asks
    the server about the script: with the error of the membership test for a
    path that is no string, list or dictionary (an unset one, say), and with a
    [ProcessorError] naming the file for a name without a slash that
    [get_path_to_file] does not find. *)
Theorem unresolved_path_ends_main (w : World) (e : gmap string PyVal)
    (token : PyVal) (r : Result Outcome) (st : State) :
  handle_uapi_auth w (env_get e "JSS_URL") (env_get e "API_USERNAME")
    (env_get e "API_PASSWORD") = Ok token ->
  resolved_path w (env_get e "script_path") = None ->
  run (main w) e = (r, st) ->
  r = match Py.contains "/" (env_get e "script_path") with
      | Raise x => Raise x
      | Ok _ => Raise (ProcessorError ("ERROR: Script file "
                         ++ Py.str w (env_get e "script_path") ++ " not found")%string)
      end
  /\ exists t,
       trace st = EAuth (env_get e "JSS_URL") (env_get e "API_USERNAME")
                    (env_get e "API_PASSWORD") :: t
       /\ Forall (prepare_event e token) t.
Proof.
  intros Hauth Hpath Hmain. unfold run in Hmain. rewrite main_run in Hmain.
  pose proof (prepare_result w {| env := e; trace := [] |} token Hauth) as Hres.
  pose proof (prepare_events w {| env := e; trace := [] |}) as Hev.
  simpl in Hres, Hev. rewrite Hauth in Hev. destruct Hev as (t & Htr & Ht).
  destruct (prepare w {| env := e; trace := [] |}) as [r1 st1].
  simpl in Hres, Htr. subst r1.
  unfold prepared in Hmain. unfold resolved_path in Hpath.
  destruct (Py.contains "/" (env_get e "script_path")) as [[]|x]; try done.
  - destruct (truthy (get_path_to_file w (env_get e "script_path"))); [done|].
    simpl in Hmain. injection Hmain as <- <-. eauto.
  - injection Hmain as <- <-. eauto.
Qed.

Lemma unresolved_path_ends_main_witness :
  let w := demo_world healthy in
  let e := demo_env (PyStr "nowhere.sh") (PyBool false) (PyStr "Tools") in
  (run (main w) e).1
  = Raise (ProcessorError "ERROR: Script file nowhere.sh not found")
  /\ exists t,
       trace (run (main w) e).2
       = EAuth (PyStr "https://jamf.example.com") (PyStr "autopkg")
           (PyStr "secret") :: t
       /\ Forall (prepare_event e (PyStr "token")) t.
Proof.
  intros w e.
  apply (unresolved_path_ends_main w e (PyStr "token") (run (main w) e).1
           (run (main w) e).2); vm_compute; reflexivity.
Defined.

(** What [main] does with a script that it will post, when the file cannot be
    read or the priority cannot be put in upper case. *)
Lemma main_upload_failure w e path name token x :
  let obj_id := get_uapi_obj_id_from_name w (env_get e "JSS_URL") "script" name
                  token in
  handle_uapi_auth w (env_get e "JSS_URL") (env_get e "API_USERNAME")
    (env_get e "API_PASSWORD") = Ok token ->
  resolved_path w (env_get e "script_path") = Some path ->
  name_for e path = Ok name ->
  (truthy obj_id = true -> false_like (env_get e "replace_script") = false) ->
  read_result w path = Raise x
  \/ ((exists contents, read_result w path = Ok contents)
      /\ priority_result w (env_get e "script_priority") = Raise x) ->
  (run (main w) e).1 = Raise x
  /\ List.filter is_upload_step (trace (run (main w) e).2) = [].
Proof.
  intros obj_id Hauth Hpath Hname Hrep Hfail.
  destruct (run (main w) e) as [r st] eqn:Hmain. simpl.
  assert (Hr : r = Raise x).
  { unfold run in Hmain. rewrite main_run in Hmain.
    destruct (prepare_complete w {| env := e; trace := [] |} path name token)
      as (st1 & Hprep); try done.
    rewrite Hprep in Hmain. rewrite check_and_post_run in Hmain.
    cbv zeta in Hmain. simpl in Hmain. fold obj_id in Hmain.
    assert (Hpost : forall st0,
               post_and_report w (prepared_self e path name)
                 (category_id_for w e token) token obj_id st0 = (Raise x, st0)).
    { intros st0. rewrite post_and_report_run, upload_script_run. simpl.
      destruct Hfail as [->|[[contents ->] ->]]; done. }
    rewrite !Hpost in Hmain.
    destruct (truthy obj_id) eqn:Hid; [|by injection Hmain as <- _].
    rewrite Hrep in Hmain by done. simpl in Hmain.
    assert (truthy (env_get e "replace_script") = true) as Htr.
    { specialize (Hrep eq_refl). rewrite <- false_like_spec in Hrep.
      apply orb_false_iff in Hrep as [Hrep _]. by apply negb_false_iff. }
    rewrite Htr in Hmain. by injection Hmain as <- _. }
  split; [done|].
  apply main_anatomy in Hmain as (t1 & Hq & Hcases).
  destruct Hcases as [(Htr & _ & _)|Hup].
  - rewrite Htr. apply quiet_no_upload_steps in Hq as (Hu & _ & _).
    simpl. by rewrite Hu.
  - destruct Hup as (path' & name' & token' & contents & priority & t & Hup).
    cbv zeta in Hup.
    destruct Hup as (_ & Hpath' & _ & _ & Hread & Hprio & _).
    assert (path' = path) as -> by congruence.
    destruct Hfail as [Hfail|[_ Hfail]]; congruence.
Qed.

(** X7.  A script that [main] sets out to post but cannot read ends the
    invocation with the error of the read: a [ProcessorError] for a file
    that is not there, [IsADirectoryError] for a directory; nothing has been
    written or sent. *)
Theorem unreadable_script_ends_main (w : World) (e : gmap string PyVal)
    (path name token : PyVal) (x : Exn) :
  let obj_id := get_uapi_obj_id_from_name w (env_get e "JSS_URL") "script" name
                  token in
  handle_uapi_auth w (env_get e "JSS_URL") (env_get e "API_USERNAME")
    (env_get e "API_PASSWORD") = Ok token ->
  resolved_path w (env_get e "script_path") = Some path ->
  name_for e path = Ok name ->
  (truthy obj_id = true -> false_like (env_get e "replace_script") = false) ->
  read_result w path = Raise x ->
  (run (main w) e).1 = Raise x
  /\ List.filter is_upload_step (trace (run (main w) e).2) = [].
Proof.
  intros obj_id Hauth Hpath Hname Hrep Hread.
  apply (main_upload_failure w e path name token x); try done. by left.
Qed.

Lemma unreadable_script_ends_main_witness :
  let w := demo_world healthy in
  let e := demo_env (PyStr "/scripts") (PyBool false) (PyStr "") in
  (run (main w) e).1 = Raise IsADirectoryError
  /\ List.filter is_upload_step (trace (run (main w) e).2) = [].
Proof.
  intros w e.
  apply (unreadable_script_ends_main w e (PyStr "/scripts") (PyStr "scripts")
           (PyStr "token") IsADirectoryError);
    try (vm_compute; reflexivity); try (vm_compute; discriminate).
Defined.

(** X8.  A priority that is set but is not a string, such as a number, ends
    the invocation with [AttributeError] once the script has been read; no
    payload has been written and nothing has been sent. *)
Theorem non_string_priority_ends_main (w : World) (e : gmap string PyVal)
    (path name token : PyVal) (contents : string) :
  let obj_id := get_uapi_obj_id_from_name w (env_get e "JSS_URL") "script" name
                  token in
  handle_uapi_auth w (env_get e "JSS_URL") (env_get e "API_USERNAME")
    (env_get e "API_PASSWORD") = Ok token ->
  resolved_path w (env_get e "script_path") = Some path ->
  name_for e path = Ok name ->
  (truthy obj_id = true -> false_like (env_get e "replace_script") = false) ->
  path_entry w path = Ok (Some (File contents)) ->
  truthy (env_get e "script_priority") = true ->
  (forall s, env_get e "script_priority" <> PyStr s) ->
  (run (main w) e).1 = Raise AttributeError
  /\ List.filter is_upload_step (trace (run (main w) e).2) = [].
Proof.
  intros obj_id Hauth Hpath Hname Hrep Hfile Htruthy Hstr.
  apply (main_upload_failure w e path name token AttributeError); try done.
  right. split.
  - exists contents. unfold read_result. by rewrite Hfile.
  - unfold priority_result. rewrite Htruthy.
    destruct (env_get e "script_priority") as [| | | |s| |]; try done.
    by destruct (Hstr s).
Qed.

Lemma non_string_priority_ends_main_witness :
  let w := demo_world healthy in
  let e := <["script_priority" := PyInt 1]>
             (demo_env (PyStr "/scripts/new.sh") (PyBool false) (PyStr "")) in
  (run (main w) e).1 = Raise AttributeError
  /\ List.filter is_upload_step (trace (run (main w) e).2) = [].
Proof.
  intros w e.
  apply (non_string_priority_ends_main w e (PyStr "/scripts/new.sh")
           (PyStr "new.sh") (PyStr "token") "#!/bin/sh");
    try (vm_compute; reflexivity); try (vm_compute; discriminate).
Defined.

(** X4.  [main] reports an upload only when the last thing it did was to
    send a request whose answer [status_check] accepted. *)
Theorem upload_is_reported_after_accepted_answer (w : World)
    (e : gmap string PyVal) (st : State) :
  run (main w) e = (Ok Uploaded, st) ->
  exists t request url token data name,
    trace st = t ++ [ECurl request url token data]
    /\ env st !! "script_name" = Some name
    /\ status_check w (curl w (length (List.filter is_curl t)) request url token
                         data) "Script" name request = "break".
Proof.
  intros Hmain. unfold run in Hmain. rewrite main_run in Hmain.
  destruct (prepare w {| env := e; trace := [] |})
    as [[[[self category_id] token]|x] st1] eqn:Hprep; [|done].
  assert (Hpost : forall obj_id st0,
             post_and_report w self category_id token obj_id st0 = (Ok Uploaded, st) ->
             exists t request url token data name,
               trace st = t ++ [ECurl request url token data]
               /\ env st !! "script_name" = Some name
               /\ status_check w (curl w (length (List.filter is_curl t)) request
                                    url token data) "Script" name request = "break").
  { intros obj_id st0. rewrite post_and_report_run, upload_script_run.
    destruct (read_result w (self_script_path self)) as [contents|x]; [|done].
    destruct (priority_result w (self_script_priority self)) as [priority|x]; [|done].
    cbv zeta.
    match goal with
    | |- context [upload_loop _ _ _ _ _ _ _ _ ?s] => remember s as st0' eqn:Hst0
    end.
    destruct (upload_loop _ _ _ _ _ _ _ _ _) as [[resp|x] st2] eqn:Hloop; [|done].
    apply upload_loop_ok in Hloop as (t & -> & -> & Hbreak).
    intros H. injection H as <-.
    exists (trace st0' ++ t), (method_for obj_id),
      (script_url w (self_jamf_url self) obj_id), token.
    eexists _, (self_script_name self).
    split; [unfold extend; simpl; by rewrite app_assoc|].
    split; [unfold report; simpl;
            by rewrite lookup_insert_ne, lookup_insert_ne, lookup_insert_eq|].
    rewrite List.filter_app, length_app. exact Hbreak. }
  rewrite check_and_post_run in Hmain. cbv zeta in Hmain.
  destruct (truthy _); [destruct (truthy _)|]; try done; by eapply Hpost.
Qed.

Lemma upload_is_reported_after_accepted_answer_witness :
  let w := demo_world slow_start in
  let e := demo_env (PyStr "/scripts/new.sh") (PyBool false) (PyStr "") in
  exists st t request url token data name,
    run (main w) e = (Ok Uploaded, st)
    /\ length (List.filter is_curl t) = 2%nat
    /\ trace st = t ++ [ECurl request url token data]
    /\ env st !! "script_name" = Some name
    /\ status_check w (curl w (length (List.filter is_curl t)) request url token
                         data) "Script" name request = "break".
Proof.
  intros w e.
  destruct (upload_is_reported_after_accepted_answer w e (run (main w) e).2)
    as (t & request & url & token & data & name & Htr & Hname & Hbreak).
  { vm_compute. reflexivity. }
  exists (run (main w) e).2, t, request, url, token, data, name.
  split; [vm_compute; reflexivity|].
  split; [|exact (conj Htr (conj Hname Hbreak))].
  assert (Hc : length (List.filter is_curl (trace (run (main w) e).2)) = 3%nat)
    by (vm_compute; reflexivity).
  rewrite Htr, List.filter_app, length_app in Hc. simpl in Hc. lia.
Defined.

(** X9.  [main] changes the environment only at its declared outputs and at
    [script_uploaded], which it sets on an upload although
    [output_variables] does not declare it. *)
Theorem main_changes_only_its_outputs (w : World) (e : gmap string PyVal)
    (r : Result Outcome) (st : State) :
  run (main w) e = (r, st) ->
  (forall k, ~ (k ∈ names output_variables) -> k <> "script_uploaded" ->
             env st !! k = e !! k)
  /\ ~ ("script_uploaded" ∈ names output_variables)
  /\ (r = Ok Uploaded -> env st !! "script_uploaded" = Some (PyBool true)).
Proof.
  intros Hmain. apply main_anatomy in Hmain as (t1 & _ & Hcases).
  assert (Henv : env st = delete summary_key e
                 \/ (r = Ok Uploaded
                     /\ exists self, env st = report w self (delete summary_key e))).
  { destruct Hcases as [(_ & _ & Henv)|Hup]; [by left|].
    destruct Hup as (path & name & token & contents & priority & t & Hup).
    cbv zeta in Hup. destruct Hup as (_ & _ & _ & _ & _ & _ & _ & _ & _ & Hout).
    destruct Hout as [[-> Henv]|[_ Henv]]; [right; eauto|by left]. }
  split; [|split].
  - intros k Hk Hk'. unfold names in Hk. simpl in Hk.
    apply not_elem_of_cons in Hk as [Hk1 Hk].
    apply not_elem_of_cons in Hk as [Hk2 _].
    destruct Henv as [->|(_ & self & ->)].
    + by rewrite lookup_delete_ne.
    + unfold report. rewrite !lookup_insert_ne by done. by rewrite lookup_delete_ne.
  - unfold names. simpl. intros Hin.
    apply elem_of_cons in Hin as [Hin|Hin]; [discriminate|].
    apply elem_of_cons in Hin as [Hin|Hin]; [discriminate|].
    by apply elem_of_nil in Hin.
  - intros ->. destruct Henv as [Henv|(_ & self & ->)].
    + destruct Hcases as [(_ & Hr & _)|Hup]; [done|].
      destruct Hup as (path & name & token & contents & priority & t & Hup).
      cbv zeta in Hup. destruct Hup as (_ & _ & _ & _ & _ & _ & _ & _ & _ & Hout).
      destruct Hout as [[_ ->]|[[x Hx] _]]; [|done].
      unfold report. by rewrite lookup_insert_ne, lookup_insert_eq.
    + unfold report. by rewrite lookup_insert_ne, lookup_insert_eq.
Qed.

Lemma main_changes_only_its_outputs_witness :
  let w := demo_world healthy in
  let e := demo_env (PyStr "/scripts/new.sh") (PyBool false) (PyStr "") in
  env (run (main w) e).2 !! "sleep" = Some (PyStr "5")
  /\ env (run (main w) e).2 !! "script_uploaded" = Some (PyBool true).
Proof.
  intros w e.
  destruct (main_changes_only_its_outputs w e (run (main w) e).1
              (run (main w) e).2) as (Hframe & _ & Hup).
  { vm_compute. reflexivity. }
  split.
  - rewrite Hframe; [vm_compute; reflexivity| |discriminate].
    unfold names. simpl. intros Hin.
    apply elem_of_cons in Hin as [Hin|Hin]; [discriminate|].
    apply elem_of_cons in Hin as [Hin|Hin]; [discriminate|].
    by apply elem_of_nil in Hin.
  - apply Hup. vm_compute. reflexivity.
Defined.

(** X10.  After an upload the environment holds [script_uploaded = True], the
    name that was used, and a summary whose data name the script, its
    resolved path and the priority as it was configured, while the one record
    that was written carries that name and the priority in upper case. *)
Theorem upload_report (w : World) (e : gmap string PyVal) (st : State)
    (s : string) :
  run (main w) e = (Ok Uploaded, st) ->
  env_get e "script_priority" = PyStr s ->
  exists path name summary data d,
    resolved_path w (env_get e "script_path") = Some path
    /\ name_for e path = Ok name
    /\ env st !! "script_uploaded" = Some (PyBool true)
    /\ env st !! "script_name" = Some name
    /\ env st !! summary_key = Some summary
    /\ record_field "data" summary = Some data
    /\ record_field "script" data = Some name
    /\ record_field "path" data = Some path
    /\ record_field "priority" data = Some (PyStr s)
    /\ List.filter is_write_json (trace st) = [EWriteJson d]
    /\ record_field "name" d = Some name
    /\ record_field "priority" d = Some (PyStr (str_upper w s)).
Proof.
  intros Hmain Hprio. apply main_anatomy in Hmain as (t1 & Hq & Hcases).
  destruct Hcases as [(_ & Hr & _)|Hup]; [done|].
  destruct Hup as (path & name & token & contents & priority & t & Hup).
  cbv zeta in Hup.
  destruct Hup as (_ & Hpath & Hname & _ & _ & Hp & Hev & _ & Htr & Hout).
  destruct Hout as [[_ Henv]|[[x Hx] _]]; [|done].
  exists path, name, (summary_result w (prepared_self e path name)),
    (summary_data w (prepared_self e path name)),
    (record_of w (prepared_self e path name) priority
       (category_id_for w e token) contents).
  rewrite Henv. unfold report.
  repeat (split; [done|]).
  split; [by rewrite lookup_insert_ne, lookup_insert_eq|].
  split; [by rewrite lookup_insert_ne, lookup_insert_ne, lookup_insert_eq|].
  split; [by rewrite lookup_insert_eq|].
  repeat (split; [done|]).
  split; [simpl; by rewrite Hprio|].
  split.
  { rewrite Htr.
    change (List.filter is_write_json (?a :: ?l))
      with (List.filter is_write_json l).
    rewrite List.filter_app, (quiet_no_write _ Hq). simpl.
    by rewrite (loop_event_no_write _ _ _ _ _ _ _ Hev). }
  split; [done|]. simpl.
  rewrite Hprio in Hp. unfold priority_result in Hp. simpl in Hp.
  unfold str_upper. unfold str_upper in Hp.
  destruct (String.eqb_spec s "") as [->|Hs]; simpl in *; congruence.
Qed.

Lemma upload_report_witness :
  let w := demo_world healthy in
  let e := demo_env (PyStr "/scripts/new.sh") (PyBool false) (PyStr "") in
  exists path name summary data d,
    resolved_path w (env_get e "script_path") = Some path
    /\ name_for e path = Ok name
    /\ env (run (main w) e).2 !! "script_uploaded" = Some (PyBool true)
    /\ env (run (main w) e).2 !! "script_name" = Some name
    /\ env (run (main w) e).2 !! summary_key = Some summary
    /\ record_field "data" summary = Some data
    /\ record_field "script" data = Some name
    /\ record_field "path" data = Some path
    /\ record_field "priority" data = Some (PyStr "after")
    /\ List.filter is_write_json (trace (run (main w) e).2) = [EWriteJson d]
    /\ record_field "name" d = Some name
    /\ record_field "priority" d = Some (PyStr (str_upper w "after")).
Proof.
  intros w e.
  apply (upload_report w e (run (main w) e).2 "after"); vm_compute; reflexivity.
Defined.

(** The events of a run of [main] after a successful authentication. *)
Lemma main_events w e token r st :
  handle_uapi_auth w (env_get e "JSS_URL") (env_get e "API_USERNAME")
    (env_get e "API_PASSWORD") = Ok token ->
  run (main w) e = (r, st) ->
  exists t,
    trace st = EAuth (env_get e "JSS_URL") (env_get e "API_USERNAME")
                 (env_get e "API_PASSWORD") :: t
    /\ Forall (main_event w e token) t.
Proof.
  intros Hauth Hmain. unfold run in Hmain.
  pose proof (prepare_result w {| env := e; trace := [] |} token Hauth) as Hres.
  pose proof (prepare_events w {| env := e; trace := [] |}) as Hev.
  simpl in Hres, Hev. rewrite Hauth in Hev. destruct Hev as (t & Htr & Ht).
  assert (Ht' : Forall (main_event w e token) t).
  { eapply Forall_impl; [exact Ht|]. intros [] Hev; simpl in *; try done.
    destruct Hev as (-> & -> & -> & -> & Htruthy). repeat split; auto. }
  rewrite main_run in Hmain.
  destruct (prepare w {| env := e; trace := [] |}) as [r1 st1].
  simpl in Hres, Htr. subst r1.
  destruct (prepared w e token) as [[[self category_id] token']|x] eqn:Hprepared.
  2:{ injection Hmain as <- <-. by exists t. }
  assert (exists path name,
             resolved_path w (env_get e "script_path") = Some path
             /\ name_for e path = Ok name
             /\ self = prepared_self e path name /\ token' = token)
    as (path & name & Hpath & Hname & -> & ->).
  { unfold prepared in Hprepared. unfold resolved_path.
    destruct (Py.contains "/" (env_get e "script_path")) as [[]|x]; try done;
      simpl in Hprepared.
    - destruct (name_for e (env_get e "script_path")) as [name|] eqn:Hn; [|done].
      injection Hprepared as <- <- <-. by eexists _, _.
    - destruct (truthy (get_path_to_file w (env_get e "script_path"))); [|done].
      destruct (name_for e (get_path_to_file w (env_get e "script_path")))
        as [name|] eqn:Hn; [|done].
      injection Hprepared as <- <- <-. by eexists _, _. }
  assert (Hcheck : Forall (main_event w e token)
                     (check_events w (prepared_self e path name) token)).
  { constructor; [exact I|]. constructor; [exact I|].
    constructor; [|constructor]. simpl. split; [done|]. split; [done|].
    right. split; [done|]. by exists path. }
  assert (Hpost : forall obj_id t0 r st,
             Forall (main_event w e token) t0 ->
             post_and_report w (prepared_self e path name) category_id token obj_id
               (extend st1 t0) = (r, st) ->
             exists t,
               trace st = EAuth (env_get e "JSS_URL") (env_get e "API_USERNAME")
                            (env_get e "API_PASSWORD") :: t
               /\ Forall (main_event w e token) t).
  { clear Hmain. intros obj_id t0 r' st' Ht0 H. apply post_and_report_inv in H.
    destruct (read_result w _) as [contents|x].
    2:{ destruct H as [_ ->]. exists (t ++ t0). simpl. rewrite Htr.
        split; [done|]. by apply Forall_app. }
    destruct (priority_result w _) as [priority|x].
    2:{ destruct H as [_ ->]. exists (t ++ t0). simpl. rewrite Htr.
        split; [done|]. by apply Forall_app. }
    cbv zeta in H. destruct H as (t' & Hloop & _ & Htr' & _).
    match type of Htr' with
    | _ = _ ++ announce ?d ++ _ => exists (t ++ t0 ++ announce d ++ t')
    end.
    rewrite Htr'. unfold extend. cbn [trace]. rewrite Htr.
    split; [by rewrite <- !app_assoc|].
    apply Forall_app. split; [done|]. apply Forall_app. split; [done|].
    apply Forall_app. split.
    - repeat (constructor; [exact I|]). constructor.
    - eapply Forall_impl; [exact Hloop|]. intros [] Hev; simpl in *; try done.
      by destruct Hev as (_ & _ & -> & _). }
  rewrite check_and_post_run in Hmain. cbv zeta in Hmain.
  destruct (truthy _); [destruct (truthy _)|].
  - eapply Hpost; [|exact Hmain]. apply Forall_app. split; [done|].
    repeat (constructor; [exact I|]). constructor.
  - match type of Hmain with
    | (_, extend _ ?t0) = _ => exists (t ++ t0)
    end.
    injection Hmain as <- <-. unfold extend. cbn [trace]. rewrite Htr.
    split; [done|].
    apply Forall_app. split; [done|]. apply Forall_app. split; [done|].
    repeat (constructor; [exact I|]). constructor.
  - by eapply Hpost.
Qed.

(** X11.  [main] authenticates once, before anything else.  With the token it
    is given it looks up, at the configured server, nothing but the supplied
    category and the name settled for the script, and every request carries
    that token. *)
Theorem main_authenticates_once (w : World) (e : gmap string PyVal)
    (token : PyVal) (r : Result Outcome) (st : State) :
  handle_uapi_auth w (env_get e "JSS_URL") (env_get e "API_USERNAME")
    (env_get e "API_PASSWORD") = Ok token ->
  run (main w) e = (r, st) ->
  List.filter is_auth (trace st)
  = [EAuth (env_get e "JSS_URL") (env_get e "API_USERNAME")
       (env_get e "API_PASSWORD")]
  /\ exists t,
       trace st = EAuth (env_get e "JSS_URL") (env_get e "API_USERNAME")
                    (env_get e "API_PASSWORD") :: t
       /\ Forall (main_event w e token) t.
Proof.
  intros Hauth Hmain.
  destruct (main_events w e token r st Hauth Hmain) as (t & Htr & Ht).
  split; [|by exists t].
  rewrite Htr. simpl. f_equal.
  clear Htr. induction Ht as [|ev t Hev _ IH]; [done|].
  simpl. by destruct ev.
Qed.

Lemma main_authenticates_once_witness :
  let w := demo_world healthy in
  let e := demo_env (PyStr "/scripts/existing.sh") (PyBool true) (PyStr "Tools") in
  List.filter is_auth (trace (run (main w) e).2)
  = [EAuth (PyStr "https://jamf.example.com") (PyStr "autopkg") (PyStr "secret")]
  /\ exists t,
       trace (run (main w) e).2
       = EAuth (PyStr "https://jamf.example.com") (PyStr "autopkg")
           (PyStr "secret") :: t
       /\ Forall (main_event w e (PyStr "token")) t.
Proof.
  intros w e.
  apply (main_authenticates_once w e (PyStr "token") (run (main w) e).1
           (run (main w) e).2); vm_compute; reflexivity.
Defined.

(** X12.  All the requests of a run are the same request, with the same
    method, address, token and payload, and the payload is written at most
    once. *)
Theorem retries_repeat_the_request (w : World) (e : gmap string PyVal)
    (r : Result Outcome) (st : State) :
  run (main w) e = (r, st) ->
  (length (List.filter is_write_json (trace st)) <= 1)%nat
  /\ forall c1 c2,
       In c1 (trace st) -> In c2 (trace st) ->
       is_curl c1 = true -> is_curl c2 = true -> c1 = c2.
Proof.
  intros Hmain. apply main_anatomy in Hmain as (t1 & Hq & Hcases).
  assert (Hw1 : List.filter is_write_json t1 = []).
  { clear Hcases. induction Hq as [|ev t He _ IH]; [done|].
    simpl. rewrite IH. by destruct ev. }
  destruct Hcases as [(Htr & _ & _)|Hup].
  { rewrite Htr. split; [simpl; rewrite Hw1; simpl; lia|].
    intros c1 c2 [<-|Hin] _ Hc1 _; [done|].
    destruct c1; try done. by apply quiet_not_curl in Hin. }
  destruct Hup as (path & name & token & contents & priority & t & Hup).
  cbv zeta in Hup. destruct Hup as (_ & _ & _ & _ & _ & _ & Hev & _ & Htr & _).
  assert (Hcurl : forall c, In c (trace st) -> is_curl c = true ->
                            In c t).
  { intros c Hin Hc. rewrite Htr in Hin. destruct Hin as [<-|Hin]; [done|].
    apply in_app_or in Hin as [Hin|Hin].
    { destruct c; try done. by apply quiet_not_curl in Hin. }
    apply in_app_or in Hin as [Hin|Hin]; [|done].
    simpl in Hin. by repeat destruct Hin as [<-|Hin]. }
  split.
  - rewrite Htr. cbn [List.filter is_write_json].
    rewrite !List.filter_app, !length_app, Hw1.
    assert (List.filter is_write_json t = []) as ->.
    { clear Htr Hcurl. induction Hev as [|ev t He _ IH]; [done|].
      simpl. rewrite IH. by destruct ev. }
    simpl. lia.
  - intros c1 c2 Hin1 Hin2 Hc1 Hc2.
    apply Hcurl in Hin1, Hin2; try done.
    rewrite Forall_forall in Hev.
    apply list_elem_of_In, Hev in Hin1. apply list_elem_of_In, Hev in Hin2.
    destruct c1, c2; try done. simpl in Hin1, Hin2.
    destruct Hin1 as (-> & -> & -> & ->). by destruct Hin2 as (-> & -> & -> & ->).
Qed.

Lemma retries_repeat_the_request_witness :
  let w := demo_world slow_start in
  let e := demo_env (PyStr "/scripts/new.sh") (PyBool false) (PyStr "") in
  length (List.filter is_curl (trace (run (main w) e).2)) = 3%nat
  /\ (length (List.filter is_write_json (trace (run (main w) e).2)) <= 1)%nat
  /\ forall c1 c2,
       In c1 (trace (run (main w) e).2) -> In c2 (trace (run (main w) e).2) ->
       is_curl c1 = true -> is_curl c2 = true -> c1 = c2.
Proof.
  intros w e. split; [vm_compute; reflexivity|].
  apply (retries_repeat_the_request w e (run (main w) e).1 (run (main w) e).2).
  vm_compute. reflexivity.
Defined.

Lemma split_after_prefix {A} (P : A -> Prop) (l l1 l2 rest : list A) (c : A) :
  Forall P l -> ~ P c -> l ++ rest = l1 ++ c :: l2 ->
  exists rest1, rest = rest1 ++ c :: l2.
Proof.
  intros Hl Hc. revert l1. induction Hl as [|a l Ha _ IH]; intros l1 Heq.
  - by exists l1.
  - destruct l1 as [|b l1]; simpl in Heq; injection Heq as -> Heq; [done|].
    by apply (IH l1).
Qed.

(** X14.  Once [main] has written the payload it asks the server nothing
    more: what follows are requests, pauses and messages, with no lookup and
    no authentication, so the script is not looked up again between
    attempts. *)
Theorem no_lookup_after_payload (w : World) (e : gmap string PyVal)
    (r : Result Outcome) (st : State) (l1 l2 : list Event) (c : Event) :
  run (main w) e = (r, st) ->
  trace st = l1 ++ c :: l2 ->
  is_upload_step c = true ->
  Forall (fun ev => is_lookup ev = false /\ is_auth ev = false) l2.
Proof.
  intros Hmain Hsplit Hc. apply main_anatomy in Hmain as (t1 & Hq & Hcases).
  assert (Hpre : forall auth, is_auth auth = true ->
             Forall (fun ev => is_upload_step ev = false) (auth :: t1)).
  { intros auth Ha. constructor; [by destruct auth|].
    eapply Forall_impl; [exact Hq|]. intros ev Hev. unfold is_quiet in Hev.
    apply andb_true_iff in Hev as [Hev _]. by apply negb_true_iff. }
  destruct Hcases as [(Htr & _ & _)|Hup].
  { rewrite Htr in Hsplit.
    specialize (Hpre (EAuth (env_get e "JSS_URL") (env_get e "API_USERNAME")
                        (env_get e "API_PASSWORD")) eq_refl).
    rewrite Forall_forall in Hpre.
    assert (In c (l1 ++ c :: l2)) as Hin by (apply in_or_app; right; by left).
    rewrite <- Hsplit in Hin. apply list_elem_of_In, Hpre in Hin. congruence. }
  destruct Hup as (path & name & token & contents & priority & t & Hup).
  cbv zeta in Hup. destruct Hup as (_ & _ & _ & _ & _ & _ & Hev & _ & Htr & _).
  rewrite Htr, app_comm_cons in Hsplit.
  eapply split_after_prefix in Hsplit as (rest1 & Hrest);
    [|apply Hpre; reflexivity|simpl; congruence].
  assert (Hpost : Forall (fun ev => is_lookup ev = false /\ is_auth ev = false)
                    (rest1 ++ c :: l2)).
  { rewrite <- Hrest. apply Forall_app. split.
    - by repeat constructor.
    - eapply Forall_impl; [exact Hev|]. by intros []. }
  apply Forall_app in Hpost as [_ Hpost]. by inversion Hpost.
Qed.

Lemma no_lookup_after_payload_witness :
  let w := demo_world slow_start in
  let e := demo_env (PyStr "/scripts/new.sh") (PyBool false) (PyStr "Tools") in
  exists l1 c l2,
    trace (run (main w) e).2 = l1 ++ c :: l2
    /\ is_write_json c = true
    /\ length (List.filter is_curl l2) = 3%nat
    /\ Forall (fun ev => is_lookup ev = false /\ is_auth ev = false) l2.
Proof.
  intros w e.
  assert (exists l1 c l2,
             trace (run (main w) e).2 = l1 ++ c :: l2
             /\ is_write_json c = true
             /\ length (List.filter is_curl l2) = 3%nat)
    as (l1 & c & l2 & Hsplit & Hc & Hn).
  { eexists (firstn 9 (trace (run (main w) e).2)), _,
      (skipn 10 (trace (run (main w) e).2)).
    vm_compute. repeat split; reflexivity. }
  exists l1, c, l2. repeat (split; [done|]).
  apply (no_lookup_after_payload w e (run (main w) e).1 (run (main w) e).2 l1 l2 c).
  - vm_compute. reflexivity.
  - exact Hsplit.
  - by destruct c.
Defined.

(** X15.  When no category is supplied, the server is not asked about any
    category: the only lookup is that of the script; and a record that is
    built has the sentinel ["-1"] as its category id and the empty string as
    its category name, whatever empty value was supplied. *)
Theorem no_category_no_lookup (w : World) (e : gmap string PyVal)
    (r : Result Outcome) (st : State) :
  truthy (env_get e "script_category") = false ->
  run (main w) e = (r, st) ->
  (forall url obj_type obj_name token,
     In (ELookup url obj_type obj_name token) (trace st) -> obj_type = "script")
  /\ forall d, In (EWriteJson d) (trace st) ->
               record_field "categoryId" d = Some (PyStr "-1")
               /\ record_field "categoryName" d = Some (PyStr "").
Proof.
  intros Hc Hmain. split.
  - intros url obj_type obj_name token' Hin.
    destruct (handle_uapi_auth w (env_get e "JSS_URL") (env_get e "API_USERNAME")
                (env_get e "API_PASSWORD")) as [token|x] eqn:Hauth.
    + destruct (main_events w e token r st Hauth Hmain) as (t & Htr & Ht).
      rewrite Htr in Hin. destruct Hin as [Hin|Hin]; [done|].
      rewrite Forall_forall in Ht. apply list_elem_of_In, Ht in Hin.
      destruct Hin as (_ & _ & [(_ & -> & Htruthy)|(-> & _)]); congruence.
    + unfold run in Hmain. rewrite main_run in Hmain.
      pose proof (prepare_events w {| env := e; trace := [] |}) as Hprep.
      simpl in Hprep. rewrite Hauth in Hprep. rewrite Hprep in Hmain.
      injection Hmain as <- <-. simpl in Hin. by destruct Hin.
  - intros d Hd. apply main_anatomy in Hmain as (t1 & Hq & Hcases).
    destruct Hcases as [(Htr & _ & _)|Hup].
    { rewrite Htr in Hd. destruct Hd as [Hd|Hd]; [done|].
      by apply quiet_not_write in Hd. }
    destruct Hup as (path & name & token & contents & priority & t & Hup).
    cbv zeta in Hup. destruct Hup as (_ & _ & _ & _ & _ & _ & Hev & _ & Htr & _).
    rewrite Htr in Hd. destruct Hd as [Hd|Hd]; [done|].
    apply in_app_or in Hd as [Hd|Hd]; [by apply quiet_not_write in Hd|].
    apply in_app_or in Hd as [Hd|Hd].
    + simpl in Hd. destruct Hd as [Hd|[Hd|[Hd|[Hd|[]]]]]; try done.
      injection Hd as <-. simpl. unfold category_id_for. by rewrite Hc.
    + rewrite Forall_forall in Hev. by apply list_elem_of_In, Hev in Hd.
Qed.

Lemma no_category_no_lookup_witness :
  let w := demo_world healthy in
  let e := demo_env (PyStr "/scripts/new.sh") (PyBool false) PyNone in
  (run (main w) e).1 = Ok Uploaded
  /\ (forall url obj_type obj_name token,
        In (ELookup url obj_type obj_name token) (trace (run (main w) e).2) ->
        obj_type = "script")
  /\ forall d, In (EWriteJson d) (trace (run (main w) e).2) ->
               record_field "categoryId" d = Some (PyStr "-1")
               /\ record_field "categoryName" d = Some (PyStr "").
Proof.
  intros w e. split; [vm_compute; reflexivity|].
  apply (no_category_no_lookup w e (run (main w) e).1 (run (main w) e).2);
    vm_compute; reflexivity.
Defined.

(** ** The declared inputs *)

Lemma env_get_insert k v (e : gmap string PyVal) : env_get (<[k := v]> e) k = v.
Proof. unfold env_get. by rewrite lookup_insert_eq. Qed.

(** X13.  The variables that [main] copies from the environment into its
    attributes are the declared input variables, all of them and no others:
    two environments in which the declared inputs read the same give the same
    attributes, and a change to what any one declared input reads changes
    the attributes. *)
Theorem main_reads_declared_inputs (e : gmap string PyVal) :
  (forall e',
     (forall k, k ∈ names input_variables -> env_get e' k = env_get e k) ->
     read_inputs e' = read_inputs e)
  /\ (forall k v,
        k ∈ names input_variables -> v <> env_get e k ->
        read_inputs (<[k := v]> e) <> read_inputs e).
Proof.
  split.
  - intros e' H. unfold read_inputs.
    repeat match goal with
           | |- context [env_get e' ?k] =>
               rewrite (H k) by (apply list_elem_of_In; simpl; auto 25)
           end.
    reflexivity.
  - intros k v Hk Hv Heq. apply list_elem_of_In in Hk. simpl in Hk.
    repeat destruct Hk as [<-|Hk]; try done.
    all: injection Heq; intros; rewrite env_get_insert in *; congruence.
Qed.

Lemma main_reads_declared_inputs_witness :
  let e := demo_env (PyStr "/scripts/new.sh") (PyBool false) (PyStr "Tools") in
  read_inputs (<["NAME" := PyStr "Firefox"]> e) = read_inputs e
  /\ read_inputs (<["sleep" := PyStr "45"]> e) <> read_inputs e.
Proof.
  intros e.
  destruct (main_reads_declared_inputs e) as (Hsame & Hchange). split.
  - apply Hsame. intros k Hk. unfold env_get.
    rewrite lookup_insert_ne; [done|].
    intros <-. apply list_elem_of_In in Hk. simpl in Hk. intuition discriminate.
  - apply Hchange.
    + apply list_elem_of_In. simpl. auto 25.
    + vm_compute. discriminate.
Defined.

(** ** The default name *)

Lemma str_has_cons c a s :
  str_has c (String a s) = Ascii.eqb c a || str_has c s.
Proof. reflexivity. Qed.

Lemma basename_str_spec p :
  exists dir,
    p = (dir ++ basename_str p)%string
    /\ str_has "/" (basename_str p) = false
    /\ (dir = "" \/ exists d, dir = (d ++ "/")%string).
Proof.
  induction p as [|c r (dir & Hr & Hb & Hdir)].
  - exists "". split; [done|]. split; [done|]. by left.
  - simpl. destruct (Ascii.eqb_spec c "/") as [->|Hc].
    + exists (String "/" dir).
      split; [change (String "/" r = String "/" (dir ++ basename_str r)%string);
              by rewrite <- Hr|].
      split; [done|].
      right. destruct Hdir as [->|[d ->]]; [by exists ""|by exists (String "/" d)].
    + destruct (str_has "/" r) eqn:Hs.
      * exists (String c dir).
        split; [change (String c r = String c (dir ++ basename_str r)%string);
                by rewrite <- Hr|].
        split; [done|].
        right. destruct Hdir as [->|[d ->]]; [|by exists (String c d)].
        change (r = basename_str r) in Hr. rewrite <- Hr in Hb. congruence.
      * exists "". split; [done|]. split; [|by left].
        rewrite str_has_cons, Hs.
        destruct (Ascii.eqb_spec "/"%char c) as [<-|_]; [done|done].
Qed.

(** X16.  When no name is configured, the script is named after the last
    component of its path: what follows the last slash, with no slash in it.
    This takes a path that is a string; anything else ends in a
    [TypeError]. *)
Theorem default_name_is_last_component (self : Self) (st : State) :
  truthy (self_script_name self) = false ->
  match self_script_path self with
  | PyStr p =>
      exists dir base,
        default_name self st = (Ok (set_script_name (PyStr base) self), st)
        /\ p = (dir ++ base)%string
        /\ str_has "/" base = false
        /\ (dir = "" \/ exists d, dir = (d ++ "/")%string)
  | _ => default_name self st = (Raise TypeError, st)
  end.
Proof.
  intros Hname. rewrite default_name_run, Hname.
  destruct (self_script_path self) as [| | | |p| |]; try done.
  destruct (basename_str_spec p) as (dir & Hp & Hb & Hdir).
  by exists dir, (basename_str p).
Qed.

Lemma default_name_is_last_component_witness :
  exists dir base,
    default_name (read_inputs (demo_env (PyStr "/scripts/new.sh") (PyBool false)
                                 (PyStr ""))) {| env := ∅; trace := [] |}
    = (Ok (set_script_name (PyStr base)
             (read_inputs (demo_env (PyStr "/scripts/new.sh") (PyBool false)
                             (PyStr "")))), {| env := ∅; trace := [] |})
    /\ "/scripts/new.sh" = (dir ++ base)%string
    /\ str_has "/" base = false
    /\ (dir = "" \/ exists d, dir = (d ++ "/")%string).
Proof.
  apply (default_name_is_last_component
           (read_inputs (demo_env (PyStr "/scripts/new.sh") (PyBool false)
                           (PyStr ""))) {| env := ∅; trace := [] |}).
  vm_compute. reflexivity.
Defined.

(** X17.  [script_name] is an input and an output: after an upload the
    environment holds the name that was used, and an invocation that follows
    in this environment takes that name whatever path it is given. *)
Theorem uploaded_name_is_inherited (w : World) (e : gmap string PyVal)
    (st : State) :
  files_are_named w ->
  run (main w) e = (Ok Uploaded, st) ->
  exists name,
    env st !! "script_name" = Some name
    /\ truthy name = true
    /\ forall script_path path,
         name_for (<["script_path" := script_path]> (env st)) path = Ok name.
Proof.
  intros Hfs Hmain. apply main_anatomy in Hmain as (t1 & _ & Hcases).
  destruct Hcases as [(_ & Hr & _)|Hup]; [done|].
  destruct Hup as (path & name & token & contents & priority & t & Hup).
  cbv zeta in Hup.
  destruct Hup as (_ & _ & Hname & _ & Hread & _ & _ & _ & _ & Hout).
  destruct Hout as [[_ Henv]|[[x Hx] _]]; [|done].
  assert (Htruthy : truthy name = true).
  { unfold name_for in Hname.
    destruct (truthy (env_get e "script_name")) eqn:Hn; [congruence|].
    destruct path as [| | | |p| |]; try discriminate.
    injection Hname as <-. unfold read_result in Hread. simpl in *.
    destruct (fs w p) as [[c|]|] eqn:Hp; try discriminate.
    apply negb_true_iff, String.eqb_neq. by eapply Hfs. }
  exists name. rewrite Henv. unfold report.
  split; [by rewrite lookup_insert_ne, lookup_insert_ne, lookup_insert_eq|].
  split; [done|].
  intros script_path path'. unfold name_for, env_get.
  rewrite lookup_insert_ne, lookup_insert_ne, lookup_insert_ne, lookup_insert_eq
    by done.
  simpl. by rewrite Htruthy.
Qed.

Lemma uploaded_name_is_inherited_witness :
  let w := demo_world healthy in
  let e := demo_env (PyStr "/scripts/new.sh") (PyBool false) (PyStr "") in
  let e' := <["script_path" := PyStr "/scripts/empty.sh"]> (env (run (main w) e).2) in
  (exists name,
     env (run (main w) e).2 !! "script_name" = Some name
     /\ truthy name = true
     /\ forall script_path path,
          name_for (<["script_path" := script_path]> (env (run (main w) e).2)) path
          = Ok name)
  /\ List.filter is_lookup (trace (run (main w) e').2)
     = [ELookup (PyStr "https://jamf.example.com") "script" (PyStr "new.sh")
          (PyStr "token")].
Proof.
  intros w e e'. split; [|vm_compute; reflexivity].
  apply (uploaded_name_is_inherited w e (run (main w) e).2
           (demo_files_are_named healthy)).
  vm_compute. reflexivity.
Defined.
